(** * Performance intelligence layer of the Autonomous Trading System

    A shallow embedding of [core/performance/regime.py],
    [core/performance/database.py], [core/performance/trade_logger.py] and
    [core/performance/analyzer.py], and the properties of the recorder, the
    regime classifier and the analyzer that are established about them;
    and of the signal logic of [core/signals.py], [crossed_above] of
    [core/indicators.py] and the registry of [core/strategy_registry.py].

    Conventions of the embedding:
    - a Python [float] is an IEEE 754 binary64 value, modelled by
      [spec_float] with precision 53 and maximal exponent 1024, and every
      arithmetic operator of the source is the correctly rounded operation
      of [SpecFloat];
    - a Python [dict] read with [.get] is a [gmap] with string keys;
    - a nullable SQL column is an [option]; a REAL column holds a float as
      the store reads it back (NULL for NaN, [0.0] for a zero of either
      sign); the two tables are lists of rows in insertion order, together
      with the AUTOINCREMENT counters;
    - a Python exception ends a call with [Raise];
    - a Python [int] is an unbounded [Z]; where the source hands one to the
      store or to NumPy, the statements about that call take it in the range
      the target accepts;
    - a pandas [Series] of floats over the default index is the list of its
      values. *)

From Stdlib Require Import ZArith Bool List Ascii String Lia.
From Stdlib Require Import Floats.SpecFloat.
From Stdlib Require Import Sorting.Sorted.
From stdpp Require Import base decidable option list gmap strings pretty.

Open Scope Z_scope.

(** ** Python values used by the layer *)

(** *** binary64 floats *)

Module Float.

Definition prec : Z := 53.
Definition emax : Z := 1024.

Abbreviation float := spec_float.

Definition nan : float := S754_nan.
Definition inf : float := S754_infinity false.
Definition zero : float := S754_zero false.

Definition add : float -> float -> float := SFadd prec emax.
Definition sub : float -> float -> float := SFsub prec emax.
Definition mul : float -> float -> float := SFmul prec emax.
Definition div : float -> float -> float := SFdiv prec emax.
Definition abs : float -> float := SFabs.
Definition opp : float -> float := SFopp.

Definition eqb : float -> float -> bool := SFeqb.
Definition ltb : float -> float -> bool := SFltb.
Definition leb : float -> float -> bool := SFleb.
(** [x > y] and [x >= y] are the mirrored comparisons. *)
Definition gtb (x y : float) : bool := ltb y x.
Definition geb (x y : float) : bool := leb y x.

(** [float(n)] for a Python [int]: the nearest binary64, ties to even. *)
Definition of_Z (n : Z) : float := binary_normalize prec emax n 0 false.

(** A decimal literal [n/d] of the source, e.g. [0.15] is [of_ratio 15 100]:
    both parts are exact, and the division rounds correctly. *)
Definition of_ratio (n d : Z) : float := div (of_Z n) (of_Z d).

Definition is_nan (x : float) : bool :=
  match x with S754_nan => true | _ => false end.

(** The values a Python float can take: NaN, the infinities, the zeros and
    the finite numbers whose mantissa and exponent are canonical. *)
Definition valid (x : float) : bool := valid_binary prec emax x.

(** [bool(x)] of a float: false for [0.0] and [-0.0] only. *)
Definition truthy (x : float) : bool := negb (eqb x zero).

(** [math.floor] of a finite float, as an integer. *)
Definition floor (x : float) : Z :=
  match x with
  | S754_finite s m e =>
      if 0 <=? e then cond_Zopp s (Zpos m * 2 ^ e)
      else cond_Zopp s (Zpos m) / 2 ^ (- e)
  | _ => 0
  end.

(** [n / d] rounded to the nearest integer, ties to even ([0 <= n], [0 < d]). *)
Definition div_half_even (n d : Z) : Z :=
  let q := n / d in
  match 2 * (n mod d) ?= d with
  | Lt => q
  | Gt => q + 1
  | Eq => if Z.even q then q else q + 1
  end.

(** The built-in [round(x, ndigits)] for [0 <= ndigits]: the exact value of
    [x] is rounded to [ndigits] decimal places, ties to even, and the
    decimal result is converted back to the nearest float. NaN and the
    infinities round to themselves; the sign survives a result of zero. *)
Definition round (x : float) (ndigits : Z) : float :=
  match x with
  | S754_finite s m e =>
      let p := 10 ^ ndigits in
      let q := if 0 <=? e then Zpos m * 2 ^ e * p
               else div_half_even (Zpos m * p) (2 ^ (- e)) in
      match q with
      | Zpos qm => div (S754_finite s qm 0) (of_Z p)
      | _ => S754_zero s
      end
  | _ => x
  end.

(** [sum(xs)]: left to right from the integer [0]. *)
Definition sum (xs : list float) : float := fold_left add xs zero.

End Float.

Import Float.

(** *** Exceptions *)

(** A call either returns or raises. [IntegrityError] is raised by the store
    when a NOT NULL column would receive NULL, [TypeError] by the
    interpreter when [None] is compared with a number, [ValueError] by
    NumPy for a percentile outside [[0, 100]]. *)
Inductive exn := TypeError | IntegrityError | ValueError.

Inductive result (A : Type) :=
  | Return (a : A)
  | Raise (e : exn).
Arguments Return {A} a.
Arguments Raise {A} e.

Definition bind {A B} (r : result A) (k : A -> result B) : result B :=
  match r with
  | Return a => k a
  | Raise e => Raise e
  end.

Notation "x <-- r ;; k" := (bind r (fun x => k))
  (at level 100, r at next level, right associativity).

(** *** Identifiers handed over by the execution engine *)

(** [trade_id] is annotated [str], and both recorder entry points pass it
    through [str()], so that an engine may hand over its integer keys. *)
Inductive pyval :=
  | PyStr (s : string)
  | PyInt (n : Z).

(** The built-in [str()]. *)
Definition str (v : pyval) : string :=
  match v with
  | PyStr s => s
  | PyInt n => pretty n
  end.

(** [len(xs)]. *)
Definition len {A} (xs : list A) : Z := Z.of_nat (length xs).

(** [xs[lo:hi]] for any two integers: negative bounds count from the end and
    both are clipped to the list. *)
Definition slice_bound {A} (xs : list A) (i : Z) : Z :=
  if i <? 0 then Z.max 0 (len xs + i) else Z.min i (len xs).

Definition slice {A} (xs : list A) (lo hi : Z) : list A :=
  let a := slice_bound xs lo in
  let b := slice_bound xs hi in
  firstn (Z.to_nat (b - a)) (skipn (Z.to_nat a) xs).

(** ** regime.py *)

(** *** The percentile of NumPy *)

(** [numpy.percentile] is a library routine outside the repository: the
    classifier below takes it as a parameter, and the module [np] holds the
    instance the examples are run with. *)
Module np.

Fixpoint insert_sorted (x : float) (xs : list float) : list float :=
  match xs with
  | [] => [x]
  | y :: ys => if leb x y then x :: xs else y :: insert_sorted x ys
  end.

Definition sort (xs : list float) : list float :=
  fold_right insert_sorted [] xs.

(** [a + (b - a) * t], taken from the upper end once [t >= 0.5]. *)
Definition lerp (a b t : float) : float :=
  let diff_b_a := sub b a in
  if geb t (of_ratio 1 2)
  then sub b (mul diff_b_a (sub (of_Z 1) t))
  else add a (mul diff_b_a t).

(** Modelled from the spec: [numpy.percentile], which is not part of the
    repository. The definition follows the words of the design, linear
    interpolation between ranks: the sample is sorted, the rank
    [(n - 1) * q / 100] is split into its integer part and the fraction
    [gamma], and the result interpolates between the two neighbours. A NaN
    in the sample makes the percentile NaN; a percentile outside
    [[0, 100]] is refused. *)
Definition percentile (a : list float) (q : float) : result float :=
  if negb (leb zero q && leb q (of_Z 100)) then Raise ValueError
  else if existsb is_nan a then Return nan
  else
    let arr := sort a in
    let virtual_index := mul (of_Z (len a - 1)) (div q (of_Z 100)) in
    let previous_index := Float.floor virtual_index in
    let next_index := Z.min (previous_index + 1) (len a - 1) in
    let gamma := sub virtual_index (of_Z previous_index) in
    Return (lerp (nth (Z.to_nat previous_index) arr nan)
                 (nth (Z.to_nat next_index) arr nan) gamma).

End np.

(** *** The classifier *)

Section RegimeClassifier.

(** [np.percentile], see [np.percentile] above for the instance in use. *)
Variable percentile : list float -> float -> result float.

Definition classify_volatility (bb_width : float)
    (bb_width_history : list float)
    (low_percentile high_percentile : float) : result string :=
  if match bb_width_history with [] => true | _ => false end
     || (len bb_width_history <? 2)
  then Return "unknown"%string
  else
    low_threshold <-- percentile bb_width_history low_percentile ;;
    high_threshold <-- percentile bb_width_history high_percentile ;;
    if ltb bb_width low_threshold then Return "low"%string
    else if gtb bb_width high_threshold then Return "high"%string
    else Return "medium"%string.

(** The keyword defaults [low_percentile=25.0] and [high_percentile=75.0]. *)
Definition default_low_percentile : float := of_Z 25.
Definition default_high_percentile : float := of_Z 75.

(** [adx] is [None] when the indicator is absent. *)
Definition classify_trend (adx : option float) : string :=
  match adx with
  | None => "unknown"
  | Some adx =>
      if is_nan adx then "unknown"
      else if ltb adx (of_Z 20) then "ranging"
      else if ltb adx (of_Z 30) then "weak_trend"
      else "strong_trend"
  end%string.

Definition classify_regime (bb_width : float) (bb_width_history : list float)
    (adx : option float) : result (gmap string string) :=
  vol <-- classify_volatility bb_width bb_width_history
            default_low_percentile default_high_percentile ;;
  let trend := classify_trend adx in
  let combined := (vol ++ "_" ++ trend)%string in
  Return (<["volatility"%string := vol]>
           (<["trend"%string := trend]>
             (<["combined"%string := combined]> ∅))).

End RegimeClassifier.

(** ** database.py *)

(** What the store reads back for a float kept in a REAL column. The store
    keeps a float that is a whole number as an integer and converts it back
    when it is read, so that a zero of either sign reads back as [0.0];
    every other float that is not NaN reads back as itself. *)
Definition read_back (x : float) : float :=
  match x with
  | S754_zero _ => zero
  | _ => x
  end.

(** What the SQLite driver stores for a Python float bound to a REAL column:
    NaN is stored as NULL, every other float as it reads back. *)
Definition sql_real (x : float) : option float :=
  if is_nan x then None else Some (read_back x).

(** Table [trade_log]: the columns of [_ensure_tables], in their order.
    [trade_id], [pair], [strategy], [entry_time] and [entry_price] are
    NOT NULL; [created_at] defaults to the clock of the store. *)
Module trade_log.

Record row := {
  id : Z;
  trade_id : string;
  pair : string;
  strategy : string;
  entry_time : string;
  entry_price : float;
  entry_rsi : option float;
  entry_tema : option float;
  entry_bb_percent : option float;
  entry_bb_width : option float;
  entry_adx : option float;
  entry_volatility_regime : option string;
  entry_trend_regime : option string;
  entry_regime : option string;
  exit_time : option string;
  exit_price : option float;
  exit_reason : option string;
  exit_rsi : option float;
  exit_tema : option float;
  exit_bb_percent : option float;
  exit_bb_width : option float;
  exit_adx : option float;
  exit_volatility_regime : option string;
  exit_trend_regime : option string;
  exit_regime : option string;
  pnl_absolute : option float;
  pnl_percent : option float;
  duration_minutes : option float;
  regime_changed : option Z;
  created_at : string
}.

End trade_log.

(** Table [regime_snapshots]. *)
Module regime_snapshots.

Record row := {
  id : Z;
  timestamp : string;
  pair : string;
  volatility_regime : option string;
  trend_regime : option string;
  regime : option string;
  bb_width : option float;
  adx : option float;
  rsi : option float;
  created_at : string
}.

End regime_snapshots.

(** The database file: both tables in insertion order, and for each the
    largest key AUTOINCREMENT has handed out so far ([sqlite_sequence]). *)
Record database := {
  trade_log_rows : list trade_log.row;
  trade_log_seq : Z;
  regime_snapshots_rows : list regime_snapshots.row;
  regime_snapshots_seq : Z
}.

(** The tables [get_connection] creates in a new file. *)
Definition empty_database : database :=
  {| trade_log_rows := []; trade_log_seq := 0;
     regime_snapshots_rows := []; regime_snapshots_seq := 0 |}.

(** The key AUTOINCREMENT gives the next row: one more than every key that
    is or ever was in the table. *)
Definition next_id (ids : list Z) (seq : Z) : Z :=
  fold_right Z.max seq ids + 1.

(** The columns written at entry, and the columns written at exit. *)
Definition entry_columns (r : trade_log.row) :=
  (trade_log.trade_id r, trade_log.pair r, trade_log.strategy r,
   trade_log.entry_time r, trade_log.entry_price r,
   (trade_log.entry_rsi r, trade_log.entry_tema r,
    trade_log.entry_bb_percent r, trade_log.entry_bb_width r,
    trade_log.entry_adx r),
   (trade_log.entry_volatility_regime r, trade_log.entry_trend_regime r,
    trade_log.entry_regime r)).

Definition exit_columns (r : trade_log.row) :=
  (trade_log.exit_time r, trade_log.exit_price r, trade_log.exit_reason r,
   (trade_log.exit_rsi r, trade_log.exit_tema r,
    trade_log.exit_bb_percent r, trade_log.exit_bb_width r,
    trade_log.exit_adx r),
   (trade_log.exit_volatility_regime r, trade_log.exit_trend_regime r,
    trade_log.exit_regime r),
   (trade_log.pnl_absolute r, trade_log.pnl_percent r,
    trade_log.duration_minutes r, trade_log.regime_changed r)).

(** Every exit column of a row that was never closed is NULL. *)
Definition exit_unset (r : trade_log.row) : Prop :=
  exit_columns r =
    (None, None, None, (None, None, None, None, None),
     (None, None, None), (None, None, None, None)).

(** [exit_time IS NULL] and [exit_time IS NOT NULL]. *)
Definition is_open (r : trade_log.row) : bool :=
  match trade_log.exit_time r with None => true | Some _ => false end.

Definition is_closed (r : trade_log.row) : bool := negb (is_open r).

(** ** trade_logger.py *)

Module TradeLogger.

(** [indicators.get(key)] bound to a REAL column. *)
Definition get_real (indicators : gmap string float) (key : string)
    : option float :=
  indicators !! key ≫= sql_real.

(** [now] is the reading of the store's clock that fills [created_at]. *)
Definition log_entry (now : string) (trade_id : pyval)
    (pair strategy entry_time : string) (entry_price : float)
    (indicators : gmap string float) (regime : gmap string string)
    (db : database) : result (Z * database) :=
  match sql_real entry_price with
  | None => Raise IntegrityError
  | Some price =>
      let lastrowid :=
        next_id (trade_log.id <$> trade_log_rows db) (trade_log_seq db) in
      let inserted :=
        {| trade_log.id := lastrowid;
           trade_log.trade_id := str trade_id;
           trade_log.pair := pair;
           trade_log.strategy := strategy;
           trade_log.entry_time := entry_time;
           trade_log.entry_price := price;
           trade_log.entry_rsi := get_real indicators "rsi";
           trade_log.entry_tema := get_real indicators "tema";
           trade_log.entry_bb_percent := get_real indicators "bb_percent";
           trade_log.entry_bb_width := get_real indicators "bb_width";
           trade_log.entry_adx := get_real indicators "adx";
           trade_log.entry_volatility_regime := regime !! "volatility"%string;
           trade_log.entry_trend_regime := regime !! "trend"%string;
           trade_log.entry_regime := regime !! "combined"%string;
           trade_log.exit_time := None;
           trade_log.exit_price := None;
           trade_log.exit_reason := None;
           trade_log.exit_rsi := None;
           trade_log.exit_tema := None;
           trade_log.exit_bb_percent := None;
           trade_log.exit_bb_width := None;
           trade_log.exit_adx := None;
           trade_log.exit_volatility_regime := None;
           trade_log.exit_trend_regime := None;
           trade_log.exit_regime := None;
           trade_log.pnl_absolute := None;
           trade_log.pnl_percent := None;
           trade_log.duration_minutes := None;
           trade_log.regime_changed := None;
           trade_log.created_at := now |} in
      Return (lastrowid,
              {| trade_log_rows := trade_log_rows db ++ [inserted];
                 trade_log_seq := lastrowid;
                 regime_snapshots_rows := regime_snapshots_rows db;
                 regime_snapshots_seq := regime_snapshots_seq db |})
  end.

(** [SELECT ... WHERE trade_id = ? ORDER BY id DESC LIMIT 1]: among the
    rows of that identifier, open or closed, the one with the largest key. *)
Definition latest (rows : list trade_log.row) : option trade_log.row :=
  fold_left
    (fun best r =>
       match best with
       | Some b => if trade_log.id b <? trade_log.id r then Some r else best
       | None => Some r
       end)
    rows None.

Definition select_latest (trade_id : string) (rows : list trade_log.row)
    : option trade_log.row :=
  latest (List.filter (fun r => bool_decide (trade_log.trade_id r = trade_id)) rows).

(** The SET clause of the UPDATE: the fifteen exit columns. *)
Definition set_exit (exit_time : string) (exit_price : float)
    (exit_reason : string) (indicators : gmap string float)
    (regime : gmap string string) (pnl_absolute pnl_percent : float)
    (duration_minutes : float) (regime_changed : Z)
    (r : trade_log.row) : trade_log.row :=
  {| trade_log.id := trade_log.id r;
     trade_log.trade_id := trade_log.trade_id r;
     trade_log.pair := trade_log.pair r;
     trade_log.strategy := trade_log.strategy r;
     trade_log.entry_time := trade_log.entry_time r;
     trade_log.entry_price := trade_log.entry_price r;
     trade_log.entry_rsi := trade_log.entry_rsi r;
     trade_log.entry_tema := trade_log.entry_tema r;
     trade_log.entry_bb_percent := trade_log.entry_bb_percent r;
     trade_log.entry_bb_width := trade_log.entry_bb_width r;
     trade_log.entry_adx := trade_log.entry_adx r;
     trade_log.entry_volatility_regime := trade_log.entry_volatility_regime r;
     trade_log.entry_trend_regime := trade_log.entry_trend_regime r;
     trade_log.entry_regime := trade_log.entry_regime r;
     trade_log.exit_time := Some exit_time;
     trade_log.exit_price := sql_real exit_price;
     trade_log.exit_reason := Some exit_reason;
     trade_log.exit_rsi := get_real indicators "rsi";
     trade_log.exit_tema := get_real indicators "tema";
     trade_log.exit_bb_percent := get_real indicators "bb_percent";
     trade_log.exit_bb_width := get_real indicators "bb_width";
     trade_log.exit_adx := get_real indicators "adx";
     trade_log.exit_volatility_regime := regime !! "volatility"%string;
     trade_log.exit_trend_regime := regime !! "trend"%string;
     trade_log.exit_regime := regime !! "combined"%string;
     trade_log.pnl_absolute := sql_real pnl_absolute;
     trade_log.pnl_percent := sql_real pnl_percent;
     trade_log.duration_minutes := sql_real duration_minutes;
     trade_log.regime_changed := Some regime_changed;
     trade_log.created_at := trade_log.created_at r |}.

(** The WHERE clause of the UPDATE: [trade_id = ? AND exit_time IS NULL]. *)
Definition update_matches (trade_id : string) (r : trade_log.row) : bool :=
  bool_decide (trade_log.trade_id r = trade_id) && is_open r.

(** [exit_time] and [exit_reason] are strings, as annotated: a closed row
    has a non-NULL [exit_time]. The two prices and the duration are floats. *)
Definition log_exit (trade_id : pyval) (exit_time : string)
    (exit_price : float) (exit_reason : string)
    (indicators : gmap string float) (regime : gmap string string)
    (entry_price duration_minutes : float)
    (db : database) : bool * database :=
  let pnl_absolute := sub exit_price entry_price in
  let pnl_percent :=
    if truthy entry_price
    then mul (div pnl_absolute entry_price) (of_Z 100)
    else zero in
  match select_latest (str trade_id) (trade_log_rows db) with
  | None => (false, db)
  | Some row =>
      let regime_changed :=
        if bool_decide (trade_log.entry_regime row ≠ regime !! "combined"%string)
        then 1 else 0 in
      (true,
       {| trade_log_rows :=
            (fun r =>
               if update_matches (str trade_id) r
               then set_exit exit_time exit_price exit_reason indicators
                      regime pnl_absolute pnl_percent duration_minutes
                      regime_changed r
               else r) <$> trade_log_rows db;
          trade_log_seq := trade_log_seq db;
          regime_snapshots_rows := regime_snapshots_rows db;
          regime_snapshots_seq := regime_snapshots_seq db |})
  end.

Definition log_regime_snapshot (now : string) (pair timestamp : string)
    (regime : gmap string string) (indicators : gmap string float)
    (db : database) : database :=
  let lastrowid :=
    next_id (regime_snapshots.id <$> regime_snapshots_rows db)
            (regime_snapshots_seq db) in
  let inserted :=
    {| regime_snapshots.id := lastrowid;
       regime_snapshots.timestamp := timestamp;
       regime_snapshots.pair := pair;
       regime_snapshots.volatility_regime := regime !! "volatility"%string;
       regime_snapshots.trend_regime := regime !! "trend"%string;
       regime_snapshots.regime := regime !! "combined"%string;
       regime_snapshots.bb_width := get_real indicators "bb_width";
       regime_snapshots.adx := get_real indicators "adx";
       regime_snapshots.rsi := get_real indicators "rsi";
       regime_snapshots.created_at := now |} in
  {| trade_log_rows := trade_log_rows db;
     trade_log_seq := trade_log_seq db;
     regime_snapshots_rows := regime_snapshots_rows db ++ [inserted];
     regime_snapshots_seq := lastrowid |}.

(** [ORDER BY entry_time DESC LIMIT 1] over the rows kept by the WHERE
    clause: the first row with the greatest [entry_time]. *)
Definition latest_entry (rows : list trade_log.row) : option trade_log.row :=
  fold_left
    (fun best r =>
       match best with
       | Some b =>
           if String.ltb (trade_log.entry_time b) (trade_log.entry_time r)
           then Some r else best
       | None => Some r
       end)
    rows None.

Definition find_open_trade (pair : string) (db : database) : option string :=
  trade_log.trade_id <$>
    latest_entry
      (List.filter
         (fun r => bool_decide (trade_log.pair r = pair) && is_open r)
         (trade_log_rows db)).

End TradeLogger.

(** ** analyzer.py *)

(** The dictionary [summary] returns. *)
Module summary_dict.

Record t := {
  total_trades : Z;
  wins : Z;
  losses : Z;
  win_rate : float;
  avg_win_pct : float;
  avg_loss_pct : float;
  expectancy_pct : float;
  profit_factor : float;
  avg_duration_min : float
}.

End summary_dict.

(** The dictionary [_compute_summary] returns. *)
Module window_dict.

Record t := {
  total_trades : Z;
  win_rate : float;
  avg_win_pct : float;
  avg_loss_pct : float;
  expectancy_pct : float;
  profit_factor : float
}.

End window_dict.

(** The two shapes of the dictionary [detect_decay] returns; the key
    [has_enough_data] tells them apart. *)
Inductive decay_report :=
  | InsufficientData (total_closed_trades needed : Z) (recommendation : string)
  | DecayReport (total_closed_trades : Z) (recent baseline : window_dict.t)
      (win_rate_delta expectancy_delta : float) (decay_detected : bool)
      (recommendation : string).

Definition has_enough_data (r : decay_report) : bool :=
  match r with
  | InsufficientData _ _ _ => false
  | DecayReport _ _ _ _ _ _ _ => true
  end.

Definition total_closed_trades (r : decay_report) : Z :=
  match r with
  | InsufficientData n _ _ => n
  | DecayReport n _ _ _ _ _ _ => n
  end.

(** The key [needed], present in the first shape only. *)
Definition needed (r : decay_report) : option Z :=
  match r with
  | InsufficientData _ n _ => Some n
  | DecayReport _ _ _ _ _ _ _ => None
  end.

Module PerformanceAnalyzer.

(** [if strategy:] for an optional string: [None] and [""] are false. *)
Definition given (param : option string) : bool :=
  match param with
  | Some s => negb (bool_decide (s = ""%string))
  | None => false
  end.

(** The P&L column of the fetched rows as numbers: the first comparison of
    a NULL ([None]) with [0] raises [TypeError]. *)
Fixpoint numbers (pnls : list (option float)) : result (list float) :=
  match pnls with
  | [] => Return []
  | Some p :: rest => ps <-- numbers rest ;; Return (p :: ps)
  | None :: _ => Raise TypeError
  end.

(** The rows of [SELECT ... FROM trade_log WHERE c1 AND c2 AND ...]. *)
Definition select_where (where_clauses : list (trade_log.row -> bool))
    (db : database) : list trade_log.row :=
  List.filter (fun r => forallb (fun clause => clause r) where_clauses)
    (trade_log_rows db).

Definition strategy_is (strategy : option string) (r : trade_log.row) : bool :=
  bool_decide (Some (trade_log.strategy r) = strategy).

Definition entry_regime_is (regime : option string) (r : trade_log.row) : bool :=
  bool_decide (trade_log.entry_regime r = regime).

Definition summary (strategy regime : option string) (db : database)
    : result summary_dict.t :=
  let where_clauses :=
    [is_closed]
    ++ (if given strategy then [strategy_is strategy] else [])
    ++ (if given regime then [entry_regime_is regime] else []) in
  let rows := select_where where_clauses db in
  match rows with
  | [] =>
      Return {| summary_dict.total_trades := 0;
                summary_dict.wins := 0;
                summary_dict.losses := 0;
                summary_dict.win_rate := zero;
                summary_dict.avg_win_pct := zero;
                summary_dict.avg_loss_pct := zero;
                summary_dict.expectancy_pct := zero;
                summary_dict.profit_factor := zero;
                summary_dict.avg_duration_min := zero |}
  | _ =>
      let durations := omap trade_log.duration_minutes rows in
      pnls <-- numbers (trade_log.pnl_percent <$> rows) ;;
      let wins := List.filter (fun p => gtb p zero) pnls in
      let losses := List.filter (fun p => leb p zero) pnls in
      let total := len pnls in
      let win_count := len wins in
      let loss_count := len losses in
      let win_rate :=
        if 0 <? total then div (of_Z win_count) (of_Z total) else zero in
      let avg_win :=
        match wins with [] => zero | _ => div (sum wins) (of_Z (len wins)) end in
      let avg_loss :=
        match losses with
        | [] => zero
        | _ => div (sum losses) (of_Z (len losses))
        end in
      let expectancy :=
        add (mul win_rate avg_win) (mul (sub (of_Z 1) win_rate) avg_loss) in
      let gross_wins := sum wins in
      let gross_losses := abs (sum losses) in
      let profit_factor :=
        if gtb gross_losses zero then div gross_wins gross_losses
        else if gtb gross_wins zero then inf
        else zero in
      let avg_duration :=
        match durations with
        | [] => zero
        | _ => div (sum durations) (of_Z (len durations))
        end in
      Return {| summary_dict.total_trades := total;
                summary_dict.wins := win_count;
                summary_dict.losses := loss_count;
                summary_dict.win_rate := round win_rate 4;
                summary_dict.avg_win_pct := round avg_win 4;
                summary_dict.avg_loss_pct := round avg_loss 4;
                summary_dict.expectancy_pct := round expectancy 4;
                summary_dict.profit_factor := round profit_factor 4;
                summary_dict.avg_duration_min := round avg_duration 2 |}
  end.

(** [SELECT DISTINCT entry_regime]: each label of the rows once. The rows
    kept by the WHERE clause have a label ([entry_regime IS NOT NULL]). *)
Definition distinct_entry_regime (rows : list trade_log.row) : list string :=
  remove_dups (omap trade_log.entry_regime rows).

(** The loop [for row in regimes: result[regime_name] = ...]: one key per
    label, in the order of the query. *)
Fixpoint by_regime_loop (strategy : option string) (regimes : list string)
    (db : database) : result (list (string * summary_dict.t)) :=
  match regimes with
  | [] => Return []
  | regime_name :: rest =>
      s <-- summary strategy (Some regime_name) db ;;
      result <-- by_regime_loop strategy rest db ;;
      Return ((regime_name, s) :: result)
  end.

Definition by_regime (strategy : option string) (db : database)
    : result (list (string * summary_dict.t)) :=
  let where_clauses :=
    [is_closed; fun r => bool_decide (trade_log.entry_regime r ≠ None)]
    ++ (if given strategy then [strategy_is strategy] else []) in
  let regimes := distinct_entry_regime (select_where where_clauses db) in
  by_regime_loop strategy regimes db.

Definition _compute_summary (pnls : list (option float))
    : result window_dict.t :=
  match pnls with
  | [] =>
      Return {| window_dict.total_trades := 0;
                window_dict.win_rate := zero;
                window_dict.avg_win_pct := zero;
                window_dict.avg_loss_pct := zero;
                window_dict.expectancy_pct := zero;
                window_dict.profit_factor := zero |}
  | _ =>
      pnls <-- numbers pnls ;;
      let wins := List.filter (fun p => gtb p zero) pnls in
      let losses := List.filter (fun p => leb p zero) pnls in
      let total := len pnls in
      let win_rate :=
        if negb (total =? 0) then div (of_Z (len wins)) (of_Z total)
        else zero in
      let avg_win :=
        match wins with [] => zero | _ => div (sum wins) (of_Z (len wins)) end in
      let avg_loss :=
        match losses with
        | [] => zero
        | _ => div (sum losses) (of_Z (len losses))
        end in
      let expectancy :=
        add (mul win_rate avg_win) (mul (sub (of_Z 1) win_rate) avg_loss) in
      let gross_wins := sum wins in
      let gross_losses := abs (sum losses) in
      let profit_factor :=
        if gtb gross_losses zero then div gross_wins gross_losses
        else if gtb gross_wins zero then inf
        else zero in
      Return {| window_dict.total_trades := total;
                window_dict.win_rate := round win_rate 4;
                window_dict.avg_win_pct := round avg_win 4;
                window_dict.avg_loss_pct := round avg_loss 4;
                window_dict.expectancy_pct := round expectancy 4;
                window_dict.profit_factor := round profit_factor 4 |}
  end.

(** [ORDER BY exit_time DESC] over closed rows: TEXT compares byte by
    byte. Rows with equal keys keep their table order (SQL leaves the
    order of ties open). *)
Definition exit_key (r : trade_log.row) : string :=
  default ""%string (trade_log.exit_time r).

Fixpoint insert_desc (r : trade_log.row) (rows : list trade_log.row)
    : list trade_log.row :=
  match rows with
  | [] => [r]
  | x :: rest =>
      if String.leb (exit_key x) (exit_key r) then r :: rows
      else x :: insert_desc r rest
  end.

Definition order_by_exit_time_desc (rows : list trade_log.row)
    : list trade_log.row :=
  fold_right insert_desc [] rows.

(** The format [{x:.1f}]: one decimal place, ties on the exact value to
    even. *)
Definition format_1f (x : float) : string :=
  let digits (q : Z) := pretty (q / 10) +:+ "." +:+ pretty (q mod 10) in
  let sign (s : bool) := if s then "-"%string else ""%string in
  match x with
  | S754_nan => "nan"%string
  | S754_infinity s => sign s +:+ "inf"
  | S754_zero s => sign s +:+ "0.0"
  | S754_finite s m e =>
      sign s +:+
      digits (if 0 <=? e then Zpos m * 2 ^ e * 10
              else div_half_even (Zpos m * 10) (2 ^ (- e)))
  end.

Definition detect_decay (strategy : string)
    (recent_window baseline_window : Z) (db : database)
    : result decay_report :=
  let rows :=
    order_by_exit_time_desc
      (select_where [strategy_is (Some strategy); is_closed] db) in
  let total_needed := recent_window + baseline_window in
  if len rows <? recent_window then
    Return (InsufficientData (len rows) total_needed
              ("Need at least " +:+ pretty recent_window
               +:+ " closed trades for analysis."))
  else
    let recent_pnls := trade_log.pnl_percent <$> slice rows 0 recent_window in
    let baseline_pnls :=
      trade_log.pnl_percent <$>
        slice rows recent_window (recent_window + baseline_window) in
    match baseline_pnls with
    | [] =>
        Return (InsufficientData (len rows) total_needed
                  ("Need at least " +:+ pretty total_needed
                   +:+ " closed trades for decay comparison."))
    | _ =>
        recent_summary <-- _compute_summary recent_pnls ;;
        baseline_summary <-- _compute_summary baseline_pnls ;;
        let wr_delta :=
          sub (window_dict.win_rate recent_summary)
              (window_dict.win_rate baseline_summary) in
        let exp_delta :=
          sub (window_dict.expectancy_pct recent_summary)
              (window_dict.expectancy_pct baseline_summary) in
        let c1 := ltb wr_delta (opp (of_ratio 15 100)) in
        let c2 :=
          gtb (window_dict.expectancy_pct baseline_summary) zero
          && ltb (window_dict.expectancy_pct recent_summary) zero in
        let c3 :=
          ltb (window_dict.profit_factor recent_summary) (of_Z 1)
          && geb (window_dict.profit_factor baseline_summary) (of_Z 1) in
        let decay_detected := c1 || c2 || c3 in
        let reasons :=
          (if c1
           then ["Win rate dropped "
                 +:+ format_1f (mul (abs wr_delta) (of_Z 100)) +:+ "%"]
           else [])
          ++ (if c2 then ["Expectancy turned negative"%string] else [])
          ++ (if c3 then ["Profit factor dropped below 1.0"%string] else []) in
        let recommendation :=
          if decay_detected
          then "DECAY DETECTED: " +:+ String.concat "; " reasons
               +:+ ". Consider reducing position size or pausing strategy."
          else "No significant decay detected. Strategy performance is stable."%string in
        Return (DecayReport (len rows) recent_summary baseline_summary
                  (round wr_delta 4) (round exp_delta 4)
                  decay_detected recommendation)
    end.

(** [LIMIT n]: a negative [n] is no limit. *)
Definition limit {A} (n : Z) (rows : list A) : list A :=
  if n <? 0 then rows else firstn (Z.to_nat n) rows.

Definition recent_trades (n : Z) (strategy : option string) (db : database)
    : list trade_log.row :=
  let where_clauses :=
    [is_closed] ++ (if given strategy then [strategy_is strategy] else []) in
  limit n (order_by_exit_time_desc (select_where where_clauses db)).

End PerformanceAnalyzer.

(** ** Histories of the recorder *)

(** One call of the recorder, with its arguments. *)
Inductive op :=
  | LogEntry (now : string) (trade_id : pyval)
      (pair strategy entry_time : string) (entry_price : float)
      (indicators : gmap string float) (regime : gmap string string)
  | LogExit (trade_id : pyval) (exit_time : string) (exit_price : float)
      (exit_reason : string) (indicators : gmap string float)
      (regime : gmap string string) (entry_price duration_minutes : float)
  | LogRegimeSnapshot (now : string) (pair timestamp : string)
      (regime : gmap string string) (indicators : gmap string float).

(** The database after the call; a call that raises has written nothing. *)
Definition step (o : op) (db : database) : database :=
  match o with
  | LogEntry now trade_id pair' strategy entry_time entry_price indicators regime =>
      match TradeLogger.log_entry now trade_id pair' strategy entry_time
              entry_price indicators regime db with
      | Return (_, db') => db'
      | Raise _ => db
      end
  | LogExit trade_id exit_time exit_price exit_reason indicators regime
      entry_price duration_minutes =>
      snd (TradeLogger.log_exit trade_id exit_time exit_price exit_reason
             indicators regime entry_price duration_minutes db)
  | LogRegimeSnapshot now pair' timestamp regime indicators =>
      TradeLogger.log_regime_snapshot now pair' timestamp regime indicators db
  end.

Definition run (ops : list op) (db : database) : database :=
  fold_left (fun db o => step o db) ops db.

(** The databases the recorder can produce from a new file. *)
Definition reachable (db : database) : Prop :=
  exists ops, db = run ops empty_database.

(** ** Sample data of the test suite *)

Module Sample.

(** [sample_indicators()] and [sample_regime(volatility, trend)] of
    [tests/test_performance.py]. *)
Definition indicators : gmap string float :=
  <["rsi"%string := of_Z 45]>
    (<["tema"%string := of_Z 100]>
      (<["bb_percent"%string := of_ratio 1 2]>
        (<["bb_width"%string := of_ratio 4 100]>
          (<["adx"%string := of_Z 25]> ∅)))).

Definition regime (volatility trend : string) : gmap string string :=
  <["volatility"%string := volatility]>
    (<["trend"%string := trend]>
      (<["combined"%string := volatility +:+ "_" +:+ trend]> ∅)).

Definition entry (trade_id : pyval) (strategy : string) (entry_price : Z)
    (entry_regime : gmap string string) : op :=
  LogEntry "2026-02-23 12:00:00" trade_id "BTC/USDT" strategy
    "2026-02-23T12:00:00" (of_Z entry_price) indicators entry_regime.

Definition exit (trade_id : pyval) (entry_price exit_price : Z)
    (exit_regime : gmap string string) : op :=
  LogExit trade_id "2026-02-23T13:00:00" (of_Z exit_price) "roi" indicators
    exit_regime (of_Z entry_price) (of_Z 60).

(** [log_complete_trade]: an entry followed by its exit. *)
Definition complete_trade (trade_id : pyval) (strategy : string)
    (entry_price exit_price : Z) (entry_regime : gmap string string)
    : list op :=
  [entry trade_id strategy entry_price entry_regime;
   exit trade_id entry_price exit_price (regime "medium" "weak_trend")].

(** One trade, entered at 100 and closed at 105. *)
Definition one_closed : database :=
  run (complete_trade (PyStr "1") "momentum_rsi_bb" 100 105
         (regime "medium" "weak_trend"))
      empty_database.

(** The identifier ["1"] entered twice and not closed yet. *)
Definition two_open : database :=
  run [entry (PyStr "1") "momentum_rsi_bb" 100 (regime "low" "ranging");
       entry (PyStr "1") "momentum_rsi_bb" 100 (regime "low" "ranging")]
      empty_database.

(** Two closed trades of one strategy. *)
Definition two_closed : database :=
  run (complete_trade (PyStr "1") "momentum_rsi_bb" 100 104
         (regime "medium" "weak_trend")
       ++ complete_trade (PyStr "2") "momentum_rsi_bb" 100 102
            (regime "medium" "weak_trend"))
      empty_database.

(** A winning trade and a trade closed at its entry price. *)
Definition win_and_flat : database :=
  run (complete_trade (PyStr "1") "momentum_rsi_bb" 100 104
         (regime "medium" "weak_trend")
       ++ complete_trade (PyStr "2") "momentum_rsi_bb" 100 100
            (regime "medium" "weak_trend"))
      empty_database.

(** A single losing trade. *)
Definition one_loss : database :=
  run (complete_trade (PyStr "1") "momentum_rsi_bb" 100 95
         (regime "medium" "weak_trend"))
      empty_database.

(** A gain of 1% and a loss of 3%. *)
Definition win_and_loss : database :=
  run (complete_trade (PyStr "1") "momentum_rsi_bb" 100 101
         (regime "medium" "weak_trend")
       ++ complete_trade (PyStr "2") "momentum_rsi_bb" 100 97
            (regime "medium" "weak_trend"))
      empty_database.

(** A closed trade whose regime dictionary had no key [combined]. *)
Definition one_unlabelled : database :=
  run (complete_trade (PyStr "1") "momentum_rsi_bb" 100 105 ∅) empty_database.

(** The four trades of [test_summary_with_trades], under two regimes. *)
Definition four_closed : database :=
  run (complete_trade (PyStr "1") "momentum_rsi_bb" 100 104
         (regime "high" "strong_trend")
       ++ complete_trade (PyStr "2") "momentum_rsi_bb" 100 102
            (regime "low" "ranging")
       ++ complete_trade (PyStr "3") "momentum_rsi_bb" 100 101
            (regime "high" "strong_trend")
       ++ complete_trade (PyStr "4") "momentum_rsi_bb" 100 95
            (regime "low" "ranging"))
      empty_database.

(** [list(range(10, 110))], the history of [tests/test_regime.py]. *)
Definition history : list float :=
  (fun n => of_Z (Z.of_nat n)) <$> seq 10 100.

(** Seventy trades, each closed three percent up ([test_decay_no_decay]). *)
Definition seventy_closed : database :=
  run (flat_map
         (fun i => complete_trade (PyStr (pretty (Z.of_nat i)))
                     "momentum_rsi_bb" 100 103 (regime "medium" "weak_trend"))
         (seq 0 70))
      empty_database.

(** One closed trade for each of two strategies
    ([test_summary_filter_by_strategy]). *)
Definition two_strategies : database :=
  run (complete_trade (PyStr "1") "strat_a" 100 105
         (regime "medium" "weak_trend")
       ++ complete_trade (PyStr "2") "strat_b" 100 95
            (regime "medium" "weak_trend"))
      empty_database.

(** A [log_exit] at a time of its own, and three trades that exit one
    after the other: two wins, then a loss. *)
Definition exit_at (trade_id : pyval) (exit_time : string)
    (entry_price exit_price : Z) : op :=
  LogExit trade_id exit_time (of_Z exit_price) "roi" indicators
    (regime "medium" "weak_trend") (of_Z entry_price) (of_Z 60).

Definition three_closed : database :=
  run [entry (PyStr "1") "momentum_rsi_bb" 100 (regime "medium" "weak_trend");
       exit_at (PyStr "1") "2026-02-23T13:00:00" 100 104;
       entry (PyStr "2") "momentum_rsi_bb" 100 (regime "medium" "weak_trend");
       exit_at (PyStr "2") "2026-02-23T14:00:00" 100 102;
       entry (PyStr "3") "momentum_rsi_bb" 100 (regime "medium" "weak_trend");
       exit_at (PyStr "3") "2026-02-23T15:00:00" 100 95]
    empty_database.

End Sample.

(** ** Invariants of a database written by the recorder *)

Section Invariants.

Variable db : database.

(** Keys grow with the insertion order and never exceed the counter. *)
Definition keys_increasing : Prop :=
  (forall i j ri rj,
      trade_log_rows db !! i = Some ri -> trade_log_rows db !! j = Some rj ->
      (i < j)%nat -> trade_log.id ri < trade_log.id rj)
  /\ (forall r, r ∈ trade_log_rows db -> trade_log.id r <= trade_log_seq db).

(** A row that is still open has none of its exit columns set. *)
Definition open_rows_unset : Prop :=
  forall r, r ∈ trade_log_rows db -> is_open r = true -> exit_unset r.

(** Among the rows of one identifier, no closed row was inserted after a
    row that is still open. *)
Definition closed_before_open : Prop :=
  forall i j ri rj,
    trade_log_rows db !! i = Some ri -> trade_log_rows db !! j = Some rj ->
    (i < j)%nat -> trade_log.trade_id ri = trade_log.trade_id rj ->
    is_open ri = true -> is_open rj = true.

Definition consistent : Prop :=
  keys_increasing /\ open_rows_unset /\ closed_before_open.

End Invariants.

(** [row] is the most recently inserted row of [trade_id] among [rows]. *)
Definition most_recent (trade_id : string) (rows : list trade_log.row)
    (row : trade_log.row) : Prop :=
  row ∈ rows /\ trade_log.trade_id row = trade_id
  /\ forall r, r ∈ rows -> trade_log.trade_id r = trade_id ->
               trade_log.id r <= trade_log.id row.

(** The value [log_exit] stores in [regime_changed] when [row] is the row
    its SELECT found. *)
Definition regime_changed_against (row : trade_log.row)
    (regime : gmap string string) : Z :=
  if bool_decide (trade_log.entry_regime row ≠ regime !! "combined"%string)
  then 1 else 0.

(** What a call is, as seen from a row of [trade_log]. *)
Definition is_log_exit (o : op) : Prop :=
  match o with LogExit _ _ _ _ _ _ _ _ => True | _ => False end.

(** [o] is the [log_entry] call whose arguments fill the entry columns of
    [r]: the identifier through [str()], the price as the store reads it
    back, the indicator and regime dictionaries through [.get]. *)
Definition created_by (o : op) (r : trade_log.row) : Prop :=
  match o with
  | LogEntry now trade_id pair' strategy entry_time entry_price indicators regime =>
      trade_log.created_at r = now
      /\ entry_columns r =
           (str trade_id, pair', strategy, entry_time, read_back entry_price,
            (TradeLogger.get_real indicators "rsi",
             TradeLogger.get_real indicators "tema",
             TradeLogger.get_real indicators "bb_percent",
             TradeLogger.get_real indicators "bb_width",
             TradeLogger.get_real indicators "adx"),
            (regime !! "volatility"%string, regime !! "trend"%string,
             regime !! "combined"%string))
  | _ => False
  end.

(** The closed trades of a strategy, as [detect_decay] selects them. *)
Definition closed_trades_of (strategy : string) (db : database)
    : list trade_log.row :=
  PerformanceAnalyzer.select_where
    [PerformanceAnalyzer.strategy_is (Some strategy); is_closed] db.

(** ** Vocabulary of the statements about the analyzer *)

(** The least exponent of a binary64 number. *)
Definition emin : Z := SpecFloat.emin prec emax.

(** A float above zero: a positive number or plus infinity. *)
Definition positive_float (x : float) : Prop :=
  match x with
  | S754_finite false _ e => emin <= e
  | S754_infinity false => True
  | _ => False
  end.

(** The closed rows [summary(strategy, regime)] selects. *)
Definition summary_rows (strategy regime : option string) (db : database)
    : list trade_log.row :=
  PerformanceAnalyzer.select_where
    ([is_closed]
     ++ (if PerformanceAnalyzer.given strategy
         then [PerformanceAnalyzer.strategy_is strategy] else [])
     ++ (if PerformanceAnalyzer.given regime
         then [PerformanceAnalyzer.entry_regime_is regime] else []))
    db.

(** The closed trades of a strategy filter: the selection of the unfiltered
    [summary(strategy)]. *)
Definition closed_trades (strategy : option string) (db : database)
    : list trade_log.row :=
  summary_rows strategy None db.

(** The trades of [rows] entered under the label [regime], and those
    entered without a label. *)
Definition entered_under (regime : string) (rows : list trade_log.row)
    : list trade_log.row :=
  List.filter (fun r => bool_decide (trade_log.entry_regime r = Some regime)) rows.

Definition entered_unlabelled (rows : list trade_log.row) : list trade_log.row :=
  List.filter (fun r => bool_decide (trade_log.entry_regime r = None)) rows.

(** The sum of [total_trades] over the buckets of [by_regime]. *)
Definition bucket_total (buckets : list (string * summary_dict.t)) : Z :=
  fold_right (fun bucket acc => summary_dict.total_trades (snd bucket) + acc)
    0 buckets.

(** Winning and losing trades of a list of P&L percentages, and their
    gross sums. *)
Definition wins_of (pnls : list float) : list float :=
  List.filter (fun p => gtb p zero) pnls.

Definition losses_of (pnls : list float) : list float :=
  List.filter (fun p => leb p zero) pnls.

Definition gross_wins (pnls : list float) : float := sum (wins_of pnls).

Definition gross_losses (pnls : list float) : float := abs (sum (losses_of pnls)).

(** The profit factor as lines 103-106 and 307-309 of [analyzer.py] decide
    it, rounded as in the returned dictionary. *)
Definition profit_factor_rule (pnls : list float) : float :=
  round
    (if gtb (gross_losses pnls) zero
     then div (gross_wins pnls) (gross_losses pnls)
     else if gtb (gross_wins pnls) zero then inf
     else zero)
    4.

(** The number of trades of [rows] entered under one of the labels. *)
Definition label_total (labels : list string) (rows : list trade_log.row) : Z :=
  fold_right (fun regime acc => len (entered_under regime rows) + acc) 0 labels.

(** ** indicators.py and signals.py *)

(** A pandas [Series] of [float64] over the default index is the list of its
    values; a missing value is NaN. The indicator functions [rsi], [tema]
    and [bollinger_bands] call TA-Lib and the rolling windows of pandas and
    are not embedded. *)
Module pd.

(** [s.shift(1)]: every value moves one candle later, the first is NaN. *)
Definition shift (s : list float) : list float :=
  match s with
  | [] => []
  | _ :: _ => nan :: removelast s
  end.

(** [s > x] and [s <= x] for a scalar [x]. *)
Definition gt_scalar (s : list float) (x : float) : list bool :=
  (fun v => gtb v x) <$> s.

Definition le_scalar (s : list float) (x : float) : list bool :=
  (fun v => leb v x) <$> s.

(** [a > b], [a <= b] and [a < b] for two Series: pandas compares
    identically labelled Series only, and raises [ValueError] otherwise. *)
Definition compare (op : float -> float -> bool) (a b : list float)
    : result (list bool) :=
  if bool_decide (length a = length b) then Return (zip_with op a b)
  else Raise ValueError.

(** [a & b]: the operands are aligned on the union of their labels, and a
    label missing in one of them counts as false. *)
Definition and_ (a b : list bool) : list bool :=
  zip_with andb
    (a ++ replicate (length b - length a) false)
    (b ++ replicate (length a - length b) false).

End pd.

(** The second argument of [crossed_above]: a number, or another Series. *)
Inductive threshold :=
  | Scalar (x : float)
  | Series (s : list float).

Definition crossed_above (series : list float) (threshold : threshold)
    : result (list bool) :=
  match threshold with
  | Scalar x =>
      Return (pd.and_ (pd.gt_scalar series x)
                      (pd.le_scalar (pd.shift series) x))
  | Series other =>
      above <-- pd.compare gtb series other ;;
      below <-- pd.compare leb (pd.shift series) (pd.shift other) ;;
      Return (pd.and_ above below)
  end.

(** [rsi_threshold] is an [int], as annotated (default 30). *)
Definition check_entry_long (rsi tema bb_middle volume : list float)
    (rsi_threshold : Z) : result (list bool) :=
  crossed <-- crossed_above rsi (Scalar (of_Z rsi_threshold)) ;;
  not_overbought <-- pd.compare leb tema bb_middle ;;
  rising <-- pd.compare gtb tema (pd.shift tema) ;;
  Return (pd.and_ (pd.and_ (pd.and_ crossed not_overbought) rising)
                  (pd.gt_scalar volume zero)).

(** [rsi_threshold] is an [int], as annotated (default 70). *)
Definition check_exit_long (rsi tema bb_middle volume : list float)
    (rsi_threshold : Z) : result (list bool) :=
  crossed <-- crossed_above rsi (Scalar (of_Z rsi_threshold)) ;;
  extended <-- pd.compare gtb tema bb_middle ;;
  falling <-- pd.compare ltb tema (pd.shift tema) ;;
  Return (pd.and_ (pd.and_ (pd.and_ crossed extended) falling)
                  (pd.gt_scalar volume zero)).

(** ** strategy_registry.py *)

Module strategy_registry.

(** The configuration dictionary of one strategy, key by key. *)
Record indicators_config := {
  rsi_period : Z;
  tema_period : Z;
  bb_window : Z;
  bb_stds : float
}.

Record risk_config := {
  stoploss : float;
  trailing_stop : bool;
  minimal_roi : list (string * float)
}.

Record strategy := {
  description : string;
  version : string;
  timeframe : string;
  startup_candle_count : Z;
  indicators : indicators_config;
  entry_rsi_threshold : Z;
  exit_rsi_threshold : Z;
  risk : risk_config
}.

(** The dictionary [STRATEGIES], in the order of its keys. *)
Definition STRATEGIES : list (string * strategy) :=
  [("momentum_rsi_bb"%string,
    {| description :=
         "RSI + TEMA + Bollinger Bands momentum strategy. "
         +:+ "Enters on oversold RSI recovery with TEMA confirmation below BB middle. "
         +:+ "Exits on overbought RSI with TEMA weakening above BB middle.";
       version := "1.0";
       timeframe := "5m";
       startup_candle_count := 30;
       indicators :=
         {| rsi_period := 14; tema_period := 9; bb_window := 20;
            bb_stds := of_Z 2 |};
       entry_rsi_threshold := 30;
       exit_rsi_threshold := 70;
       risk :=
         {| stoploss := opp (of_ratio 10 100);
            trailing_stop := false;
            minimal_roi :=
              [("0"%string, of_ratio 4 100); ("30"%string, of_ratio 2 100);
               ("60"%string, of_ratio 1 100)] |} |})].

(** What [get_strategy] does: it returns the configuration, or raises
    [KeyError] with a message. *)
Inductive lookup :=
  | Found (config : strategy)
  | KeyError (message : string).

(** [dict[key]] on a dictionary kept as its list of items. *)
Fixpoint getitem (items : list (string * strategy)) (name : string)
    : option strategy :=
  match items with
  | [] => None
  | (key, config) :: rest =>
      if bool_decide (key = name) then Some config else getitem rest name
  end.

Definition list_strategies : list string := fst <$> STRATEGIES.

Definition get_strategy (name : string) : lookup :=
  match getitem STRATEGIES name with
  | None =>
      let available := String.concat ", " (fst <$> STRATEGIES) in
      KeyError ("Strategy '" +:+ name +:+ "' not found. Available: "
                +:+ available)
  | Some config => Found config
  end.

End strategy_registry.

(** ** Vocabulary of the further statements *)

(** In a database written by the recorder the keys of both tables count the
    rows: the row at position [i] has the key [i + 1], and the counter is
    the number of rows. *)
Definition keys_count_rows (db : database) : Prop :=
  (forall i r, trade_log_rows db !! i = Some r ->
               trade_log.id r = Z.of_nat i + 1)
  /\ trade_log_seq db = len (trade_log_rows db)
  /\ (forall i r, regime_snapshots_rows db !! i = Some r ->
                  regime_snapshots.id r = Z.of_nat i + 1)
  /\ regime_snapshots_seq db = len (regime_snapshots_rows db).

(** No P&L percentage in the table is NaN: the store keeps NULL instead. *)
Definition pnl_are_numbers (db : database) : Prop :=
  forall r p, r ∈ trade_log_rows db -> trade_log.pnl_percent r = Some p ->
              is_nan p = false.

(** The calls of a history that append a regime snapshot, and those that
    append a trade: the [log_entry] calls with a price that is a number. *)
Definition is_snapshot (o : op) : bool :=
  match o with LogRegimeSnapshot _ _ _ _ _ => true | _ => false end.

Definition writes_row (o : op) : bool :=
  match o with
  | LogEntry _ _ _ _ _ entry_price _ _ => negb (is_nan entry_price)
  | _ => false
  end.

(** The open rows of a pair, as [find_open_trade] selects them. *)
Definition open_rows_of (pair : string) (db : database) : list trade_log.row :=
  List.filter (fun r => bool_decide (trade_log.pair r = pair) && is_open r)
    (trade_log_rows db).

(** The closed rows [recent_trades(n, strategy)] orders and cuts. *)
Definition recent_rows (strategy : option string) (db : database)
    : list trade_log.row :=
  PerformanceAnalyzer.select_where
    ([is_closed]
     ++ (if PerformanceAnalyzer.given strategy
         then [PerformanceAnalyzer.strategy_is strategy] else []))
    db.

(** [exit_time DESC]: each row exits no later than the one before it. *)
Definition exits_descending (rows : list trade_log.row) : Prop :=
  forall i a b, rows !! i = Some a -> rows !! S i = Some b ->
    String.leb (PerformanceAnalyzer.exit_key b)
               (PerformanceAnalyzer.exit_key a) = true.

(** The three conditions of the decay rule, on the two summaries of a
    report. *)
Definition win_rate_dropped (recent baseline : window_dict.t) : bool :=
  ltb (sub (window_dict.win_rate recent) (window_dict.win_rate baseline))
      (opp (of_ratio 15 100)).

Definition expectancy_turned_negative (recent baseline : window_dict.t) : bool :=
  gtb (window_dict.expectancy_pct baseline) zero
  && ltb (window_dict.expectancy_pct recent) zero.

Definition profit_factor_below_one (recent baseline : window_dict.t) : bool :=
  ltb (window_dict.profit_factor recent) (of_Z 1)
  && geb (window_dict.profit_factor baseline) (of_Z 1).

(** The labels of the classifier, and their ranks. *)
Definition volatility_labels : list string :=
  ["unknown"; "low"; "medium"; "high"]%string.

Definition trend_labels : list string :=
  ["unknown"; "ranging"; "weak_trend"; "strong_trend"]%string.

Definition trend_rank (label : string) : Z :=
  if bool_decide (label = "ranging"%string) then 1
  else if bool_decide (label = "weak_trend"%string) then 2
  else if bool_decide (label = "strong_trend"%string) then 3
  else 0.

Definition volatility_rank (label : string) : Z :=
  if bool_decide (label = "low"%string) then 1
  else if bool_decide (label = "medium"%string) then 2
  else if bool_decide (label = "high"%string) then 3
  else 0.

(** Sample series of [tests/test_signals.py]. *)
Module SampleSignals.

Definition series (values : list Z) : list float := of_Z <$> values.

Definition rsi_entry : list float := series [25; 28; 32; 35].
Definition rsi_exit : list float := series [65; 68; 72; 75].
Definition tema_rising : list float := series [90; 92; 94; 96].
Definition tema_falling : list float := series [108; 106; 104; 102].
Definition bb_middle : list float := series [100; 100; 100; 100].
Definition volume : list float := series [1000; 1000; 1000; 1000].

End SampleSignals.

(** * Properties *)

(** ** The order of floats *)

Section FloatOrder.

Lemma ltb_nan_l (x y : float) : is_nan x = true -> ltb x y = false.
Proof. destruct x; try discriminate. reflexivity. Qed.

(** Swapping the arguments of a comparison mirrors its outcome. *)
Lemma compare_antisym (x y : float) :
  SFcompare y x = option_map CompOpp (SFcompare x y).
Proof.
  destruct x as [sx|sx| |sx mx ex], y as [sy|sy| |sy my ey];
    try destruct sx; try destruct sy; try reflexivity;
    cbn -[Z.compare]; rewrite (Z.compare_antisym ex ey);
    change (Pos.compare_cont Eq my mx) with (my ?= mx)%positive;
    change (Pos.compare_cont Eq mx my) with (mx ?= my)%positive;
    rewrite (Pos.compare_antisym mx my);
    destruct (ex ?= ey); simpl; try reflexivity;
    by rewrite CompOpp_involutive.
Qed.

Lemma leb_ltb_flip (x y : float) : leb x y = true -> ltb y x = false.
Proof.
  unfold leb, SFleb, ltb, SFltb. rewrite (compare_antisym x y).
  by destruct (SFcompare x y) as [[]|].
Qed.

Lemma ltb_leb_flip (x y : float) : ltb x y = true -> leb y x = false.
Proof.
  unfold leb, SFleb, ltb, SFltb. rewrite (compare_antisym x y).
  by destruct (SFcompare x y) as [[]|].
Qed.

Lemma ltb_false_of_leb_false (x y : float) :
  leb x y = false -> ltb x y = false.
Proof. unfold leb, SFleb, ltb, SFltb. by destruct (SFcompare x y) as [[]|]. Qed.

(** The comparison is transitive: it orders the values that are not NaN
    by sign, then exponent, then mantissa. *)
Lemma ltb_leb_trans (x y z : float) :
  ltb x y = true -> leb y z = true -> ltb x z = true.
Proof.
  unfold leb, SFleb, ltb, SFltb.
  destruct x as [sx|sx| |sx mx ex], y as [sy|sy| |sy my ey],
           z as [sz|sz| |sz mz ez];
    try destruct sx; try destruct sy; try destruct sz;
    cbn -[Z.compare]; try done;
    change (Pos.compare_cont Eq) with Pos.compare;
    destruct (Z.compare_spec ex ey), (Z.compare_spec ey ez),
             (Z.compare_spec ex ez); try done; try lia;
    destruct (Pos.compare_spec mx my), (Pos.compare_spec my mz),
             (Pos.compare_spec mx mz); simpl; try done; try lia.
Qed.

End FloatOrder.

(** ** The regime classifier *)

Section TrendClassification.

Lemma classify_trend_ranging (adx : float) :
  ltb adx (of_Z 20) = true -> classify_trend (Some adx) = "ranging"%string.
Proof.
  intros H. unfold classify_trend.
  destruct (is_nan adx) eqn:Hn.
  - rewrite (ltb_nan_l _ _ Hn) in H. discriminate H.
  - rewrite H. reflexivity.
Qed.

Lemma classify_trend_weak (adx : float) :
  geb adx (of_Z 20) = true -> ltb adx (of_Z 30) = true ->
  classify_trend (Some adx) = "weak_trend"%string.
Proof.
  intros H20 H30. unfold classify_trend.
  destruct (is_nan adx) eqn:Hn.
  - rewrite (ltb_nan_l _ _ Hn) in H30. discriminate H30.
  - rewrite (leb_ltb_flip _ _ H20), H30. reflexivity.
Qed.

Lemma classify_trend_strong (adx : float) :
  geb adx (of_Z 30) = true ->
  classify_trend (Some adx) = "strong_trend"%string.
Proof.
  intros H30. unfold classify_trend.
  assert (H23 : ltb (of_Z 20) (of_Z 30) = true) by (vm_compute; reflexivity).
  pose proof (ltb_leb_trans _ _ _ H23 H30) as H20.
  assert (Hn : is_nan adx = false).
  { destruct adx; try reflexivity. discriminate H30. }
  rewrite Hn, (leb_ltb_flip _ _ H30).
  rewrite (ltb_false_of_leb_false _ _ (ltb_leb_flip _ _ H20)).
  reflexivity.
Qed.

Lemma classify_trend_nan (adx : float) :
  is_nan adx = true -> classify_trend (Some adx) = "unknown"%string.
Proof. intros Hn. unfold classify_trend. rewrite Hn. reflexivity. Qed.

End TrendClassification.

(** C7. For every ADX value: below 20 the trend is [ranging]; from 20
    (included) to 30 (excluded) it is [weak_trend]; from 30 on it is
    [strong_trend]; a NaN and an absent value give [unknown]. In particular
    20 itself is [weak_trend] and 30 itself is [strong_trend]. *)
Theorem classify_trend_thresholds (adx : float) :
  (ltb adx (of_Z 20) = true -> classify_trend (Some adx) = "ranging"%string)
  /\ (geb adx (of_Z 20) = true -> ltb adx (of_Z 30) = true ->
      classify_trend (Some adx) = "weak_trend"%string)
  /\ (geb adx (of_Z 30) = true ->
      classify_trend (Some adx) = "strong_trend"%string)
  /\ (is_nan adx = true -> classify_trend (Some adx) = "unknown"%string)
  /\ classify_trend None = "unknown"%string
  /\ classify_trend (Some (of_Z 20)) = "weak_trend"%string
  /\ classify_trend (Some (of_Z 30)) = "strong_trend"%string.
Proof.
  split; [apply classify_trend_ranging|].
  split; [apply classify_trend_weak|].
  split; [apply classify_trend_strong|].
  split; [apply classify_trend_nan|].
  split; [reflexivity|].
  split; vm_compute; reflexivity.
Qed.

(** The thresholds at 15, 25 and 35, the values of the test suite. *)
Lemma classify_trend_thresholds_witness :
  classify_trend (Some (of_Z 15)) = "ranging"%string
  /\ classify_trend (Some (of_Z 25)) = "weak_trend"%string
  /\ classify_trend (Some (of_Z 35)) = "strong_trend"%string
  /\ classify_trend (Some nan) = "unknown"%string.
Proof.
  split; [apply (proj1 (classify_trend_thresholds (of_Z 15))); reflexivity|].
  split; [apply (proj1 (proj2 (classify_trend_thresholds (of_Z 25)))); reflexivity|].
  split; [apply (proj1 (proj2 (proj2 (classify_trend_thresholds (of_Z 35))))); reflexivity|].
  apply (proj1 (proj2 (proj2 (proj2 (classify_trend_thresholds nan))))); reflexivity.
Defined.

(** C8. Whatever the current value, the percentile routine and the two
    percentile parameters, a history of fewer than two observations is
    classified [unknown]. *)
Theorem classify_volatility_short_history
    (percentile : list float -> float -> result float)
    (bb_width : float) (bb_width_history : list float)
    (low_percentile high_percentile : float) :
  (length bb_width_history < 2)%nat ->
  classify_volatility percentile bb_width bb_width_history
    low_percentile high_percentile = Return "unknown"%string.
Proof.
  intros Hlen. unfold classify_volatility, len.
  destruct bb_width_history as [|x [|y rest]]; simpl in *;
    [reflexivity | reflexivity | lia].
Qed.

Lemma classify_volatility_short_history_witness :
  classify_volatility np.percentile (of_Z 50) [of_Z 50]
    (of_Z 25) (of_Z 75) = Return "unknown"%string
  /\ classify_volatility np.percentile (of_Z 50) []
       (of_Z 25) (of_Z 75) = Return "unknown"%string.
Proof.
  split; apply classify_volatility_short_history; simpl; lia.
Defined.

(** ** The trade context recorder *)

(** *** The row found by the SELECT of [log_exit] *)

Section Latest.

Implicit Types (rows : list trade_log.row) (r b : trade_log.row).

Local Abbreviation latest_step :=
  (fun (best : option trade_log.row) (r : trade_log.row) =>
     match best with
     | Some b => if trade_log.id b <? trade_log.id r then Some r else best
     | None => Some r
     end).

Lemma latest_from_some rows b :
  exists r, fold_left latest_step rows (Some b) = Some r
    /\ (r = b \/ r ∈ rows)
    /\ trade_log.id b <= trade_log.id r
    /\ forall x, x ∈ rows -> trade_log.id x <= trade_log.id r.
Proof.
  revert b. induction rows as [|x rows IH]; intros b; simpl.
  - exists b. repeat split; [by left | lia | intros x Hx; by apply elem_of_nil in Hx].
  - destruct (trade_log.id b <? trade_log.id x) eqn:Hlt.
    + apply Z.ltb_lt in Hlt.
      destruct (IH x) as (r & Hr & Hin & Hge & Hmax).
      exists r. split; [exact Hr|]. split.
      { right. destruct Hin as [->|Hin]; [left | by right]. }
      split; [lia|].
      intros y Hy. apply elem_of_cons in Hy as [->|Hy]; [lia | by apply Hmax].
    + apply Z.ltb_ge in Hlt.
      destruct (IH b) as (r & Hr & Hin & Hge & Hmax).
      exists r. split; [exact Hr|]. split.
      { destruct Hin as [->|Hin]; [by left | right; by right]. }
      split; [lia|].
      intros y Hy. apply elem_of_cons in Hy as [->|Hy]; [lia | by apply Hmax].
Qed.

Lemma latest_nil_iff rows : TradeLogger.latest rows = None <-> rows = [].
Proof.
  destruct rows as [|x rows]; [done|]. split; [|done].
  unfold TradeLogger.latest. simpl.
  destruct (latest_from_some rows x) as (r & Hr & _).
  rewrite Hr. done.
Qed.

Lemma latest_some rows r :
  TradeLogger.latest rows = Some r ->
  r ∈ rows /\ forall x, x ∈ rows -> trade_log.id x <= trade_log.id r.
Proof.
  destruct rows as [|y rows]; [done|].
  unfold TradeLogger.latest. simpl.
  destruct (latest_from_some rows y) as (r' & Hr & Hin & Hge & Hmax).
  rewrite Hr. intros [= <-]. split.
  - destruct Hin as [->|Hin]; [left | by right].
  - intros x Hx. apply elem_of_cons in Hx as [->|Hx]; [lia | by apply Hmax].
Qed.

Lemma select_latest_none trade_id rows :
  TradeLogger.select_latest trade_id rows = None <->
  forall r, r ∈ rows -> trade_log.trade_id r <> trade_id.
Proof.
  unfold TradeLogger.select_latest. rewrite latest_nil_iff. split.
  - intros Hnil r Hr Heq.
    assert (Hin : In r (List.filter (fun r => bool_decide (trade_log.trade_id r = trade_id)) rows)).
    { apply filter_In. split; [by apply list_elem_of_In | by apply bool_decide_eq_true]. }
    rewrite Hnil in Hin. destruct Hin.
  - intros Hall.
    destruct (List.filter _ rows) as [|x l] eqn:Hf; [done|].
    assert (Hin : In x (List.filter (fun r => bool_decide (trade_log.trade_id r = trade_id)) rows)).
    { rewrite Hf. by left. }
    apply filter_In in Hin as [Hin Hx]. apply bool_decide_eq_true in Hx.
    exfalso. eapply Hall; [by apply list_elem_of_In | exact Hx].
Qed.

Lemma select_latest_some trade_id rows row :
  TradeLogger.select_latest trade_id rows = Some row ->
  most_recent trade_id rows row.
Proof.
  unfold TradeLogger.select_latest. intros H.
  apply latest_some in H as [Hin Hmax].
  apply list_elem_of_In, filter_In in Hin as [Hin Hid].
  apply bool_decide_eq_true in Hid.
  split; [by apply list_elem_of_In|]. split; [exact Hid|].
  intros r Hr Hrid. apply Hmax, list_elem_of_In, filter_In.
  split; [by apply list_elem_of_In | by apply bool_decide_eq_true].
Qed.

End Latest.

(** *** The two outcomes of [log_exit] *)

Section LogExit.

Context (trade_id : pyval) (exit_time : string) (exit_price : float)
  (exit_reason : string) (indicators : gmap string float)
  (regime : gmap string string) (entry_price duration_minutes : float).

Local Abbreviation log_exit :=
  (TradeLogger.log_exit trade_id exit_time exit_price exit_reason indicators
     regime entry_price duration_minutes).

Local Abbreviation pnl_absolute := (sub exit_price entry_price).
Local Abbreviation pnl_percent :=
  (if truthy entry_price
   then mul (div (sub exit_price entry_price) entry_price) (of_Z 100)
   else zero).

(** What the UPDATE does to one row when the SELECT found [row]. *)
Local Abbreviation updated row :=
  (fun r : trade_log.row =>
     if TradeLogger.update_matches (str trade_id) r
     then TradeLogger.set_exit exit_time exit_price exit_reason indicators
            regime pnl_absolute pnl_percent duration_minutes
            (regime_changed_against row regime) r
     else r).

Lemma log_exit_not_found db :
  TradeLogger.select_latest (str trade_id) (trade_log_rows db) = None ->
  log_exit db = (false, db).
Proof. intros H. unfold TradeLogger.log_exit. rewrite H. reflexivity. Qed.

Lemma log_exit_found db row :
  TradeLogger.select_latest (str trade_id) (trade_log_rows db) = Some row ->
  log_exit db =
    (true,
     {| trade_log_rows := updated row <$> trade_log_rows db;
        trade_log_seq := trade_log_seq db;
        regime_snapshots_rows := regime_snapshots_rows db;
        regime_snapshots_seq := regime_snapshots_seq db |}).
Proof. intros H. unfold TradeLogger.log_exit. rewrite H. reflexivity. Qed.

Lemma log_exit_returns db :
  fst (log_exit db) = true <->
  exists r, r ∈ trade_log_rows db /\ trade_log.trade_id r = str trade_id.
Proof.
  destruct (TradeLogger.select_latest (str trade_id) (trade_log_rows db))
    as [row|] eqn:Hsel.
  - rewrite (log_exit_found _ _ Hsel). simpl. split; [intros _|done].
    apply select_latest_some in Hsel as (Hin & Hid & _). eauto.
  - rewrite (log_exit_not_found _ Hsel). simpl. split; [done|].
    intros (r & Hr & Hid).
    rewrite select_latest_none in Hsel. exfalso. by eapply Hsel.
Qed.

Lemma update_no_match (f : trade_log.row -> trade_log.row)
    (rows : list trade_log.row) :
  (forall r, r ∈ rows -> TradeLogger.update_matches (str trade_id) r = false) ->
  (fun r => if TradeLogger.update_matches (str trade_id) r then f r else r)
    <$> rows = rows.
Proof.
  induction rows as [|x rows IH]; intros H; [reflexivity|].
  rewrite fmap_cons, (H x) by left.
  f_equal. apply IH. intros r Hr. apply H. by right.
Qed.

(** Without an open row of the identifier the UPDATE writes nothing. *)
Lemma log_exit_no_open_row db :
  (forall r, r ∈ trade_log_rows db -> trade_log.trade_id r = str trade_id ->
             is_open r = false) ->
  snd (log_exit db) = db.
Proof.
  intros Hclosed.
  destruct (TradeLogger.select_latest (str trade_id) (trade_log_rows db))
    as [row|] eqn:Hsel.
  - rewrite (log_exit_found _ _ Hsel). simpl.
    rewrite update_no_match; [by destruct db|].
    intros r Hr. unfold TradeLogger.update_matches.
    destruct (bool_decide (trade_log.trade_id r = str trade_id)) eqn:Hid;
      [|reflexivity].
    apply bool_decide_eq_true in Hid. by rewrite (Hclosed r Hr Hid).
  - by rewrite (log_exit_not_found _ Hsel).
Qed.

End LogExit.

(** *** Databases written by the recorder are consistent *)

Section Consistency.

Lemma next_id_above (ids : list Z) (seq : Z) :
  seq < next_id ids seq /\ forall x, x ∈ ids -> x < next_id ids seq.
Proof.
  unfold next_id. induction ids as [|y ids [IH1 IH2]]; simpl.
  - split; [lia|]. intros x Hx. by apply elem_of_nil in Hx.
  - split; [lia|]. intros x Hx.
    apply elem_of_cons in Hx as [->|Hx]; [lia|]. specialize (IH2 x Hx). lia.
Qed.

Lemma consistent_empty : consistent empty_database.
Proof.
  unfold consistent, keys_increasing, open_rows_unset, closed_before_open.
  change (trade_log_rows empty_database) with (@nil trade_log.row).
  repeat split.
  - intros i j ri rj Hi. by rewrite lookup_nil in Hi.
  - intros r Hr. by apply elem_of_nil in Hr.
  - intros r Hr. by apply elem_of_nil in Hr.
  - intros i j ri rj Hi. by rewrite lookup_nil in Hi.
Qed.

Lemma log_entry_inv now trade_id pair' strategy entry_time entry_price
    indicators regime db lastrowid db' :
  TradeLogger.log_entry now trade_id pair' strategy entry_time entry_price
    indicators regime db = Return (lastrowid, db') ->
  exists inserted,
    trade_log_rows db' = trade_log_rows db ++ [inserted]
    /\ trade_log_seq db' = lastrowid
    /\ regime_snapshots_rows db' = regime_snapshots_rows db
    /\ regime_snapshots_seq db' = regime_snapshots_seq db
    /\ lastrowid = next_id (trade_log.id <$> trade_log_rows db) (trade_log_seq db)
    /\ trade_log.id inserted = lastrowid
    /\ trade_log.created_at inserted = now
    /\ exit_unset inserted
    /\ is_open inserted = true
    /\ entry_columns inserted =
         (str trade_id, pair', strategy, entry_time, read_back entry_price,
          (TradeLogger.get_real indicators "rsi",
           TradeLogger.get_real indicators "tema",
           TradeLogger.get_real indicators "bb_percent",
           TradeLogger.get_real indicators "bb_width",
           TradeLogger.get_real indicators "adx"),
          (regime !! "volatility"%string, regime !! "trend"%string,
           regime !! "combined"%string)).
Proof.
  unfold TradeLogger.log_entry, sql_real.
  destruct (is_nan entry_price); [discriminate|].
  intros [= <- <-]. eexists. simpl. repeat split; reflexivity.
Qed.

Lemma consistent_log_entry now trade_id pair' strategy entry_time entry_price
    indicators regime db lastrowid db' :
  consistent db ->
  TradeLogger.log_entry now trade_id pair' strategy entry_time entry_price
    indicators regime db = Return (lastrowid, db') ->
  consistent db'.
Proof.
  intros ((Hinc & Hseq) & Hunset & Hcbo) Hentry.
  apply log_entry_inv in Hentry
    as (new & Hrows & Hs & _ & _ & Hid & Hnew & _ & Hun & Hopen & _).
  destruct (next_id_above (trade_log.id <$> trade_log_rows db) (trade_log_seq db))
    as [Hgt Hmax]. rewrite <- Hid in Hgt, Hmax.
  assert (Hold : forall r, r ∈ trade_log_rows db -> trade_log.id r < lastrowid).
  { intros r Hr. apply Hmax. by apply list_elem_of_fmap_2. }
  unfold consistent, keys_increasing, open_rows_unset, closed_before_open.
  rewrite Hrows, Hs. repeat split.
  - intros i j ri rj Hi Hj Hij.
    apply lookup_snoc_Some in Hi as [[Hil Hi]|[-> <-]];
      apply lookup_snoc_Some in Hj as [[Hjl Hj]|[-> <-]]; try lia.
    + exact (Hinc i j ri rj Hi Hj Hij).
    + rewrite Hnew. apply Hold. by eapply list_elem_of_lookup_2.
  - intros r Hr. apply elem_of_app in Hr as [Hr|Hr].
    + specialize (Hold r Hr). lia.
    + apply list_elem_of_singleton in Hr as ->. lia.
  - intros r Hr Hop. apply elem_of_app in Hr as [Hr|Hr]; [by apply Hunset|].
    by apply list_elem_of_singleton in Hr as ->.
  - intros i j ri rj Hi Hj Hij Hid' Hop.
    apply lookup_snoc_Some in Hi as [[Hil Hi]|[-> <-]];
      apply lookup_snoc_Some in Hj as [[Hjl Hj]|[-> <-]]; try lia.
    + exact (Hcbo i j ri rj Hi Hj Hij Hid' Hop).
    + exact Hopen.
Qed.

Section LogExitConsistency.

Context (trade_id : pyval) (exit_time : string) (exit_price : float)
  (exit_reason : string) (indicators : gmap string float)
  (regime : gmap string string) (entry_price duration_minutes : float).

Lemma consistent_log_exit db :
  consistent db ->
  consistent (snd (TradeLogger.log_exit trade_id exit_time exit_price
                     exit_reason indicators regime entry_price
                     duration_minutes db)).
Proof.
  intros Hc.
  destruct (TradeLogger.select_latest (str trade_id) (trade_log_rows db))
    as [row|] eqn:Hsel;
    [|by rewrite (log_exit_not_found _ _ _ _ _ _ _ _ _ Hsel)].
  rewrite (log_exit_found _ _ _ _ _ _ _ _ _ _ Hsel).
  destruct Hc as ((Hinc & Hseq) & Hunset & Hcbo).
  unfold consistent, keys_increasing, open_rows_unset, closed_before_open.
  cbn [snd trade_log_rows trade_log_seq].
  set (f := fun r : trade_log.row => if TradeLogger.update_matches _ r then _ else r).
  assert (Hf : forall r,
             trade_log.id (f r) = trade_log.id r
             /\ trade_log.trade_id (f r) = trade_log.trade_id r
             /\ (is_open (f r) = true ->
                 f r = r /\ is_open r = true
                 /\ trade_log.trade_id r <> str trade_id)).
  { intros r. unfold f, TradeLogger.update_matches.
    destruct (bool_decide (trade_log.trade_id r = str trade_id)) eqn:Hid;
      simpl.
    - destruct (is_open r) eqn:Hop; simpl; [by repeat split|].
      repeat split; congruence.
    - apply bool_decide_eq_false in Hid. by repeat split. }
  repeat split.
  - intros i j ri rj Hi Hj Hij. rewrite list_lookup_fmap in Hi, Hj.
    destruct (trade_log_rows db !! i) as [ri'|] eqn:Hi'; [|done].
    destruct (trade_log_rows db !! j) as [rj'|] eqn:Hj'; [|done].
    simpl in Hi, Hj. injection Hi as <-. injection Hj as <-.
    destruct (Hf ri') as [-> _], (Hf rj') as [-> _].
    exact (Hinc i j ri' rj' Hi' Hj' Hij).
  - intros r Hr. apply list_elem_of_fmap in Hr as (r' & -> & Hr').
    destruct (Hf r') as [-> _]. by apply Hseq.
  - intros r Hr Hop. apply list_elem_of_fmap in Hr as (r' & -> & Hr').
    destruct (Hf r') as (_ & _ & Hkeep).
    destruct (Hkeep Hop) as (-> & Hop' & _). by apply Hunset.
  - intros i j ri rj Hi Hj Hij Hid Hop. rewrite list_lookup_fmap in Hi, Hj.
    destruct (trade_log_rows db !! i) as [ri'|] eqn:Hi'; [|done].
    destruct (trade_log_rows db !! j) as [rj'|] eqn:Hj'; [|done].
    simpl in Hi, Hj. injection Hi as <-. injection Hj as <-.
    destruct (Hf ri') as (_ & Hti & Hki), (Hf rj') as (_ & Htj & _).
    destruct (Hki Hop) as (_ & Hopi & Hne).
    rewrite Hti, Htj in Hid.
    pose proof (Hcbo i j ri' rj' Hi' Hj' Hij Hid Hopi) as Hopj.
    unfold f, TradeLogger.update_matches.
    rewrite bool_decide_eq_false_2 by congruence. exact Hopj.
Qed.

End LogExitConsistency.

Lemma consistent_log_regime_snapshot now pair' timestamp regime indicators db :
  consistent db ->
  consistent (TradeLogger.log_regime_snapshot now pair' timestamp regime
                indicators db).
Proof. intros Hc. exact Hc. Qed.

Lemma consistent_step (o : op) (db : database) :
  consistent db -> consistent (step o db).
Proof.
  intros Hc. destruct o; simpl.
  - destruct (TradeLogger.log_entry _ _ _ _ _ _ _ _ db) as [[rowid db']|e] eqn:He;
      [|exact Hc].
    by eapply consistent_log_entry.
  - by apply consistent_log_exit.
  - by apply consistent_log_regime_snapshot.
Qed.

Lemma consistent_run (ops : list op) (db : database) :
  consistent db -> consistent (run ops db).
Proof.
  revert db. induction ops as [|o ops IH]; intros db Hc; [exact Hc|].
  apply IH. by apply consistent_step.
Qed.


End Consistency.

(** *** Closing a trade *)

Section ClosingATrade.

Context (trade_id : pyval) (exit_time : string) (exit_price : float)
  (exit_reason : string) (indicators : gmap string float)
  (regime : gmap string string) (entry_price duration_minutes : float).

Local Abbreviation log_exit :=
  (TradeLogger.log_exit trade_id exit_time exit_price exit_reason indicators
     regime entry_price duration_minutes).

Local Abbreviation pnl_absolute := (sub exit_price entry_price).
Local Abbreviation pnl_percent :=
  (if truthy entry_price
   then mul (div (sub exit_price entry_price) entry_price) (of_Z 100)
   else zero).


(** An identifier without any row: [false], and nothing is written. *)
Lemma log_exit_unknown_trade db :
  (forall r, r ∈ trade_log_rows db -> trade_log.trade_id r <> str trade_id) ->
  log_exit db = (false, db).
Proof.
  intros H. apply log_exit_not_found. by apply select_latest_none.
Qed.


(** C9, as the code has it. The derived columns [log_exit] stores in a
    row it closes are computed on the arguments of the call in binary64
    arithmetic, [pnl_absolute] as [exit_price - entry_price] and
    [pnl_percent] as [pnl_absolute / entry_price * 100], or zero when
    [entry_price] is zero, and are kept as the store keeps a REAL: NULL
    for a result that is not a number, [0.0] for a zero of either sign, the
    result itself otherwise. In particular an entry at 100.0 closed at 105.0
    stores exactly 5.0 and 5.0. *)
Theorem log_exit_stores_pnl db db' i r :
  log_exit db = (true, db') ->
  trade_log_rows db !! i = Some r ->
  trade_log.trade_id r = str trade_id -> is_open r = true ->
  (exists r',
      trade_log_rows db' !! i = Some r'
      /\ trade_log.pnl_absolute r' = sql_real (sub exit_price entry_price)
      /\ trade_log.pnl_percent r' =
           (if eqb entry_price zero then Some zero
            else sql_real (mul (div (sub exit_price entry_price) entry_price)
                               (of_Z 100))))
  /\ (forall x,
        (is_nan x = true -> sql_real x = None)
        /\ (eqb x zero = true -> sql_real x = Some zero)
        /\ (is_nan x = false -> eqb x zero = false -> sql_real x = Some x))
  /\ sub (of_Z 105) (of_Z 100) = of_Z 5
  /\ mul (div (sub (of_Z 105) (of_Z 100)) (of_Z 100)) (of_Z 100) = of_Z 5
  /\ ((fun r => (trade_log.pnl_absolute r, trade_log.pnl_percent r))
        <$> trade_log_rows Sample.one_closed
      = [(Some (of_Z 5), Some (of_Z 5))]).
Proof.
  intros Hexit Hi Hid Hopen.
  split; [|split; [|split; [|split]]];
    [| |vm_compute; reflexivity|vm_compute; reflexivity
     |vm_compute; reflexivity].
  - destruct (TradeLogger.select_latest (str trade_id) (trade_log_rows db))
      as [row|] eqn:Hsel.
    + rewrite (log_exit_found _ _ _ _ _ _ _ _ _ _ Hsel) in Hexit.
      injection Hexit as <-. cbn [trade_log_rows].
      rewrite list_lookup_fmap, Hi. cbn [fmap option_fmap option_map].
      unfold TradeLogger.update_matches.
      rewrite Hopen, bool_decide_eq_true_2 by exact Hid.
      eexists. split; [reflexivity|].
      cbn [andb TradeLogger.set_exit trade_log.pnl_absolute
           trade_log.pnl_percent].
      split; [reflexivity|].
      unfold truthy. destruct (eqb entry_price zero); reflexivity.
    + rewrite (log_exit_not_found _ _ _ _ _ _ _ _ _ Hsel) in Hexit.
      discriminate Hexit.
  - intros x. unfold sql_real.
    by destruct x as [[]|[]| |[] m e].
Qed.

End ClosingATrade.

Lemma log_exit_stores_pnl_witness :
  exists r',
    trade_log_rows Sample.one_closed !! 0%nat = Some r'
    /\ trade_log.pnl_absolute r' = Some (of_Z 5)
    /\ trade_log.pnl_percent r' = Some (of_Z 5).
Proof.
  pose (db := run [Sample.entry (PyStr "1") "momentum_rsi_bb" 100
                     (Sample.regime "medium" "weak_trend")] empty_database).
  destruct (trade_log_rows db !! 0%nat) as [r|] eqn:Hr;
    [|vm_compute in Hr; discriminate Hr].
  destruct (log_exit_stores_pnl (PyStr "1") "2026-02-23T13:00:00" (of_Z 105)
              "roi" Sample.indicators (Sample.regime "medium" "weak_trend")
              (of_Z 100) (of_Z 60) db Sample.one_closed 0%nat r)
    as [(r' & Hr' & Habs & Hpct) _].
  - vm_compute. reflexivity.
  - exact Hr.
  - vm_compute in Hr. injection Hr as <-. reflexivity.
  - vm_compute in Hr. injection Hr as <-. reflexivity.
  - exists r'. split; [exact Hr'|]. split; [exact Habs|exact Hpct].
Defined.

(** The counterexample to C9 as stated: when both prices of the call are
    infinite, [exit_price - entry_price] is NaN and the two stored fields are
    NULL; and for an exit at [-0.0] against an entry at [0.0] the difference
    is [-0.0] and the stored field is [0.0]. *)
Lemma log_exit_pnl_not_the_difference :
  let db :=
    step (Sample.entry (PyStr "1") "momentum_rsi_bb" 100
            (Sample.regime "medium" "weak_trend")) empty_database in
  let closed exit_price entry_price :=
    snd (TradeLogger.log_exit (PyStr "1") "2026-02-23T13:00:00" exit_price
           "roi" Sample.indicators (Sample.regime "medium" "weak_trend")
           entry_price (of_Z 60) db) in
  is_open <$> trade_log_rows db = [true]
  /\ (fun r => (trade_log.pnl_absolute r, trade_log.pnl_percent r))
       <$> trade_log_rows (closed inf inf) = [(None, None)]
  /\ trade_log.pnl_absolute <$> trade_log_rows (closed inf inf)
     <> [Some (sub inf inf)]
  /\ trade_log.pnl_absolute <$> trade_log_rows (closed (opp zero) zero)
     = [Some zero]
  /\ trade_log.pnl_absolute <$> trade_log_rows (closed (opp zero) zero)
     <> [Some (sub (opp zero) zero)].
Proof.
  intros db closed.
  split; [vm_compute; reflexivity|]. split; [vm_compute; reflexivity|].
  split; [vm_compute; discriminate|]. split; [vm_compute; reflexivity|].
  vm_compute. discriminate.
Qed.

(** C1 at a trade that is already closed. The only row of the identifier
    ["1"] in [Sample.one_closed] is closed, so the identifier has no open
    row; a further [log_exit] for it writes nothing, and yet returns [true]
    where the claim and the docstring ask for [false]: the SELECT that
    decides the result does not look at [exit_time]. *)
Theorem log_exit_closed_trade_returns_true :
  (fun r => (trade_log.trade_id r, is_open r))
    <$> trade_log_rows Sample.one_closed = [("1"%string, false)]
  /\ TradeLogger.log_exit (PyStr "1") "2026-02-23T14:00:00" (of_Z 106) "roi"
       Sample.indicators (Sample.regime "medium" "weak_trend")
       (of_Z 100) (of_Z 120) Sample.one_closed
     = (true, Sample.one_closed).
Proof. split; vm_compute; reflexivity. Qed.



(** *** Identifiers are matched by their string *)

Lemma log_exit_depends_on_str (v w : pyval) exit_time exit_price exit_reason
    indicators regime entry_price duration_minutes db :
  str v = str w ->
  TradeLogger.log_exit w exit_time exit_price exit_reason indicators regime
    entry_price duration_minutes db
  = TradeLogger.log_exit v exit_time exit_price exit_reason indicators regime
      entry_price duration_minutes db.
Proof. intros Hstr. unfold TradeLogger.log_exit. rewrite Hstr. reflexivity. Qed.

(** C10. [log_entry] stores [str(trade_id)] and [log_exit] looks up
    [str(trade_id)]. An entry logged under [v] is closed by a [log_exit]
    called with any [w] that has the same string: the call returns [true],
    closes the row of the entry and leaves the rows of every other
    identifier as they are; and on every database the calls with [v] and
    with [w] agree. A [log_exit] called with a [w] of another string leaves
    the entry open and as it is, touches no row of another identifier than
    its own, and returns [true] only if the table already had a row of its
    own identifier. The integer 7 and the string "7" have the same
    string. *)
Theorem log_exit_matches_by_str (now : string) (v w : pyval)
    (pair' strategy entry_time : string) (entry_price : float)
    (entry_indicators : gmap string float) (entry_regime : gmap string string)
    (exit_time : string) (exit_price : float) (exit_reason : string)
    (indicators : gmap string float) (regime : gmap string string)
    (entry_price' duration_minutes : float)
    (db : database) (lastrowid : Z) (db1 : database) :
  TradeLogger.log_entry now v pair' strategy entry_time entry_price
    entry_indicators entry_regime db = Return (lastrowid, db1) ->
  (str v = str w ->
   exists db2 r',
     TradeLogger.log_exit w exit_time exit_price exit_reason indicators regime
       entry_price' duration_minutes db1 = (true, db2)
     /\ last (trade_log_rows db2) = Some r'
     /\ trade_log.id r' = lastrowid
     /\ trade_log.trade_id r' = str v
     /\ trade_log.exit_time r' = Some exit_time
     /\ (forall i r,
           trade_log_rows db1 !! i = Some r ->
           trade_log.trade_id r <> str v ->
           trade_log_rows db2 !! i = Some r))
  /\ (str v <> str w ->
      exists b db2 r',
        TradeLogger.log_exit w exit_time exit_price exit_reason indicators
          regime entry_price' duration_minutes db1 = (b, db2)
        /\ last (trade_log_rows db1) = Some r'
        /\ last (trade_log_rows db2) = Some r'
        /\ trade_log.id r' = lastrowid
        /\ trade_log.trade_id r' = str v
        /\ is_open r' = true
        /\ (b = true <->
            exists r, r ∈ trade_log_rows db
                      /\ trade_log.trade_id r = str w)
        /\ (forall i r,
              trade_log_rows db1 !! i = Some r ->
              trade_log.trade_id r <> str w ->
              trade_log_rows db2 !! i = Some r))
  /\ (str v = str w ->
      forall db',
        TradeLogger.log_exit w exit_time exit_price exit_reason indicators
          regime entry_price' duration_minutes db'
        = TradeLogger.log_exit v exit_time exit_price exit_reason indicators
            regime entry_price' duration_minutes db')
  /\ str (PyInt 7) = str (PyStr "7").
Proof.
  intros Hentry.
  apply log_entry_inv in Hentry
    as (new & Hrows & _ & _ & _ & _ & Hid & _ & _ & Hopen & Hcols).
  assert (Htid : trade_log.trade_id new = str v).
  { unfold entry_columns in Hcols. congruence. }
  assert (Hother : forall id f i r,
            trade_log_rows db1 !! i = Some r ->
            trade_log.trade_id r <> id ->
            ((fun r0 => if TradeLogger.update_matches id r0 then f r0 else r0)
               <$> trade_log_rows db1) !! i = Some r).
  { intros id f i r Hi Hne. rewrite list_lookup_fmap, Hi.
    cbn [fmap option_fmap option_map]. unfold TradeLogger.update_matches.
    by rewrite (bool_decide_eq_false_2 _ Hne). }
  split; [|split; [|split; [|reflexivity]]].
  - intros Hstr. rewrite Hstr in Htid.
    destruct (TradeLogger.select_latest (str w) (trade_log_rows db1))
      as [row|] eqn:Hsel.
    + eexists. eexists. split; [by apply log_exit_found|].
      cbn [trade_log_rows]. rewrite fmap_last, Hrows, last_snoc.
      cbn [fmap option_fmap option_map]. unfold TradeLogger.update_matches.
      rewrite Hopen, bool_decide_eq_true_2 by exact Htid.
      split; [reflexivity|]. cbn [andb TradeLogger.set_exit trade_log.id
        trade_log.trade_id trade_log.exit_time].
      split; [exact Hid|]. split; [by rewrite Hstr|]. split; [reflexivity|].
      rewrite <- Hrows. intros i r Hi Hne. apply Hother; [exact Hi|].
      by rewrite <- Hstr.
    + rewrite select_latest_none in Hsel. exfalso.
      apply (Hsel new); [|exact Htid].
      rewrite Hrows. apply elem_of_app. right. by apply list_elem_of_singleton.
  - intros Hne.
    assert (Hnew : trade_log.trade_id new <> str w) by (by rewrite Htid).
    pose proof (log_exit_returns w exit_time exit_price exit_reason indicators
                  regime entry_price' duration_minutes db1) as Hret.
    assert (Hsame : (exists r, r ∈ trade_log_rows db1
                               /\ trade_log.trade_id r = str w)
                    <-> exists r, r ∈ trade_log_rows db
                                  /\ trade_log.trade_id r = str w).
    { rewrite Hrows. split; intros (r & Hr & Hrid); exists r;
        (split; [|exact Hrid]).
      - apply elem_of_app in Hr as [Hr|Hr]; [exact Hr|].
        apply list_elem_of_singleton in Hr. by subst r.
      - apply elem_of_app. by left. }
    rewrite Hsame in Hret.
    destruct (TradeLogger.select_latest (str w) (trade_log_rows db1))
      as [row|] eqn:Hsel.
    + rewrite (log_exit_found _ _ _ _ _ _ _ _ _ _ Hsel) in Hret |- *.
      eexists. eexists. exists new. split; [reflexivity|].
      cbn [trade_log_rows fst] in *.
      split; [by rewrite Hrows, last_snoc|].
      split.
      { rewrite fmap_last, Hrows, last_snoc.
        cbn [fmap option_fmap option_map]. unfold TradeLogger.update_matches.
        by rewrite (bool_decide_eq_false_2 _ Hnew). }
      split; [exact Hid|]. split; [exact Htid|]. split; [exact Hopen|].
      split; [exact Hret|].
      intros i r Hi Hr. by apply Hother.
    + rewrite (log_exit_not_found _ _ _ _ _ _ _ _ _ Hsel) in Hret |- *.
      exists false, db1, new. split; [reflexivity|].
      split; [by rewrite Hrows, last_snoc|].
      split; [by rewrite Hrows, last_snoc|].
      split; [exact Hid|]. split; [exact Htid|]. split; [exact Hopen|].
      split; [exact Hret|]. by intros i r Hi _.
  - intros Hstr db'. by apply log_exit_depends_on_str.
Qed.

(** The integer 7 enters, the string "7" closes; the string "8" does
    not. *)
Lemma log_exit_matches_by_str_witness :
  let db1 :=
    step (Sample.entry (PyInt 7) "momentum_rsi_bb" 100
            (Sample.regime "medium" "weak_trend")) empty_database in
  (exists db2 r',
      TradeLogger.log_exit (PyStr "7") "2026-02-23T13:00:00" (of_Z 105) "roi"
        Sample.indicators (Sample.regime "medium" "weak_trend") (of_Z 100)
        (of_Z 60) db1
      = (true, db2)
      /\ last (trade_log_rows db2) = Some r'
      /\ trade_log.id r' = 1
      /\ trade_log.trade_id r' = "7"%string
      /\ trade_log.exit_time r' = Some "2026-02-23T13:00:00"%string)
  /\ (exists db2 r',
        TradeLogger.log_exit (PyStr "8") "2026-02-23T13:00:00" (of_Z 105)
          "roi" Sample.indicators (Sample.regime "medium" "weak_trend")
          (of_Z 100) (of_Z 60) db1
        = (false, db2)
        /\ last (trade_log_rows db2) = Some r'
        /\ trade_log.trade_id r' = "7"%string
        /\ is_open r' = true).
Proof.
  intros db1. split.
  - destruct (proj1 (log_exit_matches_by_str "2026-02-23 12:00:00" (PyInt 7)
                (PyStr "7") "BTC/USDT" "momentum_rsi_bb" "2026-02-23T12:00:00"
                (of_Z 100) Sample.indicators
                (Sample.regime "medium" "weak_trend")
                "2026-02-23T13:00:00" (of_Z 105) "roi" Sample.indicators
                (Sample.regime "medium" "weak_trend") (of_Z 100) (of_Z 60)
                empty_database 1 db1 eq_refl) eq_refl)
      as (db2 & r' & H1 & H2 & H3 & H4 & H5 & _).
    exists db2, r'. by repeat split.
  - destruct (proj1 (proj2 (log_exit_matches_by_str "2026-02-23 12:00:00"
                (PyInt 7) (PyStr "8") "BTC/USDT" "momentum_rsi_bb"
                "2026-02-23T12:00:00" (of_Z 100) Sample.indicators
                (Sample.regime "medium" "weak_trend")
                "2026-02-23T13:00:00" (of_Z 105) "roi" Sample.indicators
                (Sample.regime "medium" "weak_trend") (of_Z 100) (of_Z 60)
                empty_database 1 db1 eq_refl)))
      as (b & db2 & r' & Hexit & _ & Hlast & _ & Htid & Hopen & Hb & _);
      [discriminate|].
    destruct b.
    + destruct (proj1 Hb eq_refl) as (r & Hr & _).
      by apply elem_of_nil in Hr.
    + exists db2, r'. by repeat split.
Defined.

(** *** Entry columns are written once *)

Section WrittenOnce.

(** One call, from any consistent database: every row stays in place with
    its key and its entry columns; its exit columns change only under
    [log_exit], and only if all of them were unset. A row that appears
    was created by [log_entry] with the arguments of the call and has no
    exit column set. *)
Lemma step_frame (o : op) (db : database) :
  consistent db ->
  (forall i r,
      trade_log_rows db !! i = Some r ->
      exists r',
        trade_log_rows (step o db) !! i = Some r'
        /\ trade_log.id r' = trade_log.id r
        /\ trade_log.created_at r' = trade_log.created_at r
        /\ entry_columns r' = entry_columns r
        /\ (r' = r \/ (is_log_exit o /\ exit_unset r /\ is_closed r' = true)))
  /\ (forall i r',
        trade_log_rows (step o db) !! i = Some r' ->
        trade_log_rows db !! i = None ->
        created_by o r' /\ exit_unset r').
Proof.
  intros Hc. destruct o as [now tid pair' strategy entry_time entry_price ind reg
                           |tid exit_time exit_price exit_reason ind reg
                              entry_price duration
                           |now pair' timestamp reg ind]; simpl.
  - destruct (TradeLogger.log_entry now tid pair' strategy entry_time
                entry_price ind reg db) as [[rowid db']|e] eqn:He.
    + apply log_entry_inv in He
        as (new & Hrows & _ & _ & _ & _ & _ & Hnow & Hun & _ & Hcols).
      rewrite Hrows. split.
      * intros i r Hi. exists r. rewrite lookup_app_l
          by (by eapply lookup_lt_Some). repeat split; auto.
      * intros i r' Hi Hnone.
        apply lookup_snoc_Some in Hi as [[_ Hi]|[_ <-]]; [congruence|].
        repeat split; assumption.
    + split; [|intros i r' Hi Hnone; congruence].
      intros i r Hi. exists r. repeat split; auto.
  - destruct (TradeLogger.select_latest (str tid) (trade_log_rows db))
      as [row|] eqn:Hsel.
    + rewrite (log_exit_found _ _ _ _ _ _ _ _ _ _ Hsel).
      cbn [snd trade_log_rows]. split.
      * intros i r Hi. rewrite list_lookup_fmap, Hi.
        cbn [fmap option_fmap option_map]. eexists. split; [reflexivity|].
        unfold TradeLogger.update_matches.
        destruct (bool_decide (trade_log.trade_id r = str tid)); cbn [andb];
          [|repeat split; auto].
        destruct (is_open r) eqn:Hop; [|repeat split; auto].
        repeat split; try reflexivity. right.
        destruct Hc as (_ & Hunset & _).
        repeat split. apply Hunset; [by eapply list_elem_of_lookup_2|exact Hop].
      * intros i r' Hi Hnone. rewrite list_lookup_fmap, Hnone in Hi.
        discriminate Hi.
    + rewrite (log_exit_not_found _ _ _ _ _ _ _ _ _ Hsel). cbn [snd].
      split; [|intros i r' Hi Hnone; congruence].
      intros i r Hi. exists r. repeat split; auto.
  - split; [|intros i r' Hi Hnone; congruence].
    intros i r Hi. exists r. repeat split; auto.
Qed.

(** Any number of later calls. *)
Lemma run_frame (ops : list op) (db : database) :
  consistent db ->
  forall i r,
    trade_log_rows db !! i = Some r ->
    exists r',
      trade_log_rows (run ops db) !! i = Some r'
      /\ trade_log.id r' = trade_log.id r
      /\ trade_log.created_at r' = trade_log.created_at r
      /\ entry_columns r' = entry_columns r
      /\ (is_closed r = true -> r' = r).
Proof.
  revert db. induction ops as [|o ops IH]; intros db Hc i r Hi.
  - exists r. repeat split; auto.
  - destruct (proj1 (step_frame o db Hc) i r Hi)
      as (r1 & Hi1 & Hid1 & Hnow1 & Hcols1 & Hexit1).
    destruct (IH (step o db) (consistent_step o db Hc) i r1 Hi1)
      as (r' & Hi' & Hid' & Hnow' & Hcols' & Hexit').
    exists r'. split; [exact Hi'|]. repeat split; try congruence.
    intros Hclosed.
    destruct Hexit1 as [->|(_ & Hunset & _)]; [by apply Hexit'|].
    unfold is_closed, is_open in Hclosed. unfold exit_unset, exit_columns in Hunset.
    assert (trade_log.exit_time r = None) as Hnone by congruence.
    rewrite Hnone in Hclosed. discriminate Hclosed.
Qed.

End WrittenOnce.

(** C4. Along every sequence of recorder calls: a call neither removes nor
    moves a row and keeps its key and its entry columns; it changes the exit
    columns of a row only if it is a [log_exit] and all of them were unset;
    a new row comes from [log_entry] only, with the arguments of the call
    in its entry columns, as the store keeps them, and no exit column set;
    and whatever calls follow, the entry columns stay as they were written
    and a closed row stays as it is. *)
Theorem entry_columns_written_once (ops : list op) (o : op) (later : list op) :
  let db := run ops empty_database in
  (forall i r,
      trade_log_rows db !! i = Some r ->
      exists r',
        trade_log_rows (step o db) !! i = Some r'
        /\ trade_log.id r' = trade_log.id r
        /\ entry_columns r' = entry_columns r
        /\ (r' = r \/ (is_log_exit o /\ exit_unset r /\ is_closed r' = true)))
  /\ (forall i r',
        trade_log_rows (step o db) !! i = Some r' ->
        trade_log_rows db !! i = None ->
        created_by o r' /\ exit_unset r')
  /\ (forall i r,
        trade_log_rows db !! i = Some r ->
        exists r',
          trade_log_rows (run later db) !! i = Some r'
          /\ trade_log.id r' = trade_log.id r
          /\ entry_columns r' = entry_columns r
          /\ (is_closed r = true -> r' = r)).
Proof.
  intros db.
  assert (Hc : consistent db) by apply consistent_run, consistent_empty.
  split; [|split].
  - intros i r Hi.
    destruct (proj1 (step_frame o db Hc) i r Hi) as (r' & H1 & H2 & _ & H3 & H4).
    exists r'. auto.
  - apply (proj2 (step_frame o db Hc)).
  - intros i r Hi.
    destruct (run_frame later db Hc i r Hi) as (r' & H1 & H2 & _ & H3 & H4).
    exists r'. auto.
Qed.

Lemma entry_columns_written_once_witness :
  let db := run [Sample.entry (PyStr "1") "momentum_rsi_bb" 100
                   (Sample.regime "low" "ranging")] empty_database in
  let o := Sample.exit (PyStr "1") 100 105 (Sample.regime "high" "strong_trend") in
  exists r r',
    trade_log_rows db !! 0%nat = Some r
    /\ trade_log_rows (step o db) !! 0%nat = Some r'
    /\ trade_log.id r' = trade_log.id r
    /\ entry_columns r' = entry_columns r
    /\ exit_unset r /\ is_closed r' = true.
Proof.
  intros db o.
  destruct (trade_log_rows db !! 0%nat) as [r|] eqn:Hr;
    [|vm_compute in Hr; discriminate Hr].
  destruct (proj1 (entry_columns_written_once
                     [Sample.entry (PyStr "1") "momentum_rsi_bb" 100
                        (Sample.regime "low" "ranging")] o []) 0%nat r Hr)
    as (r' & Hr' & Hid & Hcols & Hexit).
  exists r, r'. split; [reflexivity|]. split; [exact Hr'|].
  split; [exact Hid|]. split; [exact Hcols|].
  vm_compute in Hr, Hr'. injection Hr as <-. injection Hr' as <-.
  split; reflexivity.
Defined.

(** ** The performance analyzer *)

(** *** Too few closed trades for [detect_decay] *)

Section DecayWindows.

Lemma length_insert_desc (r : trade_log.row) (rows : list trade_log.row) :
  length (PerformanceAnalyzer.insert_desc r rows) = S (length rows).
Proof.
  induction rows as [|x rows IH]; simpl; [reflexivity|].
  destruct (String.leb _ _); simpl; [reflexivity | by rewrite IH].
Qed.

Lemma length_order_by_exit_time_desc (rows : list trade_log.row) :
  length (PerformanceAnalyzer.order_by_exit_time_desc rows) = length rows.
Proof.
  unfold PerformanceAnalyzer.order_by_exit_time_desc.
  induction rows as [|x rows IH]; [reflexivity|].
  cbn [fold_right length]. by rewrite length_insert_desc, IH.
Qed.

(** Nothing is left after the first [n] of [n] rows. *)
Lemma slice_beyond {A} (xs : list A) (lo hi : Z) :
  len xs <= lo -> slice xs lo hi = [].
Proof.
  intros Hlo. unfold slice, slice_bound, len in *.
  destruct (lo <? 0) eqn:Hneg; [apply Z.ltb_lt in Hneg; lia|].
  rewrite (Z.min_r lo) by lia. rewrite Nat2Z.id, skipn_all. by rewrite firstn_nil.
Qed.

(** With more rows than the recent window and a positive baseline window,
    the baseline slice is not empty. *)
Lemma slice_within {A} (xs : list A) (lo n : Z) :
  0 <= lo -> lo < len xs -> 0 < n -> slice xs lo (lo + n) <> [].
Proof.
  intros Hlo Hlen Hn. unfold slice, slice_bound, len in *.
  destruct (lo <? 0) eqn:Hneg; [apply Z.ltb_lt in Hneg; lia|].
  destruct (lo + n <? 0) eqn:Hneg'; [apply Z.ltb_lt in Hneg'; lia|].
  rewrite (Z.min_l lo) by lia.
  intros Hnil. apply (f_equal length) in Hnil.
  rewrite length_take, length_drop in Hnil. simpl in Hnil. lia.
Qed.

End DecayWindows.

(** Where [detect_decay] reports too little data. When the strategy has
    fewer closed trades than [recent_window], or exactly as many, so that
    none is left for the baseline, [detect_decay] returns the report with
    [has_enough_data = false], the number of closed trades, under [needed]
    the total [recent_window + baseline_window], and the recommendation that
    names the missing count; no summary is computed and nothing is raised. *)
Theorem detect_decay_insufficient_data (strategy : string)
    (recent_window baseline_window : Z) (db : database) :
  let count := len (closed_trades_of strategy db) in
  count <= recent_window ->
  PerformanceAnalyzer.detect_decay strategy recent_window baseline_window db
  = Return
      (InsufficientData count (recent_window + baseline_window)
         (if count <? recent_window
          then "Need at least " +:+ pretty recent_window
               +:+ " closed trades for analysis."
          else "Need at least " +:+ pretty (recent_window + baseline_window)
               +:+ " closed trades for decay comparison.")).
Proof.
  intros count Hn. unfold PerformanceAnalyzer.detect_decay.
  fold (closed_trades_of strategy db).
  assert (Hlen : len (PerformanceAnalyzer.order_by_exit_time_desc
                        (closed_trades_of strategy db)) = count).
  { unfold count, len. by rewrite length_order_by_exit_time_desc. }
  rewrite Hlen.
  destruct (count <? recent_window) eqn:Hlt; [reflexivity|].
  rewrite (slice_beyond _ recent_window) by lia.
  reflexivity.
Qed.

Lemma detect_decay_insufficient_data_witness :
  len (closed_trades_of "momentum_rsi_bb" Sample.one_closed) = 1
  /\ PerformanceAnalyzer.detect_decay "momentum_rsi_bb" 20 50
       Sample.one_closed
     = Return (InsufficientData 1 70
                 "Need at least 20 closed trades for analysis.").
Proof.
  split; [reflexivity|].
  apply (detect_decay_insufficient_data "momentum_rsi_bb" 20 50
           Sample.one_closed).
  vm_compute. discriminate.
Defined.

(** C2 at three closed trades. The strategy has three closed trades, fewer
    than [recent_window + baseline_window = 2 + 50]. [detect_decay] does not
    return the report with [has_enough_data = false]: it evaluates the decay
    rule on the two most recent trades against a baseline of the one trade
    that is left, and reports decay. The claim, the docstring (the preceding
    [baseline_window] trades) and the message of the second guard (at least
    [recent_window + baseline_window] closed trades) ask for the report of
    too little data; the second guard tests for an empty baseline only. *)
Theorem detect_decay_short_baseline :
  len (closed_trades_of "momentum_rsi_bb" Sample.three_closed) = 3
  /\ 3 < 2 + 50
  /\ exists recent baseline win_rate_delta expectancy_delta,
       PerformanceAnalyzer.detect_decay "momentum_rsi_bb" 2 50
         Sample.three_closed
       = Return
           (DecayReport 3 recent baseline win_rate_delta expectancy_delta
              true
              ("DECAY DETECTED: Win rate dropped 50.0%; "
               +:+ "Expectancy turned negative; "
               +:+ "Profit factor dropped below 1.0. "
               +:+ "Consider reducing position size or pausing strategy."))
       /\ window_dict.total_trades recent = 2
       /\ window_dict.total_trades baseline = 1.
Proof.
  split; [vm_compute; reflexivity|]. split; [lia|].
  do 4 eexists. split; [vm_compute; reflexivity|].
  split; reflexivity.
Qed.

(** In general, any number of closed trades above [recent_window] has the
    decay rule evaluated, however short the baseline. *)
Lemma detect_decay_evaluates (strategy : string)
    (recent_window baseline_window : Z) (db : database) (report : decay_report) :
  0 <= recent_window < len (closed_trades_of strategy db) ->
  0 < baseline_window ->
  PerformanceAnalyzer.detect_decay strategy recent_window baseline_window db
  = Return report ->
  has_enough_data report = true.
Proof.
  intros [Hrw Hn] Hbw. unfold PerformanceAnalyzer.detect_decay.
  fold (closed_trades_of strategy db).
  set (rows := PerformanceAnalyzer.order_by_exit_time_desc _).
  assert (Hlen : len rows = len (closed_trades_of strategy db)).
  { unfold len, rows. by rewrite length_order_by_exit_time_desc. }
  rewrite Hlen.
  destruct (len (closed_trades_of strategy db) <? recent_window) eqn:Hlt;
    [apply Z.ltb_lt in Hlt; lia|].
  pose proof (slice_within rows recent_window baseline_window Hrw
                ltac:(lia) Hbw) as Hne.
  destruct (slice rows recent_window (recent_window + baseline_window))
    as [|x rest]; [done|].
  rewrite fmap_cons.
  destruct (PerformanceAnalyzer._compute_summary _) as [recent|e];
    [|discriminate].
  cbn [bind].
  destruct (PerformanceAnalyzer._compute_summary _) as [baseline|e];
    [|discriminate].
  cbn [bind]. intros [= <-]. reflexivity.
Qed.

(** *** A sum of winning trades is positive *)

Section SumOfWins.

Lemma shr_1_div2 (r : shr_record) :
  0 <= shr_m r -> shr_m (shr_1 r) = shr_m r / 2.
Proof.
  destruct r as [m rb sb]. simpl. intros Hm.
  destruct m as [|[p|p|]|p]; simpl; try reflexivity; try lia.
  - apply (Z.div_unique _ 2 _ 1); lia.
  - apply (Z.div_unique _ 2 _ 0); lia.
Qed.

Lemma iter_shr_1_div (p : positive) (r : shr_record) :
  0 <= shr_m r -> shr_m (SpecFloat.iter_pos shr_1 p r) = shr_m r / 2 ^ Zpos p.
Proof.
  revert r. induction p as [p IH|p IH|]; intros r Hm; simpl SpecFloat.iter_pos;
    try assert (Hpow : 0 < 2 ^ Z.pos p) by (apply Z.pow_pos_nonneg; lia).
  - assert (H1 : 0 <= shr_m (shr_1 r)).
    { rewrite shr_1_div2 by exact Hm. apply Z.div_pos; lia. }
    assert (H2 : 0 <= shr_m (SpecFloat.iter_pos shr_1 p (shr_1 r))).
    { rewrite IH by exact H1. apply Z.div_pos; [exact H1|]. apply Z.pow_pos_nonneg; lia. }
    rewrite (IH _ H2), (IH _ H1), (shr_1_div2 _ Hm).
    rewrite !Z.div_div by lia.
    f_equal. change (Z.pos p~1) with (Z.succ (2 * Z.pos p)).
    rewrite Z.pow_succ_r, Z.pow_twice_r by lia. lia.
  - assert (H1 : 0 <= shr_m (SpecFloat.iter_pos shr_1 p r)).
    { rewrite IH by exact Hm. apply Z.div_pos; [exact Hm|]. apply Z.pow_pos_nonneg; lia. }
    rewrite (IH _ H1), (IH _ Hm).
    rewrite Z.div_div by lia.
    f_equal. exact (eq_sym (Z.pow_twice_r 2 (Z.pos p))).
  - rewrite (shr_1_div2 _ Hm). reflexivity.
Qed.

Lemma digits2_pos_lower (m : positive) :
  2 ^ (Zpos (digits2_pos m) - 1) <= Zpos m.
Proof.
  induction m as [m IH|m IH|]; simpl digits2_pos.
  - rewrite Pos2Z.inj_succ.
    replace (Z.succ (Z.pos (digits2_pos m)) - 1)
      with (1 + (Z.pos (digits2_pos m) - 1)) by lia.
    rewrite Z.pow_add_r by lia. change (2 ^ 1) with 2.
    set (k := 2 ^ _) in *. clearbody k. lia.
  - rewrite Pos2Z.inj_succ.
    replace (Z.succ (Z.pos (digits2_pos m)) - 1)
      with (1 + (Z.pos (digits2_pos m) - 1)) by lia.
    rewrite Z.pow_add_r by lia. change (2 ^ 1) with 2.
    set (k := 2 ^ _) in *. clearbody k. lia.
  - simpl. lia.
Qed.

(** Shifting a positive mantissa to its canonical exponent keeps it
    positive, provided the exponent is not below the least one. *)
Lemma shr_fexp_positive (m : positive) (e : Z) (l : location) :
  emin <= e ->
  exists m' e', 
    shr_fexp prec emax (Zpos m) e l = (m', e')
    /\ 0 < shr_m m' /\ emin <= e'.
Proof.
  intros He. unfold shr_fexp, shr.
  set (r := shr_record_of_loc (Z.pos m) l).
  assert (Hr : shr_m r = Zpos m) by (unfold r; by destruct l as [|[]]).
  unfold fexp. fold emin. simpl Zdigits2.
  destruct (Z.max (Z.pos (digits2_pos m) + e - prec) emin - e) as [|p|p] eqn:Hn.
  - exists r, e. rewrite Hr. repeat split; lia.
  - eexists _, _. split; [reflexivity|].
    rewrite iter_shr_1_div by (rewrite Hr; lia). rewrite Hr.
    unfold prec in *. split; [|lia].
    apply Z.div_str_pos. split; [apply Z.pow_pos_nonneg; lia|].
    etransitivity; [|apply digits2_pos_lower].
    apply Z.pow_le_mono_r; lia.
  - exists r, e. rewrite Hr. repeat split; lia.
Qed.

Lemma binary_round_aux_positive (m : positive) (e : Z) (l : location) :
  emin <= e ->
  positive_float (binary_round_aux prec emax false (Zpos m) e l).
Proof.
  intros He. unfold binary_round_aux.
  destruct (shr_fexp_positive m e l He) as (m1 & e1 & -> & Hm1 & He1).
  assert (Hround : 0 < round_nearest_even (shr_m m1) (loc_of_shr_record m1)).
  { unfold round_nearest_even.
    destruct (loc_of_shr_record m1) as [|[]]; try lia.
    destruct (Z.even (shr_m m1)); lia. }
  destruct (round_nearest_even (shr_m m1) (loc_of_shr_record m1))
    as [|m2|m2]; try lia.
  destruct (shr_fexp_positive m2 e1 loc_Exact He1) as (m3 & e3 & -> & Hm3 & He3).
  destruct (shr_m m3) as [|m4|m4]; try lia.
  destruct (e3 <=? emax - prec); simpl; [exact He3 | exact I].
Qed.

Lemma shl_align_exponent (m : positive) (e e' : Z) :
  emin <= e -> emin <= e' -> emin <= snd (shl_align m e e').
Proof. intros He He'. unfold shl_align. by destruct (e' - e). Qed.

Lemma binary_round_positive (m : positive) (e : Z) :
  emin <= e -> positive_float (binary_round prec emax false m e).
Proof.
  intros He. unfold binary_round.
  pose proof (shl_align_exponent m e
                (fexp prec emax (Z.pos (digits2_pos m) + e)) He) as Hs.
  destruct (shl_align m e _) as [mz ez]. apply binary_round_aux_positive.
  apply Hs. unfold fexp. fold emin. lia.
Qed.

(** Adding a positive float to zero or to a positive float gives a
    positive float: the sum may overflow to infinity, never cancel. *)
Lemma add_positive (x y : float) :
  x = zero \/ positive_float x -> positive_float y ->
  positive_float (add x y).
Proof.
  intros [->|Hx] Hy.
  - destruct y as [[]|[]| |[] my ey]; try done.
  - destruct x as [[]|[]| |[] mx ex], y as [[]|[]| |[] my ey]; try done.
    unfold add, SFadd. cbn [cond_Zopp].
    change (Z.pos ?a + Z.pos ?b) with (Z.pos (a + b)).
    cbn [binary_normalize]. apply binary_round_positive.
    simpl in Hx, Hy. lia.
Qed.

Lemma sum_positive (xs : list float) :
  xs <> [] -> Forall positive_float xs -> positive_float (sum xs).
Proof.
  intros Hne Hall. unfold sum.
  assert (Hgen : forall acc, acc = zero \/ positive_float acc ->
                   xs <> [] \/ positive_float acc ->
                   positive_float (fold_left add xs acc)).
  { clear Hne. induction Hall as [|x xs Hx Hall IH]; intros acc Hacc Hne.
    - simpl. destruct Hne as [Hne|Hp]; [done|exact Hp].
    - simpl. pose proof (add_positive acc x Hacc Hx). apply IH; by right. }
  apply Hgen; [by left | by left].
Qed.

Lemma gtb_zero_positive (p : float) :
  valid p = true -> gtb p zero = true -> positive_float p.
Proof.
  destruct p as [[]|[]| |[] m e]; try done.
  intros Hv _. unfold valid, valid_binary, bounded, canonical_mantissa in Hv.
  apply andb_prop in Hv as [Hc _]. apply Z.eqb_eq in Hc.
  unfold fexp in Hc. fold emin in Hc. simpl. lia.
Qed.

Lemma positive_gtb_zero (p : float) : positive_float p -> gtb p zero = true.
Proof. destruct p as [[]|[]| |[] m e]; done. Qed.

End SumOfWins.

(** *** What [summary] computes *)

Section Summary.

Lemma numbers_length (pnls : list (option float)) (ps : list float) :
  PerformanceAnalyzer.numbers pnls = Return ps -> length ps = length pnls.
Proof.
  revert ps. induction pnls as [|[p|] pnls IH]; intros ps; simpl.
  - by intros [= <-].
  - destruct (PerformanceAnalyzer.numbers pnls) as [ps'|e]; simpl; [|done].
    intros [= <-]. simpl. by rewrite (IH ps').
  - done.
Qed.

(** [round] keeps the two values the profit factor takes without a
    division. *)
Lemma round_inf (n : Z) : round inf n = inf.
Proof. reflexivity. Qed.

Lemma round_zero (n : Z) : round zero n = zero.
Proof. reflexivity. Qed.

(** [summary] returns unless a selected row has a NULL P&L; the profit
    factor it returns is [profit_factor_rule] of the selected P&L column, and
    [total_trades] is the number of selected rows. *)
Lemma summary_inv (strategy regime : option string) (db : database)
    (s : summary_dict.t) :
  PerformanceAnalyzer.summary strategy regime db = Return s ->
  exists pnls,
    PerformanceAnalyzer.numbers
      (trade_log.pnl_percent <$> summary_rows strategy regime db) = Return pnls
    /\ summary_dict.total_trades s = len (summary_rows strategy regime db)
    /\ summary_dict.wins s = len (wins_of pnls)
    /\ summary_dict.losses s = len (losses_of pnls)
    /\ summary_dict.profit_factor s = profit_factor_rule pnls.
Proof.
  unfold PerformanceAnalyzer.summary. fold (summary_rows strategy regime db).
  destruct (summary_rows strategy regime db) as [|r rows] eqn:Hrows.
  - intros [= <-]. exists []. repeat split; reflexivity.
  - rewrite <- Hrows. clear Hrows.
    destruct (PerformanceAnalyzer.numbers _) as [pnls|e] eqn:Hnum; [|done].
    cbn [bind]. intros [= <-]. exists pnls. split; [reflexivity|].
    cbn [summary_dict.total_trades summary_dict.wins summary_dict.losses
         summary_dict.profit_factor].
    split; [|repeat split; reflexivity].
    unfold len. apply numbers_length in Hnum. rewrite Hnum.
    by rewrite length_fmap.
Qed.

Lemma compute_summary_inv (pnls : list (option float)) (w : window_dict.t) :
  PerformanceAnalyzer._compute_summary pnls = Return w ->
  exists ps,
    PerformanceAnalyzer.numbers pnls = Return ps
    /\ window_dict.total_trades w = len pnls
    /\ window_dict.profit_factor w = profit_factor_rule ps.
Proof.
  unfold PerformanceAnalyzer._compute_summary.
  destruct pnls as [|p rest] eqn:Hp.
  - intros [= <-]. exists []. repeat split; reflexivity.
  - rewrite <- Hp. clear Hp.
    destruct (PerformanceAnalyzer.numbers _) as [ps|e] eqn:Hnum; [|done].
    cbn [bind]. intros [= <-]. exists ps. split; [reflexivity|].
    cbn [window_dict.total_trades window_dict.profit_factor].
    split; [|reflexivity].
    unfold len. by rewrite (numbers_length _ _ Hnum).
Qed.

Lemma wins_positive (pnls : list float) :
  Forall (fun p => valid p = true) pnls ->
  Forall positive_float (wins_of pnls).
Proof.
  intros Hv. apply Forall_forall. intros p Hp.
  apply list_elem_of_In, filter_In in Hp as [Hin Hgt].
  apply gtb_zero_positive; [|exact Hgt].
  rewrite Forall_forall in Hv. apply Hv. by apply list_elem_of_In.
Qed.

(** The rule, case by case. *)
Lemma profit_factor_rule_cases (pnls : list float) :
  (gtb (gross_losses pnls) zero = true ->
   profit_factor_rule pnls = round (div (gross_wins pnls) (gross_losses pnls)) 4)
  /\ (gtb (gross_losses pnls) zero = false -> gtb (gross_wins pnls) zero = true ->
      profit_factor_rule pnls = inf)
  /\ (gtb (gross_losses pnls) zero = false -> gtb (gross_wins pnls) zero = false ->
      profit_factor_rule pnls = zero)
  /\ (Forall (fun p => valid p = true) pnls ->
      wins_of pnls <> [] -> losses_of pnls = [] ->
      profit_factor_rule pnls = inf)
  /\ (wins_of pnls = [] -> losses_of pnls = [] ->
      profit_factor_rule pnls = zero).
Proof.
  unfold profit_factor_rule.
  split; [by intros ->|]. split; [by intros -> ->|]. split; [by intros -> ->|].
  split.
  - intros Hv Hw Hl. unfold gross_losses, gross_wins. rewrite Hl.
    change (gtb (abs (sum [])) zero) with false. cbn iota.
    rewrite (positive_gtb_zero (sum (wins_of pnls))); [reflexivity|].
    apply sum_positive; [exact Hw | by apply wins_positive].
  - intros Hw Hl. unfold gross_losses, gross_wins. rewrite Hw, Hl. reflexivity.
Qed.

End Summary.

(** C5, as the code has it. The profit factor [summary] returns is the
    sum of the winning P&L percentages divided by the absolute value of the
    sum of the losing ones, rounded to four decimal places, when that
    absolute value is above zero; otherwise it is plus infinity when the sum
    of the wins is above zero, and zero when it is not. So it is plus
    infinity when there are winning trades and no losing trade, and zero when
    there are neither. *)
Theorem summary_profit_factor (strategy regime : option string)
    (db : database) (s : summary_dict.t) :
  PerformanceAnalyzer.summary strategy regime db = Return s ->
  exists pnls,
    PerformanceAnalyzer.numbers
      (trade_log.pnl_percent <$> summary_rows strategy regime db) = Return pnls
    /\ (gtb (gross_losses pnls) zero = true ->
        summary_dict.profit_factor s
        = round (div (gross_wins pnls) (gross_losses pnls)) 4)
    /\ (gtb (gross_losses pnls) zero = false ->
        gtb (gross_wins pnls) zero = true ->
        summary_dict.profit_factor s = inf)
    /\ (gtb (gross_losses pnls) zero = false ->
        gtb (gross_wins pnls) zero = false ->
        summary_dict.profit_factor s = zero)
    /\ (Forall (fun p => valid p = true) pnls ->
        wins_of pnls <> [] -> losses_of pnls = [] ->
        summary_dict.profit_factor s = inf)
    /\ (wins_of pnls = [] -> losses_of pnls = [] ->
        summary_dict.profit_factor s = zero).
Proof.
  intros Hs. apply summary_inv in Hs as (pnls & Hnum & _ & _ & _ & ->).
  exists pnls. split; [exact Hnum|]. apply profit_factor_rule_cases.
Qed.

(** The counterexample to C5 as stated: a win and a trade closed flat give
    plus infinity although the flat trade counts as a loss; a single losing
    trade gives zero although there is a loss; and a gain of 1 against a
    loss of 3 gives 0.3333, not the quotient. *)
Lemma profit_factor_not_by_counts :
  (exists s,
      PerformanceAnalyzer.summary None None Sample.win_and_flat = Return s
      /\ ~ (summary_dict.profit_factor s = inf
            <-> 0 < summary_dict.wins s /\ summary_dict.losses s = 0))
  /\ (exists s,
        PerformanceAnalyzer.summary None None Sample.one_loss = Return s
        /\ ~ (summary_dict.profit_factor s = zero
              <-> summary_dict.wins s = 0 /\ summary_dict.losses s = 0))
  /\ (exists s pnls,
        PerformanceAnalyzer.summary None None Sample.win_and_loss = Return s
        /\ PerformanceAnalyzer.numbers
             (trade_log.pnl_percent
                <$> summary_rows None None Sample.win_and_loss)
           = Return pnls
        /\ summary_dict.profit_factor s
           <> div (gross_wins pnls) (gross_losses pnls)).
Proof.
  split; [|split].
  - eexists. split; [vm_compute; reflexivity|].
    cbn [summary_dict.profit_factor summary_dict.wins summary_dict.losses].
    intros [H _]. destruct (H eq_refl) as [_ H1]. discriminate H1.
  - eexists. split; [vm_compute; reflexivity|].
    cbn [summary_dict.profit_factor summary_dict.wins summary_dict.losses].
    intros [H _]. destruct (H eq_refl) as [_ H1]. discriminate H1.
  - eexists. eexists. split; [vm_compute; reflexivity|].
    split; [vm_compute; reflexivity|]. vm_compute. discriminate.
Qed.

Lemma summary_profit_factor_witness :
  exists s,
    PerformanceAnalyzer.summary None None Sample.one_closed = Return s
    /\ summary_dict.profit_factor s = inf.
Proof.
  destruct (PerformanceAnalyzer.summary None None Sample.one_closed)
    as [s|e] eqn:Hs; [|vm_compute in Hs; discriminate Hs].
  exists s. split; [reflexivity|].
  destruct (summary_profit_factor None None Sample.one_closed s Hs)
    as (pnls & Hnum & _ & _ & _ & Hwins & _).
  vm_compute in Hnum. injection Hnum as <-.
  apply Hwins.
  - repeat constructor.
  - vm_compute. discriminate.
  - vm_compute. reflexivity.
Defined.

(** *** The breakdown by regime *)

Section ByRegime.

Implicit Types (rows : list trade_log.row) (r : trade_log.row).

Lemma filter_andb {A} (p q : A -> bool) (l : list A) :
  List.filter (fun x => p x && q x) l = List.filter q (List.filter p l).
Proof.
  induction l as [|x l IH]; simpl; [reflexivity|].
  destruct (p x); simpl; [destruct (q x)|]; by rewrite IH.
Qed.

Lemma select_where_snoc (clauses : list (trade_log.row -> bool))
    (clause : trade_log.row -> bool) (db : database) :
  PerformanceAnalyzer.select_where (clauses ++ [clause]) db
  = List.filter clause (PerformanceAnalyzer.select_where clauses db).
Proof.
  unfold PerformanceAnalyzer.select_where. rewrite <- filter_andb.
  apply List.filter_ext. intros r. rewrite forallb_app. simpl.
  by rewrite andb_true_r.
Qed.

(** [summary(strategy, regime)] with a label that is not the empty string
    selects, among the closed trades of the strategy filter, those entered
    under the label. *)
Lemma summary_rows_label (strategy : option string) (regime : string)
    (db : database) :
  regime <> ""%string ->
  summary_rows strategy (Some regime) db
  = entered_under regime (closed_trades strategy db).
Proof.
  intros Hne. unfold closed_trades, summary_rows, PerformanceAnalyzer.given.
  rewrite bool_decide_eq_false_2 by exact Hne. cbn [negb].
  rewrite app_nil_r, (app_assoc [is_closed]), select_where_snoc.
  reflexivity.
Qed.

(** The rows [by_regime] takes its labels from: the closed trades of the
    strategy filter that have a label. *)
Lemma by_regime_rows (strategy : option string) (db : database) r :
  r ∈ PerformanceAnalyzer.select_where
        ([is_closed; fun r => bool_decide (trade_log.entry_regime r ≠ None)]
         ++ (if PerformanceAnalyzer.given strategy
             then [PerformanceAnalyzer.strategy_is strategy] else [])) db
  <-> r ∈ closed_trades strategy db /\ trade_log.entry_regime r <> None.
Proof.
  unfold closed_trades, summary_rows, PerformanceAnalyzer.select_where.
  rewrite !list_elem_of_In, !filter_In, app_nil_r.
  cbn [app forallb]. rewrite !andb_true_iff, bool_decide_eq_true. tauto.
Qed.

Lemma by_regime_loop_inv (strategy : option string) (regimes : list string)
    (db : database) (buckets : list (string * summary_dict.t)) :
  PerformanceAnalyzer.by_regime_loop strategy regimes db = Return buckets ->
  buckets.*1 = regimes
  /\ forall regime s, (regime, s) ∈ buckets ->
       PerformanceAnalyzer.summary strategy (Some regime) db = Return s.
Proof.
  revert buckets. induction regimes as [|k regimes IH]; intros buckets; simpl.
  - intros [= <-]. split; [reflexivity|]. intros L s H. by apply elem_of_nil in H.
  - destruct (PerformanceAnalyzer.summary strategy (Some k) db) as [sk|e] eqn:Hk;
      [|done].
    cbn [bind].
    destruct (PerformanceAnalyzer.by_regime_loop strategy regimes db)
      as [rest|e]; [|done].
    cbn [bind]. intros [= <-]. destruct (IH rest eq_refl) as [Hkeys Hsum].
    split; [rewrite fmap_cons; by rewrite Hkeys|].
    intros L s H. apply elem_of_cons in H as [[= -> ->]|H]; [exact Hk|].
    by apply Hsum.
Qed.

Lemma label_total_cons (k : string) (labels : list string) rows :
  label_total (k :: labels) rows
  = len (entered_under k rows) + label_total labels rows.
Proof. reflexivity. Qed.

Lemma label_total_nil (labels : list string) : label_total labels [] = 0.
Proof.
  induction labels as [|k labels IH]; [reflexivity|].
  rewrite label_total_cons, IH. reflexivity.
Qed.

Lemma entered_under_cons (regime : string) r rows :
  len (entered_under regime (r :: rows))
  = (if bool_decide (trade_log.entry_regime r = Some regime) then 1 else 0)
    + len (entered_under regime rows).
Proof.
  unfold entered_under, len. simpl.
  destruct (bool_decide _); simpl length; lia.
Qed.

Lemma label_total_other (labels : list string) r rows :
  (forall k, k ∈ labels -> trade_log.entry_regime r <> Some k) ->
  label_total labels (r :: rows) = label_total labels rows.
Proof.
  induction labels as [|k labels IH]; intros Hk; [reflexivity|].
  rewrite !label_total_cons.
  rewrite entered_under_cons, bool_decide_eq_false_2 by (apply Hk; left).
  rewrite IH; [lia|]. intros k' Hk'. apply Hk. by right.
Qed.

Lemma label_total_member (labels : list string) (regime : string) r rows :
  NoDup labels -> regime ∈ labels ->
  trade_log.entry_regime r = Some regime ->
  label_total labels (r :: rows) = 1 + label_total labels rows.
Proof.
  intros Hnd Hin Hr. induction Hnd as [|k labels Hk Hnd IH].
  - by apply elem_of_nil in Hin.
  - rewrite !label_total_cons, entered_under_cons.
    apply elem_of_cons in Hin as [->|Hin].
    + rewrite bool_decide_eq_true_2 by exact Hr.
      rewrite label_total_other; [lia|].
      intros k' Hk' Heq. rewrite Hr in Heq. injection Heq as ->. contradiction.
    + rewrite bool_decide_eq_false_2.
      * rewrite (IH Hin). lia.
      * rewrite Hr. intros [= ->]. contradiction.
Qed.

(** Every row is counted under exactly one of the labels, or has none. *)
Lemma label_total_partition (labels : list string) rows :
  NoDup labels ->
  (forall r regime, r ∈ rows -> trade_log.entry_regime r = Some regime ->
                    regime ∈ labels) ->
  label_total labels rows + len (entered_unlabelled rows) = len rows.
Proof.
  intros Hnd. induction rows as [|r rows IH]; intros Hcover.
  - rewrite label_total_nil. reflexivity.
  - assert (IH' : label_total labels rows + len (entered_unlabelled rows)
                  = len rows).
    { apply IH. intros r' L Hr'. apply Hcover. by right. }
    unfold entered_unlabelled, len in *. cbn [List.filter length].
    destruct (trade_log.entry_regime r) as [L|] eqn:Hr.
    + assert (HL : L ∈ labels) by (apply (Hcover r L); [left | exact Hr]).
      rewrite (label_total_member labels L r rows Hnd HL Hr).
      rewrite bool_decide_eq_false_2 by done. lia.
    + rewrite label_total_other by (intros k _; congruence).
      rewrite bool_decide_eq_true_2 by done. cbn [length]. lia.
Qed.

End ByRegime.

(** C6, as the code has it. [by_regime] partitions the closed trades that
    carry an entry regime label: its keys are distinct, the bucket of a label
    counts exactly the closed trades entered under it, every labelled closed
    trade has its bucket, and the bucket totals sum to the unfiltered total
    less the closed trades without a label; the two totals agree when every
    closed trade has a label. *)
Theorem by_regime_partitions_labelled (strategy : option string)
    (db : database) (buckets : list (string * summary_dict.t))
    (s : summary_dict.t) :
  PerformanceAnalyzer.by_regime strategy db = Return buckets ->
  PerformanceAnalyzer.summary strategy None db = Return s ->
  (forall r, r ∈ closed_trades strategy db ->
             trade_log.entry_regime r <> Some ""%string) ->
  NoDup buckets.*1
  /\ (forall regime bucket,
        (regime, bucket) ∈ buckets ->
        summary_dict.total_trades bucket
        = len (entered_under regime (closed_trades strategy db)))
  /\ (forall r regime,
        r ∈ closed_trades strategy db ->
        trade_log.entry_regime r = Some regime -> regime ∈ buckets.*1)
  /\ bucket_total buckets + len (entered_unlabelled (closed_trades strategy db))
     = summary_dict.total_trades s
  /\ ((forall r, r ∈ closed_trades strategy db ->
                 trade_log.entry_regime r <> None) ->
      bucket_total buckets = summary_dict.total_trades s).
Proof.
  intros Hby Hs Hnonempty. unfold PerformanceAnalyzer.by_regime in Hby.
  apply by_regime_loop_inv in Hby as [Hkeys Hsum].
  set (labelled := PerformanceAnalyzer.select_where _ db) in Hkeys.
  assert (Hlabel : forall L, L ∈ buckets.*1 <->
            exists r, r ∈ closed_trades strategy db
                      /\ trade_log.entry_regime r = Some L).
  { intros L. rewrite Hkeys. unfold PerformanceAnalyzer.distinct_entry_regime.
    rewrite elem_of_remove_dups, list_elem_of_omap. split.
    - intros (r & Hr & HL). apply by_regime_rows in Hr as [Hr _]. eauto.
    - intros (r & Hr & HL). exists r. split; [|exact HL].
      apply by_regime_rows. split; [exact Hr | congruence]. }
  assert (Hnd : NoDup buckets.*1).
  { rewrite Hkeys. apply NoDup_remove_dups. }
  assert (Hbucket : forall L bucket, (L, bucket) ∈ buckets ->
            summary_dict.total_trades bucket
            = len (entered_under L (closed_trades strategy db))).
  { intros L bucket Hin. pose proof (Hsum L bucket Hin) as HL.
    apply summary_inv in HL as (_ & _ & -> & _).
    rewrite summary_rows_label; [reflexivity|].
    assert (HLin : L ∈ buckets.*1).
    { apply list_elem_of_fmap. by exists (L, bucket). }
    apply Hlabel in HLin as (r & Hr & HrL). intros ->. by apply (Hnonempty r). }
  assert (Htotal : bucket_total buckets
                   = label_total buckets.*1 (closed_trades strategy db)).
  { clear Hkeys Hlabel Hnd Hsum. unfold bucket_total, label_total.
    induction buckets as [|[L b] buckets IH]; [reflexivity|].
    cbn [fmap list_fmap fold_right fst snd].
    rewrite (Hbucket L b) by left. f_equal.
    apply IH. intros L' b' Hin. apply Hbucket. by right. }
  assert (Hsplit : bucket_total buckets
                   + len (entered_unlabelled (closed_trades strategy db))
                   = summary_dict.total_trades s).
  { apply summary_inv in Hs as (_ & _ & -> & _). rewrite Htotal.
    apply label_total_partition; [exact Hnd|].
    intros r L Hr HL. apply Hlabel. eauto. }
  split; [exact Hnd|]. split; [exact Hbucket|].
  split; [intros r L Hr HL; apply Hlabel; eauto|].
  split; [exact Hsplit|].
  intros Hall. rewrite <- Hsplit.
  assert (Hnone : entered_unlabelled (closed_trades strategy db) = []).
  { unfold entered_unlabelled.
    destruct (List.filter _ _) as [|r rest] eqn:Hf; [reflexivity|].
    assert (Hin : In r (List.filter
                (fun r => bool_decide (trade_log.entry_regime r = None))
                (closed_trades strategy db))) by (rewrite Hf; by left).
    apply filter_In in Hin as [Hin Hr]. apply bool_decide_eq_true in Hr.
    exfalso. apply (Hall r); [by apply list_elem_of_In | exact Hr]. }
  rewrite Hnone. unfold len. simpl. lia.
Qed.

(** The counterexample to C6 as stated: a closed trade whose regime
    dictionary had no [combined] key is in the unfiltered total and in no
    bucket. *)
Lemma by_regime_misses_unlabelled :
  exists buckets s,
    PerformanceAnalyzer.by_regime None Sample.one_unlabelled = Return buckets
    /\ PerformanceAnalyzer.summary None None Sample.one_unlabelled = Return s
    /\ len (closed_trades None Sample.one_unlabelled) = 1
    /\ bucket_total buckets <> summary_dict.total_trades s.
Proof.
  eexists. eexists. split; [vm_compute; reflexivity|].
  split; [vm_compute; reflexivity|]. split; [vm_compute; reflexivity|].
  vm_compute. discriminate.
Qed.

Lemma by_regime_partitions_labelled_witness :
  exists buckets s,
    PerformanceAnalyzer.by_regime None Sample.four_closed = Return buckets
    /\ PerformanceAnalyzer.summary None None Sample.four_closed = Return s
    /\ buckets.*1 = ["high_strong_trend"%string; "low_ranging"%string]
    /\ bucket_total buckets = summary_dict.total_trades s
    /\ summary_dict.total_trades s = 4.
Proof.
  destruct (PerformanceAnalyzer.by_regime None Sample.four_closed)
    as [buckets|e] eqn:Hby; [|vm_compute in Hby; discriminate Hby].
  destruct (PerformanceAnalyzer.summary None None Sample.four_closed)
    as [s|e] eqn:Hs; [|vm_compute in Hs; discriminate Hs].
  exists buckets, s. split; [reflexivity|]. split; [reflexivity|].
  assert (Hrows : Forall (fun r => exists L, trade_log.entry_regime r = Some L
                                             /\ L <> ""%string)
                    (closed_trades None Sample.four_closed)).
  { vm_compute. repeat constructor; eexists; (split; [reflexivity|discriminate]). }
  rewrite Forall_forall in Hrows.
  destruct (by_regime_partitions_labelled None Sample.four_closed buckets s
              Hby Hs) as (_ & _ & _ & _ & Hall).
  - intros r Hr. destruct (Hrows r Hr) as (L & -> & HL). congruence.
  - split; [vm_compute in Hby; by injection Hby as <-|].
    split.
    + apply Hall. intros r Hr. destruct (Hrows r Hr) as (L & -> & _). discriminate.
    + vm_compute in Hs. by injection Hs as <-.
Defined.


(** ** The test suite, replayed on the embedding *)

Section TestSuite.

(** [tests/test_regime.py] *)

Example test_low_volatility :
  classify_volatility np.percentile (of_Z 15) Sample.history
    default_low_percentile default_high_percentile = Return "low"%string.
Proof. vm_compute. reflexivity. Qed.

Example test_high_volatility :
  classify_volatility np.percentile (of_Z 95) Sample.history
    default_low_percentile default_high_percentile = Return "high"%string.
Proof. vm_compute. reflexivity. Qed.

Example test_medium_volatility :
  classify_volatility np.percentile (of_Z 55) Sample.history
    default_low_percentile default_high_percentile = Return "medium"%string.
Proof. vm_compute. reflexivity. Qed.

Example test_combined_label :
  (r <-- classify_regime np.percentile (of_Z 95) Sample.history
           (Some (of_Z 35)) ;;
   Return (r !! "volatility"%string, r !! "trend"%string,
           r !! "combined"%string))
  = Return (Some "high"%string, Some "strong_trend"%string,
            Some "high_strong_trend"%string).
Proof. vm_compute. reflexivity. Qed.

Example test_low_ranging :
  (r <-- classify_regime np.percentile (of_Z 15) Sample.history
           (Some (of_Z 10)) ;;
   Return (r !! "combined"%string))
  = Return (Some "low_ranging"%string).
Proof. vm_compute. reflexivity. Qed.

(** [tests/test_performance.py], the recorder *)

Example test_log_entry_returns_row_id :
  fst <$> (match TradeLogger.log_entry "2026-02-23 12:00:00" (PyStr "1")
                   "BTC/USDT" "momentum_rsi_bb" "2026-02-23T12:00:00"
                   (of_Z 50000) Sample.indicators
                   (Sample.regime "medium" "weak_trend") empty_database with
           | Return x => Some x
           | Raise _ => None
           end) = Some 1.
Proof. vm_compute. reflexivity. Qed.

Example test_log_exit_nonexistent_trade_returns_false :
  TradeLogger.log_exit (PyStr "999") "2026-02-23T13:00:00" (of_Z 51000) "roi"
    Sample.indicators (Sample.regime "medium" "weak_trend") (of_Z 50000)
    (of_Z 60) empty_database
  = (false, empty_database).
Proof. reflexivity. Qed.

Example test_regime_change_detected :
  trade_log.regime_changed <$>
    trade_log_rows
      (run [Sample.entry (PyStr "1") "momentum_rsi_bb" 100
              (Sample.regime "low" "ranging");
            Sample.exit (PyStr "1") 100 103
              (Sample.regime "high" "strong_trend")]
         empty_database)
  = [Some 1].
Proof. vm_compute. reflexivity. Qed.

Example test_log_regime_snapshot :
  length (regime_snapshots_rows
            (TradeLogger.log_regime_snapshot "2026-02-23 12:00:00" "BTC/USDT"
               "2026-02-23T12:00:00" (Sample.regime "medium" "weak_trend")
               Sample.indicators empty_database)) = 1%nat.
Proof. reflexivity. Qed.

(** [tests/test_performance.py], the analyzer *)

Example test_summary_no_trades :
  summary_dict.total_trades <$>
    (match PerformanceAnalyzer.summary None None empty_database with
     | Return s => Some s
     | Raise _ => None
     end) = Some 0.
Proof. reflexivity. Qed.

Example test_summary_with_trades :
  (s <-- PerformanceAnalyzer.summary None None Sample.four_closed ;;
   Return (summary_dict.total_trades s, summary_dict.wins s,
           summary_dict.losses s, summary_dict.win_rate s))
  = Return (4, 3, 1, of_ratio 75 100).
Proof. vm_compute. reflexivity. Qed.

Example test_summary_filter_by_strategy :
  (s <-- PerformanceAnalyzer.summary (Some "strat_a"%string) None
           Sample.two_strategies ;;
   Return (summary_dict.total_trades s, summary_dict.wins s))
  = Return (1, 1).
Proof. vm_compute. reflexivity. Qed.

Example test_decay_not_enough_data :
  (r <-- PerformanceAnalyzer.detect_decay "momentum_rsi_bb" 20 50
           Sample.one_closed ;;
   Return (has_enough_data r))
  = Return false.
Proof. vm_compute. reflexivity. Qed.

Example test_decay_no_decay :
  match PerformanceAnalyzer.detect_decay "momentum_rsi_bb" 20 50
          Sample.seventy_closed with
  | Return (DecayReport total _ _ _ _ decay_detected recommendation) =>
      total = 70 /\ decay_detected = false
      /\ recommendation
         = "No significant decay detected. Strategy performance is stable."%string
  | _ => False
  end.
Proof. vm_compute. repeat split; reflexivity. Qed.

Example test_recent_trades :
  length (PerformanceAnalyzer.recent_trades 2 None Sample.four_closed) = 2%nat.
Proof. vm_compute. reflexivity. Qed.

End TestSuite.

(** * Further properties of the code *)

(** ** The recorder: keys, errors and the snapshot table *)

Section RecorderKeys.

Lemma max_below (ids : list Z) (seq : Z) :
  (forall x, x ∈ ids -> x <= seq) -> fold_right Z.max seq ids = seq.
Proof.
  induction ids as [|y ids IH]; intros H; simpl; [reflexivity|].
  rewrite IH by (intros x Hx; apply H; by right).
  pose proof (H y ltac:(left)). lia.
Qed.

Lemma keys_count_rows_empty : keys_count_rows empty_database.
Proof.
  unfold keys_count_rows.
  change (trade_log_rows empty_database) with (@nil trade_log.row).
  change (regime_snapshots_rows empty_database) with (@nil regime_snapshots.row).
  repeat split; try reflexivity; intros i r Hi; by rewrite lookup_nil in Hi.
Qed.

Lemma keys_count_rows_step (o : op) (db : database) :
  keys_count_rows db -> keys_count_rows (step o db).
Proof.
  intros (Hid & Hseq & Hsid & Hsseq).
  destruct o as [now tid pair' strategy entry_time entry_price ind reg
                |tid exit_time exit_price exit_reason ind reg entry_price duration
                |now pair' timestamp reg ind]; simpl.
  - destruct (TradeLogger.log_entry now tid pair' strategy entry_time
                entry_price ind reg db) as [[rowid db']|e] eqn:He;
      [|by repeat split].
    apply log_entry_inv in He
      as (new & Hrows & Hs & Hsr & Hss & Hk & Hnew & _).
    assert (Hmax : rowid = len (trade_log_rows db) + 1).
    { rewrite Hk. unfold next_id. rewrite max_below; [lia|].
      intros x Hx. apply list_elem_of_fmap in Hx as (r & -> & Hr).
      apply list_elem_of_lookup_1 in Hr as [i Hi].
      rewrite (Hid i r Hi), Hseq. unfold len.
      apply lookup_lt_Some in Hi. lia. }
    unfold keys_count_rows. rewrite Hrows, Hs, Hsr, Hss.
    split; [|split; [|by split]].
    + intros i r Hi. apply lookup_snoc_Some in Hi as [[_ Hi]|[-> <-]];
        [by apply Hid|]. rewrite Hnew, Hmax. reflexivity.
    + rewrite Hmax. unfold len. rewrite length_app. simpl. lia.
  - destruct (TradeLogger.select_latest (str tid) (trade_log_rows db))
      as [row|] eqn:Hsel.
    + rewrite (log_exit_found _ _ _ _ _ _ _ _ _ _ Hsel).
      unfold keys_count_rows.
      cbn [snd trade_log_rows trade_log_seq regime_snapshots_rows
           regime_snapshots_seq].
      split; [|split; [|by split]].
      * intros i r Hi. rewrite list_lookup_fmap in Hi.
        destruct (trade_log_rows db !! i) as [r0|] eqn:Hi0; [|done].
        simpl in Hi. injection Hi as <-. rewrite <- (Hid i r0 Hi0).
        by destruct (TradeLogger.update_matches _ r0).
      * rewrite Hseq. unfold len. by rewrite length_fmap.
    + rewrite (log_exit_not_found _ _ _ _ _ _ _ _ _ Hsel). by repeat split.
  - unfold keys_count_rows, TradeLogger.log_regime_snapshot.
    cbn [trade_log_rows trade_log_seq regime_snapshots_rows
         regime_snapshots_seq].
    assert (Hmax : next_id (regime_snapshots.id <$> regime_snapshots_rows db)
                     (regime_snapshots_seq db)
                   = len (regime_snapshots_rows db) + 1).
    { unfold next_id. rewrite max_below; [lia|].
      intros x Hx. apply list_elem_of_fmap in Hx as (r & -> & Hr).
      apply list_elem_of_lookup_1 in Hr as [i Hi].
      rewrite (Hsid i r Hi), Hsseq. unfold len.
      apply lookup_lt_Some in Hi. lia. }
    split; [exact Hid|]. split; [exact Hseq|]. split.
    + intros i r Hi. apply lookup_snoc_Some in Hi as [[_ Hi]|[-> <-]];
        [by apply Hsid|]. cbn [regime_snapshots.id]. rewrite Hmax. reflexivity.
    + rewrite Hmax. unfold len. rewrite length_app. simpl. lia.
Qed.

Lemma reachable_keys_count_rows (db : database) :
  reachable db -> keys_count_rows db.
Proof.
  intros [ops ->]. generalize keys_count_rows_empty.
  generalize empty_database. induction ops as [|o ops IH]; intros db H;
    [exact H|].
  apply IH. by apply keys_count_rows_step.
Qed.

End RecorderKeys.

(** X1. [log_entry] returns a fresh key: it is above every key of the table
    and above the counter, it is the key of the row the call appends, and
    in a database written by the recorder it is the number of rows after the
    call, so the first key is 1. *)
Theorem log_entry_returns_fresh_key (now : string) (trade_id : pyval)
    (pair' strategy entry_time : string) (entry_price : float)
    (indicators : gmap string float) (regime : gmap string string)
    (db : database) (lastrowid : Z) (db' : database) :
  TradeLogger.log_entry now trade_id pair' strategy entry_time entry_price
    indicators regime db = Return (lastrowid, db') ->
  (forall r, r ∈ trade_log_rows db -> trade_log.id r < lastrowid)
  /\ trade_log_seq db < lastrowid
  /\ (exists inserted,
        trade_log_rows db' = trade_log_rows db ++ [inserted]
        /\ trade_log.id inserted = lastrowid
        /\ is_open inserted = true)
  /\ (reachable db ->
      lastrowid = len (trade_log_rows db') /\ 0 < lastrowid).
Proof.
  intros Hentry.
  pose proof (log_entry_inv _ _ _ _ _ _ _ _ _ _ _ Hentry)
    as (new & Hrows & _ & _ & _ & Hk & Hnew & _ & _ & Hopen & _).
  destruct (next_id_above (trade_log.id <$> trade_log_rows db)
              (trade_log_seq db)) as [Hgt Hmax].
  rewrite <- Hk in Hgt, Hmax.
  split; [intros r Hr; apply Hmax; by apply list_elem_of_fmap_2|].
  split; [exact Hgt|].
  split; [exists new; by repeat split|].
  intros Hreach.
  assert (Hstep : keys_count_rows
                    (step (LogEntry now trade_id pair' strategy entry_time
                             entry_price indicators regime) db)).
  { by apply keys_count_rows_step, reachable_keys_count_rows. }
  simpl in Hstep. rewrite Hentry in Hstep.
  destruct Hstep as (Hid & _).
  assert (Hlast : trade_log_rows db' !! length (trade_log_rows db) = Some new).
  { rewrite Hrows. by apply list_lookup_middle. }
  pose proof (Hid _ _ Hlast) as Hidnew. rewrite Hnew in Hidnew.
  unfold len. rewrite Hrows, length_app. simpl. lia.
Qed.

Lemma log_entry_returns_fresh_key_witness :
  exists db',
    TradeLogger.log_entry "2026-02-23 14:00:00" (PyStr "2") "BTC/USDT"
      "momentum_rsi_bb" "2026-02-23T14:00:00" (of_Z 100) Sample.indicators
      (Sample.regime "low" "ranging") Sample.one_closed = Return (2, db')
    /\ 2 = len (trade_log_rows db').
Proof.
  eexists. split; [vm_compute; reflexivity|].
  refine (proj1 (proj2 (proj2 (proj2
    (log_entry_returns_fresh_key "2026-02-23 14:00:00" (PyStr "2") "BTC/USDT"
       "momentum_rsi_bb" "2026-02-23T14:00:00" (of_Z 100) Sample.indicators
       (Sample.regime "low" "ranging") Sample.one_closed 2 _ _))) _)).
  - vm_compute. reflexivity.
  - eexists. reflexivity.
Defined.

(** X2. [log_entry] fails on exactly one input: a NaN [entry_price], which
    the store would keep as NULL in a NOT NULL column. It then raises
    [IntegrityError]; on every other price it returns and appends one
    row, which holds the price as the store reads it back: [0.0] for a zero
    of either sign, the price itself otherwise. So after any sequence of
    recorder calls [trade_log] has grown by as many rows as there were
    [log_entry] calls with a price that is a number. *)
Theorem log_entry_raises_on_nan_price (now : string) (trade_id : pyval)
    (pair' strategy entry_time : string) (entry_price : float)
    (indicators : gmap string float) (regime : gmap string string)
    (db : database) (ops : list op) :
  (is_nan entry_price = true ->
   TradeLogger.log_entry now trade_id pair' strategy entry_time entry_price
     indicators regime db = Raise IntegrityError)
  /\ (is_nan entry_price = false ->
      exists lastrowid db',
        TradeLogger.log_entry now trade_id pair' strategy entry_time
          entry_price indicators regime db = Return (lastrowid, db')
        /\ length (trade_log_rows db') = S (length (trade_log_rows db))
        /\ last (trade_log_rows db')
           ≫= (fun r => Some (trade_log.entry_price r))
           = Some (read_back entry_price)
        /\ read_back entry_price
           = (if eqb entry_price zero then zero else entry_price))
  /\ length (trade_log_rows (run ops db))
     = (length (trade_log_rows db) + length (List.filter writes_row ops))%nat.
Proof.
  split; [|split].
  - unfold TradeLogger.log_entry, sql_real. by intros ->.
  - unfold TradeLogger.log_entry, sql_real. intros Hnan. rewrite Hnan.
    eexists. eexists. split; [reflexivity|].
    cbn [trade_log_rows]. rewrite length_app, last_snoc. simpl.
    split; [lia|]. split; [reflexivity|].
    by destruct entry_price as [[]|[]| |[] m e].
  - clear. revert db. induction ops as [|o ops IH]; intros db.
    + simpl. lia.
    + change (run (o :: ops) db) with (run ops (step o db)). rewrite IH.
      assert (Hstep : length (trade_log_rows (step o db))
                      = (length (trade_log_rows db)
                         + if writes_row o then 1 else 0)%nat).
      { destruct o as [now tid pair' strategy entry_time entry_price ind reg
                      |tid exit_time exit_price exit_reason ind reg
                         entry_price duration
                      |now pair' timestamp reg ind]; simpl.
        - unfold TradeLogger.log_entry, sql_real.
          destruct (is_nan entry_price); simpl; [lia|].
          rewrite length_app. simpl. lia.
        - unfold TradeLogger.log_exit.
          destruct (TradeLogger.select_latest _ _); simpl; [|lia].
          rewrite length_fmap. lia.
        - lia. }
      rewrite Hstep. cbn [List.filter].
      destruct (writes_row o); simpl; lia.
Qed.

Lemma log_entry_raises_on_nan_price_witness :
  TradeLogger.log_entry "2026-02-23 12:00:00" (PyStr "1") "BTC/USDT"
    "momentum_rsi_bb" "2026-02-23T12:00:00" nan Sample.indicators
    (Sample.regime "low" "ranging") empty_database = Raise IntegrityError.
Proof.
  apply (proj1 (log_entry_raises_on_nan_price "2026-02-23 12:00:00"
                  (PyStr "1") "BTC/USDT" "momentum_rsi_bb"
                  "2026-02-23T12:00:00" nan Sample.indicators
                  (Sample.regime "low" "ranging") empty_database [])).
  reflexivity.
Defined.

(** X3. The snapshot table is append-only. A call of the recorder leaves
    every snapshot row where and as it is; only [log_regime_snapshot] adds
    a row, exactly one, at the end, with the arguments of the call; and after
    any history the table holds as many rows as the history has snapshot
    calls. *)
Theorem snapshots_append_only (o : op) (ops : list op) (db : database) :
  (forall i r,
      regime_snapshots_rows db !! i = Some r ->
      regime_snapshots_rows (step o db) !! i = Some r
      /\ regime_snapshots_rows (run ops db) !! i = Some r)
  /\ length (regime_snapshots_rows (step o db))
     = (length (regime_snapshots_rows db)
        + (if is_snapshot o then 1 else 0))%nat
  /\ length (regime_snapshots_rows (run ops db))
     = (length (regime_snapshots_rows db)
        + length (List.filter is_snapshot ops))%nat
  /\ (forall now pair' timestamp regime indicators,
        o = LogRegimeSnapshot now pair' timestamp regime indicators ->
        exists r,
          last (regime_snapshots_rows (step o db)) = Some r
          /\ regime_snapshots.timestamp r = timestamp
          /\ regime_snapshots.pair r = pair'
          /\ regime_snapshots.regime r = regime !! "combined"%string
          /\ trade_log_rows (step o db) = trade_log_rows db).
Proof.
  assert (Hstep : forall o db,
            exists new, regime_snapshots_rows (step o db)
                        = regime_snapshots_rows db ++ new
                        /\ length new = if is_snapshot o then 1%nat else 0%nat).
  { clear. intros o db.
    destruct o as [now tid pair' strategy entry_time entry_price ind reg
                  |tid exit_time exit_price exit_reason ind reg entry_price
                     duration
                  |now pair' timestamp reg ind]; simpl.
    - exists []. rewrite app_nil_r. split; [|reflexivity].
      destruct (TradeLogger.log_entry _ _ _ _ _ _ _ _ db)
        as [[rowid db']|e] eqn:He; [|reflexivity].
      by apply log_entry_inv in He as (new & _ & _ & -> & _).
    - exists []. rewrite app_nil_r. split; [|reflexivity].
      unfold TradeLogger.log_exit.
      by destruct (TradeLogger.select_latest _ _).
    - eexists [_]. split; reflexivity. }
  assert (Hrun : forall ops db,
            exists new, regime_snapshots_rows (run ops db)
                        = regime_snapshots_rows db ++ new
                        /\ length new = length (List.filter is_snapshot ops)).
  { clear -Hstep. induction ops as [|o ops IH]; intros db.
    - exists []. by rewrite app_nil_r.
    - destruct (Hstep o db) as (n1 & H1 & L1).
      destruct (IH (step o db)) as (n2 & H2 & L2).
      exists (n1 ++ n2). change (run (o :: ops) db) with (run ops (step o db)).
      rewrite H2, H1, <- app_assoc. split; [reflexivity|].
      rewrite length_app, L1, L2. simpl.
      destruct (is_snapshot o); simpl; lia. }
  destruct (Hstep o db) as (n1 & H1 & L1).
  destruct (Hrun ops db) as (n2 & H2 & L2).
  split; [|split; [|split]].
  - intros i r Hi. rewrite H1, H2.
    split; apply lookup_app_l_Some; exact Hi.
  - rewrite H1, length_app, L1. reflexivity.
  - rewrite H2, length_app, L2. reflexivity.
  - intros now pair' timestamp regime indicators ->. simpl.
    unfold TradeLogger.log_regime_snapshot.
    cbn [regime_snapshots_rows trade_log_rows]. rewrite last_snoc.
    eexists. split; [reflexivity|]. by repeat split.
Qed.

Lemma snapshots_append_only_witness :
  let o := LogRegimeSnapshot "2026-02-23 12:00:00" "BTC/USDT"
             "2026-02-23T12:00:00" (Sample.regime "low" "ranging")
             Sample.indicators in
  exists r,
    last (regime_snapshots_rows (step o Sample.one_closed)) = Some r
    /\ regime_snapshots.regime r = Some "low_ranging"%string
    /\ trade_log_rows (step o Sample.one_closed)
       = trade_log_rows Sample.one_closed.
Proof.
  intros o.
  destruct (proj2 (proj2 (proj2 (snapshots_append_only o [] Sample.one_closed)))
              _ _ _ _ _ eq_refl) as (r & Hlast & _ & _ & Hreg & Hrows).
  exists r. split; [exact Hlast|]. split; [|exact Hrows].
  rewrite Hreg. reflexivity.
Defined.

(** ** The recorder: finding and closing the open trade *)

Section StringOrder.

Lemma ascii_compare_lt_trans (a b c : ascii) :
  Ascii.compare a b = Lt -> Ascii.compare b c = Lt -> Ascii.compare a c = Lt.
Proof.
  unfold Ascii.compare. rewrite !N.compare_lt_iff. lia.
Qed.

(** The byte order of TEXT is transitive. *)
Lemma string_compare_lt_trans (s1 s2 s3 : string) :
  String.compare s1 s2 = Lt -> String.compare s2 s3 = Lt ->
  String.compare s1 s3 = Lt.
Proof.
  revert s2 s3. induction s1 as [|a s1 IH]; intros [|b s2] [|c s3];
    simpl; try done.
  destruct (Ascii.compare a b) eqn:Hab; try done;
    destruct (Ascii.compare b c) eqn:Hbc; try done.
  - apply Ascii.compare_eq_iff in Hab as ->, Hbc as ->.
    assert (Hcc : Ascii.compare c c = Eq)
      by (unfold Ascii.compare; apply N.compare_refl).
    rewrite Hcc. apply IH.
  - apply Ascii.compare_eq_iff in Hab as ->. by rewrite Hbc.
  - apply Ascii.compare_eq_iff in Hbc as ->. by rewrite Hab.
  - by rewrite (ascii_compare_lt_trans a b c Hab Hbc).
Qed.

Lemma string_ltb_trans (s1 s2 s3 : string) :
  String.ltb s1 s2 = true -> String.ltb s2 s3 = true ->
  String.ltb s1 s3 = true.
Proof.
  unfold String.ltb. intros H12 H23.
  destruct (String.compare s1 s2) eqn:E12; try done.
  destruct (String.compare s2 s3) eqn:E23; try done.
  by rewrite (string_compare_lt_trans s1 s2 s3 E12 E23).
Qed.

Lemma string_ltb_asym (s1 s2 : string) :
  String.ltb s1 s2 = true -> String.ltb s2 s1 = false.
Proof.
  unfold String.ltb. rewrite (String.compare_antisym s2 s1).
  by destruct (String.compare s1 s2).
Qed.

(** If [s2] is not before [s1] and [s2] is before [s3], then [s3] is not
    before [s1]. *)
Lemma string_not_ltb_trans (s1 s2 s3 : string) :
  String.ltb s2 s1 = false -> String.ltb s2 s3 = true ->
  String.ltb s3 s1 = false.
Proof.
  intros Hnot H23. destruct (String.ltb s3 s1) eqn:H31; [|reflexivity].
  by rewrite (string_ltb_trans s2 s3 s1 H23 H31) in Hnot.
Qed.

End StringOrder.

Section LatestEntry.

Local Abbreviation later :=
  (fun (best : option trade_log.row) (r : trade_log.row) =>
     match best with
     | Some b =>
         if String.ltb (trade_log.entry_time b) (trade_log.entry_time r)
         then Some r else best
     | None => Some r
     end).

Lemma latest_entry_from (rows : list trade_log.row) (b : trade_log.row) :
  exists r,
    fold_left later rows (Some b) = Some r
    /\ (r = b \/ r ∈ rows)
    /\ String.ltb (trade_log.entry_time r) (trade_log.entry_time b) = false
    /\ forall x, x ∈ rows ->
         String.ltb (trade_log.entry_time r) (trade_log.entry_time x) = false.
Proof.
  revert b. induction rows as [|x rows IH]; intros b; simpl.
  - exists b. split; [reflexivity|]. split; [by left|]. split.
    + destruct (String.ltb _ _) eqn:H; [|reflexivity].
      by rewrite (string_ltb_asym _ _ H) in H.
    + intros x Hx. by apply elem_of_nil in Hx.
  - destruct (String.ltb (trade_log.entry_time b) (trade_log.entry_time x))
      eqn:Hbx.
    + destruct (IH x) as (r & Hr & Hin & Hrx & Hmax).
      exists r. split; [exact Hr|]. split.
      { right. destruct Hin as [->|Hin]; [left | by right]. }
      split.
      { destruct (String.ltb (trade_log.entry_time r) (trade_log.entry_time b))
          eqn:Hrb; [|reflexivity].
        by rewrite (string_ltb_trans _ _ _ Hrb Hbx) in Hrx. }
      intros y Hy. apply elem_of_cons in Hy as [->|Hy]; [exact Hrx|].
      by apply Hmax.
    + destruct (IH b) as (r & Hr & Hin & Hrb & Hmax).
      exists r. split; [exact Hr|]. split.
      { destruct Hin as [->|Hin]; [by left | right; by right]. }
      split; [exact Hrb|].
      intros y Hy. apply elem_of_cons in Hy as [Hyx|Hy]; [|by apply Hmax].
      destruct (String.ltb (trade_log.entry_time r) (trade_log.entry_time y))
        eqn:Hry; [|reflexivity].
      rewrite Hyx in Hry.
      destruct Hin as [->|Hin]; [congruence|].
      (* r is after b in the list and not before b in time *)
      destruct (String.ltb (trade_log.entry_time b) (trade_log.entry_time r))
        eqn:Hbr.
      * by rewrite (string_ltb_trans _ _ _ Hbr Hry) in Hbx.
      * (* entry times of b and r are equal in order: b not< r, r not< b *)
        exfalso. clear -Hbx Hry Hrb Hbr.
        unfold String.ltb in *.
        rewrite (String.compare_antisym (trade_log.entry_time b)
                   (trade_log.entry_time r)) in Hbr.
        destruct (String.compare (trade_log.entry_time r)
                    (trade_log.entry_time b)) eqn:E; simpl in *; try done.
        apply String.compare_eq_iff in E. rewrite E in Hry.
        by rewrite Hry in Hbx.
Qed.

Lemma latest_entry_spec (rows : list trade_log.row) :
  match TradeLogger.latest_entry rows with
  | None => rows = []
  | Some r =>
      r ∈ rows
      /\ forall x, x ∈ rows ->
           String.ltb (trade_log.entry_time r) (trade_log.entry_time x) = false
  end.
Proof.
  destruct rows as [|b rows]; [reflexivity|].
  unfold TradeLogger.latest_entry. simpl.
  destruct (latest_entry_from rows b) as (r & Hr & Hin & Hrb & Hmax).
  rewrite Hr. split.
  - destruct Hin as [->|Hin]; [left | by right].
  - intros x Hx. apply elem_of_cons in Hx as [->|Hx]; [exact Hrb | by apply Hmax].
Qed.

End LatestEntry.

(** X4. [find_open_trade] returns [None] exactly when the pair has no open
    row. Otherwise it returns the identifier of an open row of the pair
    whose [entry_time] no other open row of the pair exceeds. *)
Theorem find_open_trade_most_recent (pair' : string) (db : database) :
  (TradeLogger.find_open_trade pair' db = None <-> open_rows_of pair' db = [])
  /\ (forall trade_id,
        TradeLogger.find_open_trade pair' db = Some trade_id ->
        exists r,
          r ∈ trade_log_rows db
          /\ trade_log.trade_id r = trade_id
          /\ trade_log.pair r = pair' /\ is_open r = true
          /\ forall x, x ∈ trade_log_rows db ->
               trade_log.pair x = pair' -> is_open x = true ->
               String.ltb (trade_log.entry_time r) (trade_log.entry_time x)
               = false).
Proof.
  unfold TradeLogger.find_open_trade. fold (open_rows_of pair' db).
  pose proof (latest_entry_spec (open_rows_of pair' db)) as Hspec.
  assert (Hmem : forall x, x ∈ open_rows_of pair' db <->
                   x ∈ trade_log_rows db /\ trade_log.pair x = pair'
                   /\ is_open x = true).
  { intros x. unfold open_rows_of.
    rewrite !list_elem_of_In, filter_In, andb_true_iff, bool_decide_eq_true.
    tauto. }
  destruct (TradeLogger.latest_entry (open_rows_of pair' db)) as [r|].
  - destruct Hspec as [Hin Hmax]. split.
    + split; [done|]. intros Hnil. rewrite Hnil in Hin.
      by apply elem_of_nil in Hin.
    + intros tid [= <-]. exists r. apply Hmem in Hin as (Hin & Hp & Hop).
      repeat split; try assumption.
      intros x Hx Hxp Hxo. apply Hmax, Hmem. by repeat split.
  - split; [by split|]. intros tid H. discriminate H.
Qed.

Lemma find_open_trade_most_recent_witness :
  exists r,
    r ∈ trade_log_rows Sample.two_open
    /\ trade_log.trade_id r = "1"%string
    /\ trade_log.pair r = "BTC/USDT"%string /\ is_open r = true.
Proof.
  destruct (proj2 (find_open_trade_most_recent "BTC/USDT" Sample.two_open)
              "1"%string) as (r & H1 & H2 & H3 & H4 & _).
  - vm_compute. reflexivity.
  - exists r. by repeat split.
Defined.

Section ClosedTrades.

Context (trade_id : pyval) (exit_time : string) (exit_price : float)
  (exit_reason : string) (indicators : gmap string float)
  (regime : gmap string string) (entry_price duration_minutes : float).

Local Abbreviation closed db :=
  (snd (TradeLogger.log_exit trade_id exit_time exit_price exit_reason
          indicators regime entry_price duration_minutes db)).

(** After [log_exit] the rows are those before it, each one either
    untouched, or an open row of the identifier that is now closed. *)
Lemma log_exit_rows db :
  exists f,
    trade_log_rows (closed db) = f <$> trade_log_rows db
    /\ forall r,
         r ∈ trade_log_rows db ->
         trade_log.trade_id (f r) = trade_log.trade_id r
         /\ trade_log.pair (f r) = trade_log.pair r
         /\ (TradeLogger.update_matches (str trade_id) r = true ->
             is_open (f r) = false)
         /\ (TradeLogger.update_matches (str trade_id) r = false -> f r = r).
Proof.
  destruct (TradeLogger.select_latest (str trade_id) (trade_log_rows db))
    as [row|] eqn:Hsel.
  - rewrite (log_exit_found _ _ _ _ _ _ _ _ _ _ Hsel).
    eexists. split; [reflexivity|]. intros r _. cbn beta.
    by destruct (TradeLogger.update_matches (str trade_id) r).
  - rewrite (log_exit_not_found _ _ _ _ _ _ _ _ _ Hsel).
    exists (fun r => r). split; [by rewrite list_fmap_id|].
    intros r Hr. repeat split; try done.
    intros Hm. exfalso. rewrite select_latest_none in Hsel.
    unfold TradeLogger.update_matches in Hm.
    apply andb_true_iff in Hm as [Hid _]. apply bool_decide_eq_true in Hid.
    by apply (Hsel r Hr).
Qed.

Lemma log_exit_leaves_closed db r :
  r ∈ trade_log_rows (closed db) ->
  trade_log.trade_id r = str trade_id -> is_open r = false.
Proof.
  destruct (log_exit_rows db) as (f & -> & Hf).
  intros Hr Hid. apply list_elem_of_fmap in Hr as (r0 & -> & Hr0).
  destruct (Hf r0 Hr0) as (Hid0 & _ & Hm & Hn).
  destruct (TradeLogger.update_matches (str trade_id) r0) eqn:Hu;
    [by apply Hm|].
  rewrite (Hn eq_refl) in Hid |- *.
  unfold TradeLogger.update_matches in Hu.
  rewrite (bool_decide_eq_true_2 _ Hid) in Hu. exact Hu.
Qed.

Lemma open_rows_of_log_exit pair' db :
  open_rows_of pair' (closed db)
  = List.filter
      (fun r => negb (bool_decide (trade_log.trade_id r = str trade_id)))
      (open_rows_of pair' db).
Proof.
  destruct (log_exit_rows db) as (f & Hrows & Hf).
  unfold open_rows_of. rewrite Hrows. clear Hrows.
  induction (trade_log_rows db) as [|r rows IH]; [reflexivity|].
  rewrite fmap_cons.
  assert (Hf' : forall x, x ∈ rows -> _) by (intros x Hx; apply Hf; by right).
  specialize (IH Hf').
  destruct (Hf r ltac:(left)) as (Hid & Hp & Hm & Hn).
  cbn [List.filter]. rewrite IH, Hp.
  unfold TradeLogger.update_matches in Hm, Hn.
  destruct (bool_decide (trade_log.pair r = pair')); cbn [andb];
    [|reflexivity].
  destruct (bool_decide (trade_log.trade_id r = str trade_id)) eqn:Ei;
    cbn [andb] in Hm, Hn.
  - destruct (is_open r) eqn:Hop.
    + rewrite (Hm eq_refl). cbn [List.filter]. rewrite Ei. reflexivity.
    + rewrite (Hn eq_refl), Hop. reflexivity.
  - rewrite (Hn eq_refl).
    destruct (is_open r); [|reflexivity].
    cbn [List.filter]. rewrite Ei. reflexivity.
Qed.

End ClosedTrades.

Lemma find_open_trade_some pair' db trade_id :
  TradeLogger.find_open_trade pair' db = Some trade_id ->
  exists r, r ∈ open_rows_of pair' db /\ trade_log.trade_id r = trade_id.
Proof.
  unfold TradeLogger.find_open_trade. fold (open_rows_of pair' db).
  pose proof (latest_entry_spec (open_rows_of pair' db)) as Hspec.
  destruct (TradeLogger.latest_entry (open_rows_of pair' db)) as [r|];
    [|discriminate].
  intros [= <-]. exists r. by destruct Hspec.
Qed.

(** X5. The exit of a trade is written once. After [log_exit] every row of
    the identifier is closed, and a second [log_exit] for the identifier,
    whatever its other arguments, changes nothing in the database: the exit
    columns of the first call stay. The second call returns what the first
    returned. *)
Theorem log_exit_writes_once
    (trade_id : pyval) (exit_time exit_time' : string)
    (exit_price exit_price' : float) (exit_reason exit_reason' : string)
    (indicators indicators' : gmap string float)
    (regime regime' : gmap string string)
    (entry_price entry_price' duration_minutes duration_minutes' : float)
    (db : database) :
  let first := TradeLogger.log_exit trade_id exit_time exit_price exit_reason
                 indicators regime entry_price duration_minutes db in
  (forall r, r ∈ trade_log_rows (snd first) ->
             trade_log.trade_id r = str trade_id -> is_open r = false)
  /\ TradeLogger.log_exit trade_id exit_time' exit_price' exit_reason'
       indicators' regime' entry_price' duration_minutes' (snd first)
     = (fst first, snd first).
Proof.
  intros first.
  assert (Hclosed : forall r, r ∈ trade_log_rows (snd first) ->
            trade_log.trade_id r = str trade_id -> is_open r = false)
    by (intros r; apply log_exit_leaves_closed).
  split; [exact Hclosed|].
  pose proof (log_exit_no_open_row trade_id exit_time' exit_price'
                exit_reason' indicators' regime' entry_price'
                duration_minutes' (snd first) Hclosed) as Hdb.
  pose proof (log_exit_returns trade_id exit_time' exit_price' exit_reason'
                indicators' regime' entry_price' duration_minutes'
                (snd first)) as Hret'.
  pose proof (log_exit_returns trade_id exit_time exit_price exit_reason
                indicators regime entry_price duration_minutes db) as Hret.
  fold first in Hret.
  destruct (TradeLogger.log_exit trade_id exit_time' exit_price' exit_reason'
              indicators' regime' entry_price' duration_minutes' (snd first))
    as [b db2]. simpl in Hdb, Hret'. subst db2. f_equal.
  assert (Hsame : (exists r, r ∈ trade_log_rows (snd first)
                             /\ trade_log.trade_id r = str trade_id)
                  <-> exists r, r ∈ trade_log_rows db
                             /\ trade_log.trade_id r = str trade_id).
  { subst first.
    destruct (log_exit_rows trade_id exit_time exit_price exit_reason
                indicators regime entry_price duration_minutes db)
      as (f & -> & Hf).
    split.
    - intros (r & Hr & Hid).
      apply list_elem_of_fmap in Hr as (r0 & -> & Hr0).
      exists r0. split; [exact Hr0|].
      by rewrite <- (proj1 (Hf r0 Hr0)).
    - intros (r & Hr & Hid). exists (f r). split.
      + apply list_elem_of_fmap. by exists r.
      + by rewrite (proj1 (Hf r Hr)). }
  rewrite Hsame, <- Hret in Hret'.
  destruct b, (fst first); try reflexivity.
  - symmetry. by apply Hret'.
  - by apply Hret'.
Qed.

(** X6. A closed trade is not reported as open. After [log_exit] the open
    rows of any pair are the open rows it had before, without those of the
    identifier, and [find_open_trade] does not return the identifier. *)
Theorem log_exit_then_find_open_trade
    (trade_id : pyval) (exit_time : string) (exit_price : float)
    (exit_reason : string) (indicators : gmap string float)
    (regime : gmap string string) (entry_price duration_minutes : float)
    (pair' : string) (db : database) :
  let db' := snd (TradeLogger.log_exit trade_id exit_time exit_price
                    exit_reason indicators regime entry_price
                    duration_minutes db) in
  open_rows_of pair' db'
  = List.filter
      (fun r => negb (bool_decide (trade_log.trade_id r = str trade_id)))
      (open_rows_of pair' db)
  /\ TradeLogger.find_open_trade pair' db' <> Some (str trade_id).
Proof.
  intros db'. subst db'.
  pose proof (open_rows_of_log_exit trade_id exit_time exit_price exit_reason
                indicators regime entry_price duration_minutes pair' db)
    as Hrows.
  split; [exact Hrows|].
  intros Hfind. apply find_open_trade_some in Hfind as (r & Hr & Hid).
  rewrite Hrows in Hr. apply list_elem_of_In, filter_In in Hr as [_ Hr].
  by rewrite (bool_decide_eq_true_2 _ Hid) in Hr.
Qed.

(** X7. A new entry is the open trade of its pair. When [log_entry] returns
    and the new [entry_time] is later than that of every open row of the
    pair, [find_open_trade] for the pair returns the new identifier, as the
    string [str(trade_id)]; for every other pair it returns what it returned
    before. *)
Theorem log_entry_then_find_open_trade
    (now : string) (trade_id : pyval) (pair' strategy entry_time : string)
    (entry_price : float) (indicators : gmap string float)
    (regime : gmap string string) (db : database)
    (lastrowid : Z) (db' : database) :
  TradeLogger.log_entry now trade_id pair' strategy entry_time entry_price
    indicators regime db = Return (lastrowid, db') ->
  (forall r, r ∈ open_rows_of pair' db ->
             String.ltb (trade_log.entry_time r) entry_time = true) ->
  TradeLogger.find_open_trade pair' db' = Some (str trade_id)
  /\ forall other, other <> pair' ->
       TradeLogger.find_open_trade other db'
       = TradeLogger.find_open_trade other db.
Proof.
  intros Hentry Hlater.
  apply log_entry_inv in Hentry
    as (new & Hrows & _ & _ & _ & _ & _ & _ & _ & Hopen & Hcols).
  unfold entry_columns in Hcols.
  injection Hcols as Hid Hpair _ Htime _ _ _ _ _ _ _ _ _.
  unfold TradeLogger.find_open_trade. rewrite Hrows. split.
  - rewrite List.filter_app. cbn [List.filter].
    rewrite Hpair, Hopen, (bool_decide_eq_true_2 _ eq_refl). cbn [andb].
    fold (open_rows_of pair' db).
    unfold TradeLogger.latest_entry. rewrite fold_left_app. cbn [fold_left].
    pose proof (latest_entry_spec (open_rows_of pair' db)) as Hspec.
    unfold TradeLogger.latest_entry in Hspec.
    destruct (fold_left _ (open_rows_of pair' db) None) as [b|];
      [|by rewrite <- Hid].
    destruct Hspec as [Hb _]. rewrite Htime, (Hlater b Hb).
    by rewrite <- Hid.
  - intros other Hother. rewrite List.filter_app. cbn [List.filter].
    rewrite Hpair, (bool_decide_eq_false_2 _ (not_eq_sym Hother)).
    cbn [andb]. by rewrite app_nil_r.
Qed.

Lemma log_entry_then_find_open_trade_witness :
  let db :=
    step (LogEntry "2026-02-23 11:00:00" (PyStr "6") "BTC/USDT"
            "momentum_rsi_bb" "2026-02-23T11:00:00" (of_Z 99)
            Sample.indicators (Sample.regime "low" "ranging"))
      empty_database in
  TradeLogger.find_open_trade "BTC/USDT" db = Some "6"%string
  /\ TradeLogger.find_open_trade "BTC/USDT"
       (step (Sample.entry (PyInt 7) "momentum_rsi_bb" 100
                (Sample.regime "medium" "weak_trend")) db)
     = Some "7"%string.
Proof.
  intros db. split; [vm_compute; reflexivity|].
  refine (proj1 (log_entry_then_find_open_trade
                   "2026-02-23 12:00:00" (PyInt 7) "BTC/USDT"
                   "momentum_rsi_bb" "2026-02-23T12:00:00" (of_Z 100)
                   Sample.indicators (Sample.regime "medium" "weak_trend")
                   db 2 _ _ _)).
  - vm_compute. reflexivity.
  - intros r Hr. vm_compute in Hr.
    apply list_elem_of_singleton in Hr as ->. vm_compute. reflexivity.
Defined.

(** X8. The trade [find_open_trade] reports can be closed. When
    [find_open_trade(pair)] returns an identifier, [log_exit] with that
    identifier returns [true], and afterwards the pair has fewer open rows
    and [find_open_trade(pair)] returns another identifier or none. *)
Theorem find_open_trade_then_log_exit (pair' trade_id : string)
    (exit_time : string) (exit_price : float) (exit_reason : string)
    (indicators : gmap string float) (regime : gmap string string)
    (entry_price duration_minutes : float) (db : database) :
  TradeLogger.find_open_trade pair' db = Some trade_id ->
  exists db',
    TradeLogger.log_exit (PyStr trade_id) exit_time exit_price exit_reason
      indicators regime entry_price duration_minutes db = (true, db')
    /\ (length (open_rows_of pair' db') < length (open_rows_of pair' db))%nat
    /\ TradeLogger.find_open_trade pair' db' <> Some trade_id.
Proof.
  intros Hfind.
  pose proof (find_open_trade_some _ _ _ Hfind) as (r & Hr & Hid).
  pose proof (open_rows_of_log_exit (PyStr trade_id) exit_time exit_price
                exit_reason indicators regime entry_price duration_minutes
                pair' db) as Hrows.
  pose proof (log_exit_returns (PyStr trade_id) exit_time exit_price
                exit_reason indicators regime entry_price duration_minutes db)
    as Hret.
  destruct (TradeLogger.log_exit (PyStr trade_id) exit_time exit_price
              exit_reason indicators regime entry_price duration_minutes db)
    as [b db'].
  cbn [fst snd str] in *. exists db'.
  assert (Hb : b = true).
  { apply Hret. exists r. split; [|exact Hid].
    unfold open_rows_of in Hr.
    by apply list_elem_of_In, filter_In, proj1, list_elem_of_In in Hr. }
  subst b. split; [reflexivity|]. split.
  - rewrite Hrows. clear Hrows Hret Hfind.
    induction (open_rows_of pair' db) as [|x rows IH];
      [by apply elem_of_nil in Hr|].
    cbn [List.filter length].
    apply elem_of_cons in Hr as [<-|Hr].
    + rewrite (bool_decide_eq_true_2 _ Hid). cbn [negb].
      pose proof (filter_length_le
                    (fun r0 => negb (bool_decide
                                       (trade_log.trade_id r0 = trade_id)))
                    rows).
      lia.
    + specialize (IH Hr).
      destruct (negb _); cbn [length]; lia.
  - intros Hfind'. apply find_open_trade_some in Hfind' as (r' & Hr' & Hid').
    rewrite Hrows in Hr'. apply list_elem_of_In, filter_In in Hr' as [_ Hr'].
    by rewrite (bool_decide_eq_true_2 _ Hid') in Hr'.
Qed.

Lemma find_open_trade_then_log_exit_witness :
  exists db',
    TradeLogger.log_exit (PyStr "1") "2026-02-23T13:00:00" (of_Z 103) "roi"
      Sample.indicators (Sample.regime "medium" "weak_trend") (of_Z 100)
      (of_Z 60) Sample.two_open = (true, db')
    /\ TradeLogger.find_open_trade "BTC/USDT" db' <> Some "1"%string.
Proof.
  destruct (find_open_trade_then_log_exit "BTC/USDT" "1"
              "2026-02-23T13:00:00" (of_Z 103) "roi" Sample.indicators
              (Sample.regime "medium" "weak_trend") (of_Z 100) (of_Z 60)
              Sample.two_open) as (db' & Hexit & _ & Hfind).
  - vm_compute. reflexivity.
  - exists db'. split; [exact Hexit|exact Hfind].
Defined.

(** ** The analyzer: counts and errors of a summary *)

Section StoredNumbers.

Lemma sql_real_number (x p : float) : sql_real x = Some p -> is_nan p = false.
Proof. unfold sql_real. destruct x as [[]|[]| |[] m e]; by intros [= <-]. Qed.

Lemma pnl_are_numbers_step (o : op) (db : database) :
  pnl_are_numbers db -> pnl_are_numbers (step o db).
Proof.
  intros Hdb.
  destruct o as [now tid pair' strategy entry_time entry_price ind reg
                |tid exit_time exit_price exit_reason ind reg entry_price
                   duration
                |now pair' timestamp reg ind]; simpl.
  - destruct (TradeLogger.log_entry _ _ _ _ _ _ _ _ db)
      as [[rowid db']|e] eqn:He; [|exact Hdb].
    apply log_entry_inv in He as (new & Hrows & _ & _ & _ & _ & _ & _ & Hun & _).
    intros r p Hr Hp. rewrite Hrows in Hr.
    apply elem_of_app in Hr as [Hr|Hr]; [by apply (Hdb r)|].
    apply list_elem_of_singleton in Hr as ->.
    unfold exit_unset, exit_columns in Hun. congruence.
  - destruct (TradeLogger.select_latest (str tid) (trade_log_rows db))
      as [row|] eqn:Hsel.
    + rewrite (log_exit_found _ _ _ _ _ _ _ _ _ _ Hsel).
      intros r p Hr Hp. cbn [snd trade_log_rows] in Hr.
      apply list_elem_of_fmap in Hr as (r0 & -> & Hr0).
      destruct (TradeLogger.update_matches (str tid) r0);
        [|by apply (Hdb r0)].
      cbn [TradeLogger.set_exit trade_log.pnl_percent] in Hp.
      by apply sql_real_number in Hp.
    + by rewrite (log_exit_not_found _ _ _ _ _ _ _ _ _ Hsel).
  - exact Hdb.
Qed.

Lemma reachable_pnl_are_numbers (db : database) :
  reachable db -> pnl_are_numbers db.
Proof.
  intros [ops ->].
  assert (H0 : pnl_are_numbers empty_database).
  { intros r p Hr. by apply elem_of_nil in Hr. }
  revert H0. generalize empty_database.
  induction ops as [|o ops IH]; intros db Hdb; [exact Hdb|].
  apply IH, pnl_are_numbers_step, Hdb.
Qed.

(** A number is a win or a loss, and not both. *)
Lemma gtb_zero_negb_leb (p : float) :
  is_nan p = false -> gtb p zero = negb (leb p zero).
Proof. by destruct p as [[]|[]| |[] m e]. Qed.

Lemma wins_losses_partition (pnls : list float) :
  Forall (fun p => is_nan p = false) pnls ->
  (length (wins_of pnls) + length (losses_of pnls))%nat = length pnls.
Proof.
  unfold wins_of, losses_of.
  induction 1 as [|p pnls Hp _ IH]; [reflexivity|].
  cbn [List.filter]. rewrite (gtb_zero_negb_leb p Hp).
  destruct (leb p zero); cbn [negb length]; lia.
Qed.

Lemma numbers_some (pnls : list (option float)) (ps : list float) :
  PerformanceAnalyzer.numbers pnls = Return ps -> pnls = Some <$> ps.
Proof.
  revert ps. induction pnls as [|[p|] pnls IH]; intros ps; simpl.
  - by intros [= <-].
  - destruct (PerformanceAnalyzer.numbers pnls) as [ps'|e]; simpl; [|done].
    intros [= <-]. by rewrite (IH ps').
  - done.
Qed.

Lemma numbers_returns (pnls : list (option float)) :
  Forall (fun p => p <> None) pnls ->
  exists ps, PerformanceAnalyzer.numbers pnls = Return ps.
Proof.
  induction 1 as [|[p|] pnls Hp _ [ps IH]]; simpl; [by eexists| |done].
  rewrite IH. by eexists.
Qed.

Lemma numbers_raises (pnls : list (option float)) :
  None ∈ pnls -> PerformanceAnalyzer.numbers pnls = Raise TypeError.
Proof.
  induction pnls as [|[p|] pnls IH]; intros Hin; simpl.
  - by apply elem_of_nil in Hin.
  - apply elem_of_cons in Hin as [|Hin]; [done|]. by rewrite IH.
  - reflexivity.
Qed.

Lemma select_where_elem clauses db r :
  r ∈ PerformanceAnalyzer.select_where clauses db <->
  r ∈ trade_log_rows db /\ forallb (fun clause => clause r) clauses = true.
Proof.
  unfold PerformanceAnalyzer.select_where.
  by rewrite !list_elem_of_In, filter_In.
Qed.

End StoredNumbers.

(** X9. Every counted trade is a win or a loss. On a database written by
    the recorder, when [summary] returns, [wins + losses = total_trades],
    [total_trades] is the number of closed rows the filters select, and
    neither count is negative. *)
Theorem summary_counts_every_trade (strategy regime : option string)
    (db : database) (s : summary_dict.t) :
  reachable db ->
  PerformanceAnalyzer.summary strategy regime db = Return s ->
  summary_dict.wins s + summary_dict.losses s = summary_dict.total_trades s
  /\ summary_dict.total_trades s = len (summary_rows strategy regime db)
  /\ 0 <= summary_dict.wins s /\ 0 <= summary_dict.losses s.
Proof.
  intros Hreach Hs.
  apply summary_inv in Hs as (pnls & Hnum & Htotal & Hwins & Hlosses & _).
  rewrite Htotal, Hwins, Hlosses. unfold len.
  assert (Hn : Forall (fun p => is_nan p = false) pnls).
  { apply Forall_forall. intros p Hp.
    pose proof (numbers_some _ _ Hnum) as Hcol.
    assert (Hin : Some p ∈ trade_log.pnl_percent <$> summary_rows strategy regime db).
    { rewrite Hcol. apply list_elem_of_fmap. by exists p. }
    apply list_elem_of_fmap in Hin as (r & Hr & Hin).
    apply select_where_elem in Hin as [Hin _].
    by apply (reachable_pnl_are_numbers db Hreach r p). }
  pose proof (wins_losses_partition pnls Hn) as Hpart.
  pose proof (numbers_length _ _ Hnum) as Hlen.
  rewrite length_fmap in Hlen.
  repeat split; lia.
Qed.

Lemma summary_counts_every_trade_witness :
  exists s,
    PerformanceAnalyzer.summary None None Sample.four_closed = Return s
    /\ summary_dict.wins s + summary_dict.losses s = 4.
Proof.
  eexists. split; [vm_compute; reflexivity|].
  refine (eq_trans (proj1 (summary_counts_every_trade None None
                             Sample.four_closed _ _ _)) _).
  - eexists. unfold Sample.four_closed. reflexivity.
  - vm_compute. reflexivity.
  - reflexivity.
Defined.

Lemma summary_null_pnl_raises (strategy regime : option string)
    (db : database) (r : trade_log.row) :
  r ∈ summary_rows strategy regime db -> trade_log.pnl_percent r = None ->
  PerformanceAnalyzer.summary strategy regime db = Raise TypeError.
Proof.
  unfold PerformanceAnalyzer.summary. fold (summary_rows strategy regime db).
  intros Hr Hnull.
  destruct (summary_rows strategy regime db) as [|x rows] eqn:Hrows;
    [by apply elem_of_nil in Hr|].
  rewrite <- Hrows in *. clear Hrows.
  rewrite numbers_raises; [reflexivity|].
  apply list_elem_of_fmap. by exists r.
Qed.

(** X10. [summary] fails on a closed trade without a P&L. When a row the
    filters select has a NULL [pnl_percent], [summary] raises [TypeError];
    when no selected row has, it returns. One [log_exit] with a NaN
    [exit_price] and an [entry_price] other than zero, for an identifier
    with an open row, is enough: the unfiltered [summary] raises after
    it. *)
Theorem summary_raises_on_null_pnl (strategy regime : option string)
    (db : database) :
  ((exists r, r ∈ summary_rows strategy regime db
              /\ trade_log.pnl_percent r = None) ->
   PerformanceAnalyzer.summary strategy regime db = Raise TypeError)
  /\ ((forall r, r ∈ summary_rows strategy regime db ->
                 trade_log.pnl_percent r <> None) ->
      exists s, PerformanceAnalyzer.summary strategy regime db = Return s)
  /\ (forall trade_id exit_time exit_reason indicators exit_regime
             entry_price duration_minutes r,
        r ∈ trade_log_rows db ->
        trade_log.trade_id r = str trade_id -> is_open r = true ->
        truthy entry_price = true ->
        PerformanceAnalyzer.summary None None
          (snd (TradeLogger.log_exit trade_id exit_time nan exit_reason
                  indicators exit_regime entry_price duration_minutes db))
        = Raise TypeError).
Proof.
  split; [|split].
  - intros (r & Hr & Hnull). by eapply summary_null_pnl_raises.
  - unfold PerformanceAnalyzer.summary.
    fold (summary_rows strategy regime db). intros Hall.
    destruct (summary_rows strategy regime db) as [|x rows] eqn:Hrows;
      [by eexists|].
    rewrite <- Hrows in *. clear Hrows.
    destruct (numbers_returns (trade_log.pnl_percent <$>
                                 summary_rows strategy regime db))
      as [ps Hps].
    { apply Forall_forall. intros p Hp.
      apply list_elem_of_fmap in Hp as (r & -> & Hr). by apply Hall. }
    rewrite Hps. cbn [bind]. by eexists.
  - intros trade_id exit_time exit_reason indicators exit_regime entry_price
      duration_minutes r Hr Hid Hopen Hprice.
    destruct (TradeLogger.select_latest (str trade_id) (trade_log_rows db))
      as [row|] eqn:Hsel.
    + rewrite (log_exit_found _ _ _ _ _ _ _ _ _ _ Hsel). cbn [snd].
      set (f := fun r0 : trade_log.row =>
                  if TradeLogger.update_matches (str trade_id) r0 then _
                  else r0).
      apply (summary_null_pnl_raises None None _ (f r)).
      * apply select_where_elem. cbn [trade_log_rows]. split.
        -- apply list_elem_of_fmap. by exists r.
        -- unfold f, TradeLogger.update_matches.
           rewrite (bool_decide_eq_true_2 _ Hid), Hopen. reflexivity.
      * unfold f, TradeLogger.update_matches.
        rewrite (bool_decide_eq_true_2 _ Hid), Hopen, Hprice.
        cbn [andb TradeLogger.set_exit trade_log.pnl_percent].
        by destruct entry_price as [[]|[]| |[] ? ?].
    + rewrite select_latest_none in Hsel. by destruct (Hsel r Hr).
Qed.

Lemma summary_raises_on_null_pnl_witness :
  let db :=
    run [Sample.entry (PyStr "1") "momentum_rsi_bb" 100
           (Sample.regime "medium" "weak_trend");
         LogExit (PyStr "1") "2026-02-23T13:00:00" nan "roi"
           Sample.indicators (Sample.regime "medium" "weak_trend")
           (of_Z 100) (of_Z 60)]
      empty_database in
  PerformanceAnalyzer.summary None None db = Raise TypeError.
Proof.
  intros db.
  assert (Hrow : exists r, trade_log_rows
                             (step (Sample.entry (PyStr "1") "momentum_rsi_bb"
                                      100 (Sample.regime "medium" "weak_trend"))
                                empty_database) = [r]
                           /\ trade_log.trade_id r = "1"%string
                           /\ is_open r = true)
    by (eexists; repeat split; vm_compute; reflexivity).
  destruct Hrow as (r & Hrows & Hid & Hopen).
  refine (proj2 (proj2 (summary_raises_on_null_pnl None None _))
            (PyStr "1") _ _ _ _ _ _ r _ Hid Hopen _).
  - rewrite Hrows. by left.
  - vm_compute. reflexivity.
Defined.

(** ** The analyzer: the order of exits, and the windows cut from it *)

Section ExitOrder.

Lemma string_leb_trans (a b c : string) :
  String.leb a b = true -> String.leb b c = true -> String.leb a c = true.
Proof.
  unfold String.leb. intros Hab Hbc.
  destruct (String.compare a b) eqn:Eab; [| |done].
  - apply String.compare_eq_iff in Eab as ->. exact Hbc.
  - destruct (String.compare b c) eqn:Ebc; [| |done].
    + apply String.compare_eq_iff in Ebc as <-. by rewrite Eab.
    + by rewrite (string_compare_lt_trans a b c Eab Ebc).
Qed.

Lemma string_leb_false_flip (a b : string) :
  String.leb a b = false -> String.leb b a = true.
Proof.
  unfold String.leb. rewrite (String.compare_antisym a b).
  by destruct (String.compare b a).
Qed.

(** [a] comes before [b] in [exit_time DESC]. *)
Local Abbreviation desc :=
  (fun a b : trade_log.row =>
     String.leb (PerformanceAnalyzer.exit_key b)
                (PerformanceAnalyzer.exit_key a) = true).

Lemma insert_desc_perm (r : trade_log.row) (rows : list trade_log.row) :
  PerformanceAnalyzer.insert_desc r rows ≡ₚ r :: rows.
Proof.
  induction rows as [|x rows IH]; simpl; [reflexivity|].
  destruct (String.leb _ _); [reflexivity|].
  rewrite IH. apply Permutation_swap.
Qed.

Lemma order_by_exit_time_desc_perm (rows : list trade_log.row) :
  PerformanceAnalyzer.order_by_exit_time_desc rows ≡ₚ rows.
Proof.
  unfold PerformanceAnalyzer.order_by_exit_time_desc.
  induction rows as [|x rows IH]; [reflexivity|].
  cbn [fold_right]. by rewrite insert_desc_perm, IH.
Qed.

Lemma insert_desc_sorted (r : trade_log.row) (rows : list trade_log.row) :
  StronglySorted desc rows ->
  StronglySorted desc (PerformanceAnalyzer.insert_desc r rows).
Proof.
  induction 1 as [|x rows Hs IH Hx]; simpl.
  - constructor; [constructor|constructor].
  - destruct (String.leb (PerformanceAnalyzer.exit_key x)
                (PerformanceAnalyzer.exit_key r)) eqn:Hxr.
    + constructor; [by constructor|].
      constructor; [exact Hxr|].
      eapply Forall_impl; [exact Hx|].
      intros y Hy. cbn beta in Hy |- *. by eapply string_leb_trans.
    + constructor; [exact IH|].
      rewrite insert_desc_perm. constructor; [|exact Hx].
      by apply string_leb_false_flip.
Qed.

Lemma order_by_exit_time_desc_sorted (rows : list trade_log.row) :
  StronglySorted desc (PerformanceAnalyzer.order_by_exit_time_desc rows).
Proof.
  unfold PerformanceAnalyzer.order_by_exit_time_desc.
  induction rows as [|x rows IH]; [constructor|].
  cbn [fold_right]. by apply insert_desc_sorted.
Qed.

Lemma sorted_app_inv (l1 l2 : list trade_log.row) :
  StronglySorted desc (l1 ++ l2) ->
  StronglySorted desc l1 /\ StronglySorted desc l2
  /\ forall a b, a ∈ l1 -> b ∈ l2 -> desc a b.
Proof.
  induction l1 as [|x l1 IH]; simpl; intros Hs.
  - split; [constructor|]. split; [exact Hs|].
    intros a b Ha. by apply elem_of_nil in Ha.
  - apply StronglySorted_inv in Hs as [Hs Hx].
    destruct (IH Hs) as (H1 & H2 & H12).
    apply Forall_app in Hx as [Hx1 Hx2].
    split; [by constructor|]. split; [exact H2|].
    intros a b Ha Hb. apply elem_of_cons in Ha as [->|Ha].
    + rewrite Forall_forall in Hx2. by apply Hx2.
    + by apply H12.
Qed.

Lemma sorted_exits_descending (rows : list trade_log.row) :
  StronglySorted desc rows -> exits_descending rows.
Proof.
  intros Hs i a b Ha Hb.
  rewrite <- (take_drop (S i) rows) in Hs.
  apply sorted_app_inv in Hs as (_ & _ & H12).
  apply H12.
  - apply list_elem_of_lookup. exists i.
    rewrite lookup_take_lt by lia. exact Ha.
  - apply list_elem_of_lookup. exists 0%nat.
    rewrite lookup_drop. by rewrite Nat.add_0_r.
Qed.

(** The slices [rows[:n]] and [rows[n:n + m]] of a list that has [n] rows. *)
Lemma slice_first {A} (xs : list A) (n : Z) :
  0 <= n <= len xs -> slice xs 0 n = take (Z.to_nat n) xs.
Proof.
  intros Hn. unfold slice, slice_bound, len in *.
  change (0 <? 0) with false. cbn iota.
  destruct (n <? 0) eqn:Hneg; [apply Z.ltb_lt in Hneg; lia|].
  rewrite (Z.min_l 0) by lia. rewrite (Z.min_l n) by lia.
  rewrite Z.sub_0_r. reflexivity.
Qed.

Lemma slice_next {A} (xs : list A) (n m : Z) :
  0 <= n <= len xs -> 0 <= m ->
  slice xs n (n + m) = take (Z.to_nat m) (drop (Z.to_nat n) xs).
Proof.
  intros Hn Hm. unfold slice, slice_bound, len in *.
  destruct (n <? 0) eqn:Hneg; [apply Z.ltb_lt in Hneg; lia|].
  destruct (n + m <? 0) eqn:Hneg'; [apply Z.ltb_lt in Hneg'; lia|].
  rewrite (Z.min_l n) by lia.
  destruct (Z.le_gt_cases (n + m) (Z.of_nat (length xs))) as [Hle|Hgt].
  - rewrite (Z.min_l (n + m)) by lia. f_equal. lia.
  - rewrite (Z.min_r (n + m)) by lia.
    rewrite !take_ge; [reflexivity| |]; rewrite length_drop; lia.
Qed.

Lemma decay_report_inj n r b wd ed flag text n' r' b' wd' ed' flag' text' :
  Return (DecayReport n r b wd ed flag text)
  = Return (DecayReport n' r' b' wd' ed' flag' text') ->
  n = n' /\ r = r' /\ b = b' /\ flag = flag' /\ text = text'.
Proof. intros H. by simplify_eq. Qed.

End ExitOrder.

(** X11. The windows of [detect_decay] are the most recent exits. For
    [0 <= recent_window] and [0 <= baseline_window], a report with
    [has_enough_data] splits the closed trades of the strategy into a recent
    window of exactly [recent_window] trades, a baseline window of
    [min(baseline_window, total - recent_window)] trades, which is at least
    one, and the older trades; the two summaries of the report are those of
    the two windows; no trade of the recent window exits before a trade of
    the other two parts, and none of the baseline window before an older
    one. *)
Theorem detect_decay_windows (strategy : string)
    (recent_window baseline_window : Z) (db : database)
    (total : Z) (recent baseline : window_dict.t)
    (win_rate_delta expectancy_delta : float) (decay_detected : bool)
    (recommendation : string) :
  0 <= recent_window -> 0 <= baseline_window ->
  PerformanceAnalyzer.detect_decay strategy recent_window baseline_window db
  = Return (DecayReport total recent baseline win_rate_delta expectancy_delta
              decay_detected recommendation) ->
  exists recent_rows baseline_rows older,
    recent_rows ++ baseline_rows ++ older ≡ₚ closed_trades_of strategy db
    /\ total = len (closed_trades_of strategy db)
    /\ len recent_rows = recent_window
    /\ len baseline_rows = Z.min baseline_window (total - recent_window)
    /\ 0 < len baseline_rows
    /\ PerformanceAnalyzer._compute_summary
         (trade_log.pnl_percent <$> recent_rows) = Return recent
    /\ PerformanceAnalyzer._compute_summary
         (trade_log.pnl_percent <$> baseline_rows) = Return baseline
    /\ window_dict.total_trades recent = recent_window
    /\ window_dict.total_trades baseline
       = Z.min baseline_window (total - recent_window)
    /\ (forall a b, a ∈ recent_rows -> b ∈ baseline_rows ++ older ->
          String.leb (PerformanceAnalyzer.exit_key b)
                     (PerformanceAnalyzer.exit_key a) = true)
    /\ (forall a b, a ∈ baseline_rows -> b ∈ older ->
          String.leb (PerformanceAnalyzer.exit_key b)
                     (PerformanceAnalyzer.exit_key a) = true).
Proof.
  intros Hrw Hbw. unfold PerformanceAnalyzer.detect_decay.
  fold (closed_trades_of strategy db).
  pose proof (order_by_exit_time_desc_perm (closed_trades_of strategy db))
    as Hperm.
  pose proof (order_by_exit_time_desc_sorted (closed_trades_of strategy db))
    as Hsorted.
  pose proof (length_order_by_exit_time_desc (closed_trades_of strategy db))
    as Hlen.
  set (rows := PerformanceAnalyzer.order_by_exit_time_desc _) in *.
  destruct (len rows <? recent_window) eqn:Hlt; [discriminate|].
  apply Z.ltb_ge in Hlt.
  rewrite (slice_first rows recent_window) by lia.
  rewrite (slice_next rows recent_window baseline_window) by lia.
  set (recent_rows := take (Z.to_nat recent_window) rows).
  set (baseline_rows :=
         take (Z.to_nat baseline_window) (drop (Z.to_nat recent_window) rows)).
  set (older :=
         drop (Z.to_nat baseline_window) (drop (Z.to_nat recent_window) rows)).
  assert (Hsplit : rows = recent_rows ++ baseline_rows ++ older).
  { unfold recent_rows, baseline_rows, older. by rewrite !take_drop. }
  destruct (trade_log.pnl_percent <$> baseline_rows) as [|p ps] eqn:Hbase;
    [discriminate|].
  rewrite <- Hbase.
  destruct (PerformanceAnalyzer._compute_summary
              (trade_log.pnl_percent <$> recent_rows)) as [r|e] eqn:Hr;
    [|discriminate].
  cbn [bind].
  destruct (PerformanceAnalyzer._compute_summary
              (trade_log.pnl_percent <$> baseline_rows)) as [b|e] eqn:Hb;
    [|discriminate].
  cbn [bind]. intros Heq.
  apply decay_report_inj in Heq as (<- & <- & <- & _ & _).
  exists recent_rows, baseline_rows, older.
  assert (Hlr : len recent_rows = recent_window).
  { unfold recent_rows, len in *. rewrite length_take. lia. }
  assert (Hlb : len baseline_rows
                = Z.min baseline_window (len rows - recent_window)).
  { unfold baseline_rows, len in *. rewrite length_take, length_drop. lia. }
  assert (Hpos : 0 < len baseline_rows).
  { apply (f_equal length) in Hbase. rewrite length_fmap in Hbase.
    unfold len. simpl in Hbase. lia. }
  split; [by rewrite <- Hsplit|].
  split; [unfold len; by rewrite Hlen|].
  split; [exact Hlr|]. split; [exact Hlb|]. split; [exact Hpos|].
  split; [exact Hr|]. split; [exact Hb|].
  apply compute_summary_inv in Hr as (? & _ & Htr & _).
  apply compute_summary_inv in Hb as (? & _ & Htb & _).
  split; [rewrite Htr; unfold len in *; by rewrite length_fmap|].
  split; [rewrite Htb; unfold len in *; by rewrite length_fmap|].
  rewrite Hsplit in Hsorted.
  apply sorted_app_inv in Hsorted as (_ & Hrest & H1).
  apply sorted_app_inv in Hrest as (_ & _ & H2).
  split; [exact H1 | exact H2].
Qed.

Lemma detect_decay_windows_witness :
  exists report,
    PerformanceAnalyzer.detect_decay "momentum_rsi_bb" 1 2 Sample.four_closed
    = Return report
    /\ exists recent_rows baseline_rows older,
         recent_rows ++ baseline_rows ++ older
           ≡ₚ closed_trades_of "momentum_rsi_bb" Sample.four_closed
         /\ len recent_rows = 1 /\ len baseline_rows = 2.
Proof.
  eexists. split; [vm_compute; reflexivity|].
  edestruct (detect_decay_windows "momentum_rsi_bb" 1 2 Sample.four_closed)
    as (recent_rows & baseline_rows & older & Hperm & _ & Hr & Hb & _);
    [lia | lia | vm_compute; reflexivity|].
  exists recent_rows, baseline_rows, older.
  split; [exact Hperm|]. split; [exact Hr|]. exact Hb.
Defined.

Section RecentWindow.

Lemma select_where_ext (clauses clauses' : list (trade_log.row -> bool))
    (db : database) :
  (forall r, forallb (fun clause => clause r) clauses
             = forallb (fun clause => clause r) clauses') ->
  PerformanceAnalyzer.select_where clauses db
  = PerformanceAnalyzer.select_where clauses' db.
Proof.
  intros Hext. unfold PerformanceAnalyzer.select_where.
  induction (trade_log_rows db) as [|r rows IH]; [reflexivity|].
  cbn [List.filter]. by rewrite Hext, IH.
Qed.

(** The closed trades [detect_decay] orders are those [recent_trades]
    orders, for a strategy name that is not empty. *)
Lemma closed_trades_of_recent_rows (strategy : string) (db : database) :
  strategy <> ""%string ->
  closed_trades_of strategy db = recent_rows (Some strategy) db.
Proof.
  intros Hne. unfold closed_trades_of, recent_rows, PerformanceAnalyzer.given.
  rewrite (bool_decide_eq_false_2 _ Hne). cbn [negb app].
  apply select_where_ext. intros r. cbn [forallb].
  rewrite !andb_true_r. apply andb_comm.
Qed.

End RecentWindow.

(** X12. The recent window of [detect_decay] is what [recent_trades]
    returns. For a strategy name that is not empty, [0 <= recent_window],
    and closed trades of the strategy that exit at different times (SQL
    leaves the order of equal times open), the summary [recent] of a report
    is the summary of the P&L column of
    [recent_trades(recent_window, strategy)], which has [recent_window]
    rows, and [total_closed_trades] is the number of rows [recent_trades]
    returns without a limit. *)
Theorem detect_decay_recent_window (strategy : string)
    (recent_window baseline_window : Z) (db : database)
    (total : Z) (recent baseline : window_dict.t)
    (win_rate_delta expectancy_delta : float) (decay_detected : bool)
    (recommendation : string) :
  strategy <> ""%string -> 0 <= recent_window ->
  NoDup (PerformanceAnalyzer.exit_key <$> closed_trades_of strategy db) ->
  PerformanceAnalyzer.detect_decay strategy recent_window baseline_window db
  = Return (DecayReport total recent baseline win_rate_delta expectancy_delta
              decay_detected recommendation) ->
  PerformanceAnalyzer._compute_summary
    (trade_log.pnl_percent
       <$> PerformanceAnalyzer.recent_trades recent_window (Some strategy) db)
  = Return recent
  /\ total = len (PerformanceAnalyzer.recent_trades (-1) (Some strategy) db)
  /\ len (PerformanceAnalyzer.recent_trades recent_window (Some strategy) db)
     = recent_window.
Proof.
  intros Hne Hrw _. unfold PerformanceAnalyzer.detect_decay.
  fold (closed_trades_of strategy db).
  unfold PerformanceAnalyzer.recent_trades.
  fold (recent_rows (Some strategy) db).
  rewrite <- (closed_trades_of_recent_rows strategy db Hne).
  set (rows := PerformanceAnalyzer.order_by_exit_time_desc _).
  unfold PerformanceAnalyzer.limit.
  change (-1 <? 0) with true. cbn iota.
  destruct (recent_window <? 0) eqn:Hneg; [apply Z.ltb_lt in Hneg; lia|].
  destruct (len rows <? recent_window) eqn:Hlt; [discriminate|].
  apply Z.ltb_ge in Hlt.
  rewrite (slice_first rows recent_window) by lia.
  destruct (trade_log.pnl_percent <$>
              slice rows recent_window (recent_window + baseline_window))
    as [|p ps] eqn:Hbase; [discriminate|].
  rewrite <- Hbase. clear Hbase.
  destruct (PerformanceAnalyzer._compute_summary
              (trade_log.pnl_percent <$> take (Z.to_nat recent_window) rows))
    as [r|e]; [|discriminate].
  cbn [bind].
  destruct (PerformanceAnalyzer._compute_summary _) as [b|e]; [|discriminate].
  cbn [bind]. intros Heq.
  apply decay_report_inj in Heq as (<- & <- & _).
  split; [reflexivity|]. split; [reflexivity|].
  unfold len in *. rewrite length_take. lia.
Qed.

Lemma detect_decay_recent_window_witness :
  let db :=
    run [Sample.entry (PyStr "1") "momentum_rsi_bb" 100
           (Sample.regime "medium" "weak_trend");
         LogExit (PyStr "1") "2026-02-23T13:00:00" (of_Z 104) "roi"
           Sample.indicators (Sample.regime "medium" "weak_trend")
           (of_Z 100) (of_Z 60);
         Sample.entry (PyStr "2") "momentum_rsi_bb" 100
           (Sample.regime "medium" "weak_trend");
         LogExit (PyStr "2") "2026-02-23T14:00:00" (of_Z 102) "roi"
           Sample.indicators (Sample.regime "medium" "weak_trend")
           (of_Z 100) (of_Z 60);
         Sample.entry (PyStr "3") "momentum_rsi_bb" 100
           (Sample.regime "medium" "weak_trend");
         LogExit (PyStr "3") "2026-02-23T15:00:00" (of_Z 95) "stop_loss"
           Sample.indicators (Sample.regime "medium" "weak_trend")
           (of_Z 100) (of_Z 60)]
      empty_database in
  exists total recent baseline win_rate_delta expectancy_delta decay_detected
         recommendation,
    PerformanceAnalyzer.detect_decay "momentum_rsi_bb" 1 2 db
    = Return (DecayReport total recent baseline win_rate_delta
                expectancy_delta decay_detected recommendation)
    /\ PerformanceAnalyzer._compute_summary
         (trade_log.pnl_percent
            <$> PerformanceAnalyzer.recent_trades 1 (Some "momentum_rsi_bb")
                  db)
       = Return recent.
Proof.
  intros db. do 7 eexists.
  assert (Hd : PerformanceAnalyzer.detect_decay "momentum_rsi_bb" 1 2 db
               = Return _)
    by (vm_compute; reflexivity).
  split; [exact Hd|].
  refine (proj1 (detect_decay_recent_window _ _ _ _ _ _ _ _ _ _ _ _ _ _ Hd));
    [discriminate | lia |].
  refine (bool_decide_unpack _ _). vm_compute. exact I.
Defined.

(** ** The analyzer: the decay rule *)

Section DecayRule.

Lemma sub_self (w : float) : sub w w = zero \/ sub w w = nan.
Proof.
  destruct w as [[]|[]| |s m e]; try (by left); try (by right).
  left. unfold sub, SFsub.
  rewrite Z.min_id. unfold shl_align. rewrite !Z.sub_diag. reflexivity.
Qed.

Lemma not_above_and_below (x c : float) : gtb x c && ltb x c = false.
Proof.
  unfold gtb. destruct (ltb c x) eqn:H; [|reflexivity]. cbn [andb].
  apply ltb_leb_flip in H. by apply ltb_false_of_leb_false.
Qed.

Lemma not_below_and_at_least (x c : float) : ltb x c && geb x c = false.
Proof.
  unfold geb. destruct (ltb x c) eqn:H; [|reflexivity]. cbn [andb].
  by apply ltb_leb_flip in H.
Qed.

(** The three conditions of the rule decide the flag and the text. *)
Lemma detect_decay_report (strategy : string)
    (recent_window baseline_window : Z) (db : database)
    (total : Z) (recent baseline : window_dict.t)
    (win_rate_delta expectancy_delta : float) (decay_detected : bool)
    (recommendation : string) :
  PerformanceAnalyzer.detect_decay strategy recent_window baseline_window db
  = Return (DecayReport total recent baseline win_rate_delta expectancy_delta
              decay_detected recommendation) ->
  decay_detected
  = win_rate_dropped recent baseline
    || expectancy_turned_negative recent baseline
    || profit_factor_below_one recent baseline
  /\ (if decay_detected
      then exists reasons,
             recommendation
             = "DECAY DETECTED: " +:+ reasons
               +:+ ". Consider reducing position size or pausing strategy."
      else recommendation
           = "No significant decay detected. Strategy performance is stable."%string).
Proof.
  unfold PerformanceAnalyzer.detect_decay.
  set (rows := PerformanceAnalyzer.order_by_exit_time_desc _).
  destruct (len rows <? recent_window); [discriminate|].
  destruct (trade_log.pnl_percent <$>
              slice rows recent_window (recent_window + baseline_window))
    as [|p ps] eqn:Hbase; [discriminate|].
  rewrite <- Hbase. clear Hbase.
  destruct (PerformanceAnalyzer._compute_summary _) as [r|e]; [|discriminate].
  cbn [bind].
  destruct (PerformanceAnalyzer._compute_summary _) as [b|e]; [|discriminate].
  cbn [bind]. intros Heq.
  apply decay_report_inj in Heq as (_ & <- & <- & Hflag & Htext).
  fold (win_rate_dropped r b) in Hflag, Htext.
  fold (expectancy_turned_negative r b) in Hflag, Htext.
  fold (profit_factor_below_one r b) in Hflag, Htext.
  split; [by rewrite <- Hflag|].
  rewrite <- Hflag, <- Htext.
  destruct (win_rate_dropped r b || expectancy_turned_negative r b
            || profit_factor_below_one r b); cbv iota;
    [by eexists | reflexivity].
Qed.

End DecayRule.

(** X13. A strategy that performs as before is reported stable. In a
    report of [detect_decay] the flag [decay_detected] is off exactly when
    the recommendation is the text for a stable strategy. It is off whenever
    the recent window has the win rate, the expectancy and the profit factor
    of the baseline window. *)
Theorem detect_decay_same_performance (strategy : string)
    (recent_window baseline_window : Z) (db : database)
    (total : Z) (recent baseline : window_dict.t)
    (win_rate_delta expectancy_delta : float) (decay_detected : bool)
    (recommendation : string) :
  PerformanceAnalyzer.detect_decay strategy recent_window baseline_window db
  = Return (DecayReport total recent baseline win_rate_delta expectancy_delta
              decay_detected recommendation) ->
  (decay_detected = false <->
   recommendation
   = "No significant decay detected. Strategy performance is stable."%string)
  /\ (window_dict.win_rate recent = window_dict.win_rate baseline ->
      window_dict.expectancy_pct recent = window_dict.expectancy_pct baseline ->
      window_dict.profit_factor recent = window_dict.profit_factor baseline ->
      decay_detected = false).
Proof.
  intros Hd. apply detect_decay_report in Hd as [Hflag Htext]. split.
  - destruct decay_detected.
    + destruct Htext as [reasons ->]. split; [done|]. discriminate.
    + by split.
  - intros Hw He Hp. rewrite Hflag.
    unfold win_rate_dropped, expectancy_turned_negative,
      profit_factor_below_one.
    rewrite Hw, He, Hp.
    rewrite not_above_and_below, not_below_and_at_least.
    destruct (sub_self (window_dict.win_rate baseline)) as [-> | ->];
      reflexivity.
Qed.

Lemma detect_decay_same_performance_witness :
  exists total recent baseline win_rate_delta expectancy_delta recommendation,
    PerformanceAnalyzer.detect_decay "momentum_rsi_bb" 20 50
      Sample.seventy_closed
    = Return (DecayReport total recent baseline win_rate_delta
                expectancy_delta false recommendation)
    /\ recommendation
       = "No significant decay detected. Strategy performance is stable."%string.
Proof.
  do 6 eexists.
  assert (Hd : PerformanceAnalyzer.detect_decay "momentum_rsi_bb" 20 50
                 Sample.seventy_closed = Return _)
    by (vm_compute; reflexivity).
  split; [exact Hd|].
  exact (proj1 (proj1 (detect_decay_same_performance _ _ _ _ _ _ _ _ _ _ _ Hd))
           eq_refl).
Defined.

(** ** The analyzer: the most recent trades *)

(** X14. [recent_trades(n, strategy)] returns the closed trades with the
    latest exits. For a limit [n] the store accepts, a 64-bit integer, the
    rows it returns and the rows it leaves out are together the closed rows
    of the filter; for [0 <= n] it returns [min(n, count)] rows and for a
    negative [n] all of them; the rows come latest exit first; and no
    returned row exits before a row left out. *)
Theorem recent_trades_latest_exits (n : Z) (strategy : option string)
    (db : database) :
  - 2 ^ 63 <= n < 2 ^ 63 ->
  exists rest,
    PerformanceAnalyzer.recent_trades n strategy db ++ rest
      ≡ₚ recent_rows strategy db
    /\ len (PerformanceAnalyzer.recent_trades n strategy db)
       = (if n <? 0 then len (recent_rows strategy db)
          else Z.min n (len (recent_rows strategy db)))
    /\ exits_descending (PerformanceAnalyzer.recent_trades n strategy db)
    /\ (forall a b,
          a ∈ PerformanceAnalyzer.recent_trades n strategy db -> b ∈ rest ->
          String.leb (PerformanceAnalyzer.exit_key b)
                     (PerformanceAnalyzer.exit_key a) = true)
    /\ (forall r,
          r ∈ PerformanceAnalyzer.recent_trades n strategy db ->
          r ∈ trade_log_rows db /\ is_closed r = true
          /\ (PerformanceAnalyzer.given strategy = true ->
              Some (trade_log.strategy r) = strategy)).
Proof.
  intros _.
  unfold PerformanceAnalyzer.recent_trades. fold (recent_rows strategy db).
  pose proof (order_by_exit_time_desc_perm (recent_rows strategy db)) as Hperm.
  pose proof (order_by_exit_time_desc_sorted (recent_rows strategy db))
    as Hsorted.
  pose proof (length_order_by_exit_time_desc (recent_rows strategy db))
    as Hlen.
  set (rows := PerformanceAnalyzer.order_by_exit_time_desc _) in *.
  assert (Hmem : forall r, r ∈ rows ->
            r ∈ trade_log_rows db /\ is_closed r = true
            /\ (PerformanceAnalyzer.given strategy = true ->
                Some (trade_log.strategy r) = strategy)).
  { intros r Hr. rewrite Hperm in Hr. unfold recent_rows in Hr.
    apply select_where_elem in Hr as [Hin Hall].
    split; [exact Hin|].
    rewrite forallb_app in Hall. apply andb_true_iff in Hall as [Hc Hs].
    cbn in Hc. rewrite andb_true_r in Hc. split; [exact Hc|].
    intros Hg. rewrite Hg in Hs. cbn in Hs. rewrite andb_true_r in Hs.
    unfold PerformanceAnalyzer.strategy_is in Hs.
    by apply bool_decide_eq_true in Hs. }
  unfold PerformanceAnalyzer.limit.
  destruct (n <? 0) eqn:Hneg.
  - exists []. rewrite app_nil_r.
    split; [exact Hperm|]. split; [unfold len; by rewrite Hlen|].
    split; [by apply sorted_exits_descending|].
    split; [|exact Hmem].
    intros a b _ Hb. by apply elem_of_nil in Hb.
  - apply Z.ltb_ge in Hneg.
    exists (drop (Z.to_nat n) rows).
    rewrite <- (take_drop (Z.to_nat n) rows) in Hsorted.
    apply sorted_app_inv in Hsorted as (Hs1 & _ & H12).
    split; [by rewrite take_drop|].
    split; [unfold len; rewrite length_take, <- Hlen; lia|].
    split; [by apply sorted_exits_descending|].
    split; [exact H12|].
    intros r Hr. apply Hmem.
    rewrite <- (take_drop (Z.to_nat n) rows). apply elem_of_app. by left.
Qed.

Lemma recent_trades_latest_exits_witness :
  exists rest,
    PerformanceAnalyzer.recent_trades 2 None Sample.four_closed ++ rest
      ≡ₚ recent_rows None Sample.four_closed
    /\ len (PerformanceAnalyzer.recent_trades 2 None Sample.four_closed) = 2.
Proof.
  destruct (recent_trades_latest_exits 2 None Sample.four_closed)
    as (rest & Hperm & Hlen & _); [lia|].
  exists rest. split; [exact Hperm|]. rewrite Hlen. vm_compute. reflexivity.
Defined.

(** ** The analyzer and the recorder together *)

Section OpenTrades.

Lemma select_where_closed_only (clauses : list (trade_log.row -> bool))
    (db db' : database) (new : list trade_log.row) :
  is_closed ∈ clauses ->
  trade_log_rows db' = trade_log_rows db ++ new ->
  Forall (fun r => is_open r = true) new ->
  PerformanceAnalyzer.select_where clauses db'
  = PerformanceAnalyzer.select_where clauses db.
Proof.
  intros Hin Hrows Hopen. unfold PerformanceAnalyzer.select_where.
  rewrite Hrows, List.filter_app.
  assert (Hnone : List.filter (fun r => forallb (fun clause => clause r) clauses)
                    new = []).
  { clear Hrows. induction Hopen as [|r new Hr _ IH]; [reflexivity|].
    cbn [List.filter]. rewrite IH.
    assert (Hf : forallb (fun clause => clause r) clauses = false).
    { apply not_true_is_false. intros Hall.
      rewrite forallb_forall in Hall.
      specialize (Hall is_closed (proj1 (list_elem_of_In _ _) Hin)).
      unfold is_closed in Hall. by rewrite Hr in Hall. }
    by rewrite Hf. }
  by rewrite Hnone, app_nil_r.
Qed.

(** A call that is not a [log_exit] adds open rows to [trade_log] at most. *)
Lemma step_adds_open_rows (o : op) (db : database) :
  ~ is_log_exit o ->
  exists new,
    trade_log_rows (step o db) = trade_log_rows db ++ new
    /\ Forall (fun r => is_open r = true) new.
Proof.
  intros Hno.
  destruct o as [now tid pair' strategy entry_time entry_price ind reg
                |tid exit_time exit_price exit_reason ind reg entry_price
                   duration
                |now pair' timestamp reg ind]; simpl.
  - destruct (TradeLogger.log_entry _ _ _ _ _ _ _ _ db)
      as [[rowid db']|e] eqn:He.
    + apply log_entry_inv in He
        as (new & Hrows & _ & _ & _ & _ & _ & _ & _ & Hopen & _).
      exists [new]. split; [exact Hrows|]. by constructor.
    + exists []. by rewrite app_nil_r.
  - by destruct Hno.
  - exists []. by rewrite app_nil_r.
Qed.

Lemma by_regime_loop_ext (strategy : option string) (regimes : list string)
    (db db' : database) :
  (forall regime, PerformanceAnalyzer.summary strategy regime db'
                  = PerformanceAnalyzer.summary strategy regime db) ->
  PerformanceAnalyzer.by_regime_loop strategy regimes db'
  = PerformanceAnalyzer.by_regime_loop strategy regimes db.
Proof.
  intros Hs. induction regimes as [|k regimes IH]; [reflexivity|].
  cbn [PerformanceAnalyzer.by_regime_loop]. by rewrite Hs, IH.
Qed.

End OpenTrades.

(** X15. The analysis sees closed trades only. A [log_entry] or a
    [log_regime_snapshot], whether it returns or raises, changes the result
    of none of [summary], [by_regime], [detect_decay] and [recent_trades],
    whatever their arguments. *)
Theorem analysis_ignores_open_trades (o : op) (db : database) :
  ~ is_log_exit o ->
  (forall strategy regime,
      PerformanceAnalyzer.summary strategy regime (step o db)
      = PerformanceAnalyzer.summary strategy regime db)
  /\ (forall strategy,
        PerformanceAnalyzer.by_regime strategy (step o db)
        = PerformanceAnalyzer.by_regime strategy db)
  /\ (forall strategy recent_window baseline_window,
        PerformanceAnalyzer.detect_decay strategy recent_window
          baseline_window (step o db)
        = PerformanceAnalyzer.detect_decay strategy recent_window
            baseline_window db)
  /\ (forall n strategy,
        PerformanceAnalyzer.recent_trades n strategy (step o db)
        = PerformanceAnalyzer.recent_trades n strategy db).
Proof.
  intros Hno. destruct (step_adds_open_rows o db Hno) as (new & Hrows & Hopen).
  assert (Hsel : forall clauses, is_closed ∈ clauses ->
            PerformanceAnalyzer.select_where clauses (step o db)
            = PerformanceAnalyzer.select_where clauses db).
  { intros clauses Hin. by eapply select_where_closed_only. }
  assert (Hsum : forall strategy regime,
            PerformanceAnalyzer.summary strategy regime (step o db)
            = PerformanceAnalyzer.summary strategy regime db).
  { intros strategy regime. unfold PerformanceAnalyzer.summary.
    rewrite Hsel; [reflexivity|]. apply elem_of_app. left. by left. }
  split; [exact Hsum|]. split; [|split].
  - intros strategy. unfold PerformanceAnalyzer.by_regime.
    rewrite Hsel by (apply elem_of_app; left; by left).
    apply by_regime_loop_ext. intros regime. apply Hsum.
  - intros strategy recent_window baseline_window.
    unfold PerformanceAnalyzer.detect_decay.
    rewrite Hsel; [reflexivity|]. right. by left.
  - intros n strategy. unfold PerformanceAnalyzer.recent_trades.
    rewrite Hsel; [reflexivity|]. apply elem_of_app. left. by left.
Qed.

Lemma analysis_ignores_open_trades_witness :
  PerformanceAnalyzer.summary None None
    (step (Sample.entry (PyStr "9") "momentum_rsi_bb" 100
             (Sample.regime "medium" "weak_trend")) Sample.four_closed)
  = PerformanceAnalyzer.summary None None Sample.four_closed.
Proof.
  refine (proj1 (analysis_ignores_open_trades _ Sample.four_closed _) None None).
  intros H. exact H.
Defined.

(** X16. The bucket of the empty label. When a closed trade carries the
    empty string as its entry regime, [by_regime] has the key [""], and the
    bucket under it is the summary of all closed trades of the strategy
    filter, of any label and of none: [summary] takes an empty [regime] for
    no filter. *)
Theorem by_regime_empty_label (strategy : option string) (db : database)
    (buckets : list (string * summary_dict.t)) :
  PerformanceAnalyzer.by_regime strategy db = Return buckets ->
  ((exists r, r ∈ closed_trades strategy db
              /\ trade_log.entry_regime r = Some ""%string) ->
   exists bucket, (""%string, bucket) ∈ buckets)
  /\ (forall bucket,
        (""%string, bucket) ∈ buckets ->
        PerformanceAnalyzer.summary strategy None db = Return bucket
        /\ summary_dict.total_trades bucket
           = len (closed_trades strategy db)).
Proof.
  intros Hby. unfold PerformanceAnalyzer.by_regime in Hby.
  apply by_regime_loop_inv in Hby as [Hkeys Hsum]. split.
  - intros (r & Hr & Hlabel).
    assert (Hkey : ""%string ∈ buckets.*1).
    { rewrite Hkeys. unfold PerformanceAnalyzer.distinct_entry_regime.
      rewrite elem_of_remove_dups, list_elem_of_omap.
      exists r. split; [|exact Hlabel].
      apply by_regime_rows. split; [exact Hr|congruence]. }
    apply list_elem_of_fmap in Hkey as ([k bucket] & Hk & Hin).
    simpl in Hk. subst k. by exists bucket.
  - intros bucket Hin. pose proof (Hsum _ _ Hin) as Hs.
    assert (Hnone : PerformanceAnalyzer.summary strategy (Some ""%string) db
                    = PerformanceAnalyzer.summary strategy None db)
      by reflexivity.
    rewrite Hnone in Hs. split; [exact Hs|].
    apply summary_inv in Hs as (_ & _ & -> & _). reflexivity.
Qed.

Lemma by_regime_empty_label_witness :
  let db :=
    run (Sample.complete_trade (PyStr "1") "momentum_rsi_bb" 100 105
           (Sample.regime "low" "ranging")
         ++ Sample.complete_trade (PyStr "2") "momentum_rsi_bb" 100 95
              (<["combined"%string := ""%string]> ∅))
      empty_database in
  exists buckets bucket,
    PerformanceAnalyzer.by_regime None db = Return buckets
    /\ (""%string, bucket) ∈ buckets
    /\ summary_dict.total_trades bucket = 2.
Proof.
  intros db.
  assert (Hby : exists buckets,
            PerformanceAnalyzer.by_regime None db = Return buckets)
    by (eexists; vm_compute; reflexivity).
  destruct Hby as [buckets Hby].
  destruct (by_regime_empty_label None db buckets Hby) as [Hkey Hbucket].
  destruct Hkey as [bucket Hin].
  { assert (Hrow : exists r, trade_log_rows db !! 1%nat = Some r
                             /\ is_closed r = true
                             /\ trade_log.entry_regime r = Some ""%string)
      by (eexists; repeat split; vm_compute; reflexivity).
    destruct Hrow as (r & Hr & Hc & Hl). exists r. split; [|exact Hl].
    apply select_where_elem. split; [by eapply list_elem_of_lookup_2|].
    cbn. by rewrite Hc. }
  exists buckets, bucket. split; [exact Hby|]. split; [exact Hin|].
  rewrite (proj2 (Hbucket bucket Hin)). vm_compute. reflexivity.
Defined.


(** ** The regime classifier: labels *)

Section RegimeLabels.

Variable percentile : list float -> float -> result float.

Lemma leb_ltb_trans (x y z : float) :
  leb x y = true -> ltb y z = true -> ltb x z = true.
Proof.
  unfold leb, SFleb, ltb, SFltb.
  destruct x as [sx|sx| |sx mx ex], y as [sy|sy| |sy my ey],
           z as [sz|sz| |sz mz ez];
    try destruct sx; try destruct sy; try destruct sz;
    cbn -[Z.compare]; try done;
    change (Pos.compare_cont Eq) with Pos.compare;
    destruct (Z.compare_spec ex ey), (Z.compare_spec ey ez),
             (Z.compare_spec ex ez); try done; try lia;
    destruct (Pos.compare_spec mx my), (Pos.compare_spec my mz),
             (Pos.compare_spec mx mz); simpl; try done; try lia.
Qed.

Lemma classify_trend_label (adx : option float) :
  classify_trend adx ∈ trend_labels.
Proof.
  unfold classify_trend, trend_labels. rewrite !elem_of_cons.
  destruct adx as [adx|]; [|by left].
  destruct (is_nan adx); [by left|].
  destruct (ltb adx (of_Z 20)); [right; by left|].
  destruct (ltb adx (of_Z 30)); [right; right; by left|].
  right; right; right; by left.
Qed.

Lemma classify_volatility_inv (bb_width : float)
    (bb_width_history : list float) (low_percentile high_percentile : float)
    (label : string) :
  classify_volatility percentile bb_width bb_width_history
    low_percentile high_percentile = Return label ->
  (len bb_width_history < 2 /\ label = "unknown"%string)
  \/ (2 <= len bb_width_history
      /\ exists low_threshold high_threshold,
           percentile bb_width_history low_percentile = Return low_threshold
           /\ percentile bb_width_history high_percentile
              = Return high_threshold
           /\ label
              = if ltb bb_width low_threshold then "low"%string
                else if gtb bb_width high_threshold then "high"%string
                else "medium"%string).
Proof.
  unfold classify_volatility.
  destruct bb_width_history as [|x rest] eqn:Hh.
  - intros [= <-]. left. by split.
  - rewrite <- Hh. cbn [orb].
    destruct (len bb_width_history <? 2) eqn:Hlt.
    + intros [= <-]. left. apply Z.ltb_lt in Hlt. by split.
    + apply Z.ltb_ge in Hlt. right. split; [exact Hlt|].
      destruct (percentile bb_width_history low_percentile) as [lo|e];
        [|discriminate].
      cbn [bind] in *.
      destruct (percentile bb_width_history high_percentile) as [hi|e];
        [|discriminate].
      cbn [bind] in *. exists lo, hi. split; [reflexivity|].
      split; [reflexivity|].
      destruct (ltb bb_width lo); [congruence|].
      destruct (gtb bb_width hi); congruence.
Qed.

Lemma classify_volatility_label (bb_width : float)
    (bb_width_history : list float) (low_percentile high_percentile : float)
    (label : string) :
  classify_volatility percentile bb_width bb_width_history
    low_percentile high_percentile = Return label ->
  label ∈ volatility_labels.
Proof.
  intros H. apply classify_volatility_inv in H
    as [[_ ->]|(_ & lo & hi & _ & _ & ->)]; unfold volatility_labels;
    rewrite !elem_of_cons; [by left|].
  destruct (ltb bb_width lo); [right; by left|].
  destruct (gtb bb_width hi); [right; right; right; by left|].
  right; right; by left.
Qed.

End RegimeLabels.

(** The combined label tells the two labels it is made of. *)
Lemma combined_label_inj (vol trend vol' trend' : string) :
  vol ∈ volatility_labels -> trend ∈ trend_labels ->
  vol' ∈ volatility_labels -> trend' ∈ trend_labels ->
  vol +:+ "_" +:+ trend = vol' +:+ "_" +:+ trend' ->
  vol = vol' /\ trend = trend'.
Proof.
  unfold volatility_labels, trend_labels. intros Hv Ht Hv' Ht' Heq.
  repeat (apply elem_of_cons in Hv as [->|Hv]);
    try (by apply elem_of_nil in Hv);
    repeat (apply elem_of_cons in Hv' as [->|Hv']);
    try (by apply elem_of_nil in Hv');
    repeat (apply elem_of_cons in Ht as [->|Ht]);
    try (by apply elem_of_nil in Ht);
    repeat (apply elem_of_cons in Ht' as [->|Ht']);
    try (by apply elem_of_nil in Ht');
    first [by split | cbn in Heq; congruence].
Qed.

Lemma classify_regime_shape
    (percentile : list float -> float -> result float)
    (bb_width : float) (bb_width_history : list float) (adx : option float)
    (regime : gmap string string) :
  classify_regime percentile bb_width bb_width_history adx = Return regime ->
  exists vol,
    classify_volatility percentile bb_width bb_width_history
      default_low_percentile default_high_percentile = Return vol
    /\ vol ∈ volatility_labels
    /\ regime
       = <["volatility"%string := vol]>
           (<["trend"%string := classify_trend adx]>
              (<["combined"%string := vol +:+ "_" +:+ classify_trend adx]> ∅)).
Proof.
  unfold classify_regime.
  destruct (classify_volatility _ _ _ _ _) as [vol|e] eqn:Hvol;
    [|discriminate].
  cbn [bind]. intros [= <-]. exists vol. split; [reflexivity|].
  split; [|reflexivity]. by eapply classify_volatility_label.
Qed.

(** Two results with the same combined label are the same dictionary. *)
Lemma classify_regime_inj
    (percentile percentile' : list float -> float -> result float)
    (bb_width bb_width' : float) (bb_width_history bb_width_history' : list float)
    (adx adx' : option float) (regime regime' : gmap string string) :
  classify_regime percentile bb_width bb_width_history adx = Return regime ->
  classify_regime percentile' bb_width' bb_width_history' adx'
  = Return regime' ->
  regime' !! "combined"%string = regime !! "combined"%string ->
  regime' = regime.
Proof.
  intros Hr Hr' Hsame.
  apply classify_regime_shape in Hr as (vol & _ & Hlv & ->).
  apply classify_regime_shape in Hr' as (vol' & _ & Hlv' & ->).
  rewrite !lookup_insert_ne in Hsame by done.
  rewrite !lookup_insert_eq in Hsame.
  injection Hsame as Hsame.
  destruct (combined_label_inj _ _ _ _ Hlv' (classify_trend_label adx')
              Hlv (classify_trend_label adx) Hsame) as [-> ->].
  reflexivity.
Qed.

(** X17. The dictionary of [classify_regime]. When the percentile routine
    returns, the result has the three keys [volatility], [trend] and
    [combined] and no other; the first two hold the labels of
    [classify_volatility] and [classify_trend], each one of its four labels,
    and the third the two joined by an underscore. The combined label is
    unambiguous: two results with the same [combined] are the same
    dictionary. *)
Theorem classify_regime_labels
    (percentile : list float -> float -> result float)
    (bb_width : float) (bb_width_history : list float) (adx : option float)
    (regime : gmap string string) :
  classify_regime percentile bb_width bb_width_history adx = Return regime ->
  exists vol trend,
    classify_volatility percentile bb_width bb_width_history
      default_low_percentile default_high_percentile = Return vol
    /\ trend = classify_trend adx
    /\ vol ∈ volatility_labels /\ trend ∈ trend_labels
    /\ regime !! "volatility"%string = Some vol
    /\ regime !! "trend"%string = Some trend
    /\ regime !! "combined"%string = Some (vol +:+ "_" +:+ trend)
    /\ (forall key, is_Some (regime !! key) ->
          key ∈ ["volatility"; "trend"; "combined"]%string)
    /\ (forall percentile' bb_width' bb_width_history' adx' regime',
          classify_regime percentile' bb_width' bb_width_history' adx'
          = Return regime' ->
          regime' !! "combined"%string = regime !! "combined"%string ->
          regime' = regime).
Proof.
  intros Hr.
  destruct (classify_regime_shape _ _ _ _ _ Hr) as (vol & Hvol & Hlv & Hshape).
  exists vol, (classify_trend adx).
  split; [exact Hvol|]. split; [reflexivity|].
  split; [exact Hlv|]. split; [apply classify_trend_label|].
  split; [rewrite Hshape; by rewrite lookup_insert_eq|].
  split; [rewrite Hshape, lookup_insert_ne by done;
          by rewrite lookup_insert_eq|].
  split; [rewrite Hshape, !lookup_insert_ne by done;
          by rewrite lookup_insert_eq|].
  split.
  - intros key [v Hkey]. rewrite Hshape in Hkey.
    rewrite !elem_of_cons.
    destruct (decide (key = "volatility"%string)) as [->|H1]; [by left|].
    destruct (decide (key = "trend"%string)) as [->|H2]; [right; by left|].
    destruct (decide (key = "combined"%string)) as [->|H3];
      [right; right; by left|].
    rewrite !lookup_insert_ne in Hkey by done.
    by rewrite lookup_empty in Hkey.
  - intros percentile' bb_width' bb_width_history' adx' regime' Hr' Hsame.
    by eapply (classify_regime_inj percentile percentile').
Qed.

Lemma classify_regime_labels_witness :
  exists regime,
    classify_regime np.percentile (of_Z 95) Sample.history (Some (of_Z 35))
    = Return regime
    /\ regime !! "combined"%string = Some "high_strong_trend"%string.
Proof.
  assert (Hr : exists regime,
            classify_regime np.percentile (of_Z 95) Sample.history
              (Some (of_Z 35)) = Return regime)
    by (eexists; vm_compute; reflexivity).
  destruct Hr as [regime Hr].
  exists regime. split; [exact Hr|].
  destruct (classify_regime_labels _ _ _ _ _ Hr)
    as (vol & trend & Hvol & -> & _ & _ & _ & _ & -> & _).
  assert (Hhigh : classify_volatility np.percentile (of_Z 95) Sample.history
                    default_low_percentile default_high_percentile
                  = Return "high"%string) by (vm_compute; reflexivity).
  rewrite Hhigh in Hvol. injection Hvol as <-. reflexivity.
Defined.

(** X18. A value that is not a number is classified [medium]. With a
    history of two observations or more, [classify_volatility] returns
    [medium] for a NaN [bb_width], and for every [bb_width] when both
    percentile thresholds are NaN; it does not return [unknown], the label
    [classify_trend] gives to a NaN. *)
Theorem classify_volatility_nan_is_medium
    (percentile : list float -> float -> result float)
    (bb_width : float) (bb_width_history : list float)
    (low_percentile high_percentile low_threshold high_threshold : float) :
  2 <= len bb_width_history ->
  percentile bb_width_history low_percentile = Return low_threshold ->
  percentile bb_width_history high_percentile = Return high_threshold ->
  (is_nan bb_width = true
   \/ (is_nan low_threshold = true /\ is_nan high_threshold = true) ->
   classify_volatility percentile bb_width bb_width_history
     low_percentile high_percentile = Return "medium"%string)
  /\ classify_volatility percentile bb_width bb_width_history
       low_percentile high_percentile <> Return "unknown"%string.
Proof.
  intros Hlen Hlo Hhi. unfold classify_volatility.
  destruct bb_width_history as [|x rest] eqn:Hh; [unfold len in Hlen; simpl in Hlen; lia|].
  rewrite <- Hh in *. cbn [orb].
  destruct (len bb_width_history <? 2) eqn:Hlt;
    [apply Z.ltb_lt in Hlt; lia|].
  rewrite Hlo, Hhi. cbn [bind]. split.
  - intros [Hn|[Hnl Hnh]].
    + rewrite (ltb_nan_l _ _ Hn). unfold gtb.
      destruct bb_width; try discriminate.
      by destruct high_threshold as [[]|[]| |[] ? ?].
    + destruct low_threshold, high_threshold; try discriminate.
      by destruct bb_width as [[]|[]| |[] ? ?].
  - destruct (ltb bb_width low_threshold); [discriminate|].
    destruct (gtb bb_width high_threshold); discriminate.
Qed.

Lemma classify_volatility_nan_is_medium_witness :
  classify_volatility np.percentile nan Sample.history
    default_low_percentile default_high_percentile = Return "medium"%string.
Proof.
  assert (Hlo : exists lo, np.percentile Sample.history default_low_percentile
                           = Return lo) by (eexists; vm_compute; reflexivity).
  assert (Hhi : exists hi, np.percentile Sample.history default_high_percentile
                           = Return hi) by (eexists; vm_compute; reflexivity).
  destruct Hlo as [lo Hlo], Hhi as [hi Hhi].
  refine (proj1 (classify_volatility_nan_is_medium np.percentile nan
                   Sample.history default_low_percentile
                   default_high_percentile lo hi _ Hlo Hhi) _).
  - vm_compute. discriminate.
  - left. reflexivity.
Defined.

(** X19. A stronger trend never gets a weaker label. For two ADX values
    that are numbers, the label of the larger one ranks at least as high as
    the label of the smaller one, in the order [ranging], [weak_trend],
    [strong_trend]. *)
Theorem classify_trend_monotone (adx adx' : float) :
  leb adx adx' = true ->
  trend_rank (classify_trend (Some adx))
  <= trend_rank (classify_trend (Some adx')).
Proof.
  intros Hle. unfold classify_trend.
  assert (Hn : is_nan adx = false /\ is_nan adx' = false).
  { by destruct adx as [[]|[]| |[] ? ?], adx' as [[]|[]| |[] ? ?]. }
  destruct Hn as [-> ->].
  destruct (ltb adx' (of_Z 20)) eqn:H20'.
  - by rewrite (leb_ltb_trans _ _ _ Hle H20').
  - destruct (ltb adx' (of_Z 30)) eqn:H30'.
    + rewrite (leb_ltb_trans _ _ _ Hle H30').
      by destruct (ltb adx (of_Z 20)).
    + destruct (ltb adx (of_Z 20)); [done|].
      by destruct (ltb adx (of_Z 30)).
Qed.

Lemma classify_trend_monotone_witness :
  trend_rank (classify_trend (Some (of_Z 19)))
  <= trend_rank (classify_trend (Some (of_Z 31))).
Proof.
  apply (classify_trend_monotone (of_Z 19) (of_Z 31)).
  vm_compute. reflexivity.
Defined.

(** X20. A wider band never gets a calmer label. For one history and one
    pair of percentiles, and two band widths that are numbers, the label of
    the larger width ranks at least as high as the label of the smaller, in
    the order [low], [medium], [high]; and both calls return or both
    raise. *)
Theorem classify_volatility_monotone
    (percentile : list float -> float -> result float)
    (bb_width bb_width' : float) (bb_width_history : list float)
    (low_percentile high_percentile : float) :
  leb bb_width bb_width' = true ->
  match classify_volatility percentile bb_width bb_width_history
          low_percentile high_percentile,
        classify_volatility percentile bb_width' bb_width_history
          low_percentile high_percentile with
  | Return label, Return label' =>
      volatility_rank label <= volatility_rank label'
  | Raise e, Raise e' => e = e'
  | _, _ => False
  end.
Proof.
  intros Hle. unfold classify_volatility.
  destruct (_ || _); [done|].
  destruct (percentile bb_width_history low_percentile) as [lo|e]; [|done].
  cbn [bind].
  destruct (percentile bb_width_history high_percentile) as [hi|e]; [|done].
  cbn [bind]. unfold gtb.
  destruct (ltb bb_width' lo) eqn:Hlo'.
  - by rewrite (leb_ltb_trans _ _ _ Hle Hlo').
  - destruct (ltb bb_width lo); [by destruct (ltb hi bb_width')|].
    destruct (ltb hi bb_width) eqn:Hhi.
    + by rewrite (ltb_leb_trans _ _ _ Hhi Hle).
    + by destruct (ltb hi bb_width').
Qed.

Lemma classify_volatility_monotone_witness :
  volatility_rank "low" <= volatility_rank "high".
Proof.
  pose proof (classify_volatility_monotone np.percentile (of_Z 15) (of_Z 95)
                Sample.history default_low_percentile
                default_high_percentile) as H.
  assert (H15 : classify_volatility np.percentile (of_Z 15) Sample.history
                  default_low_percentile default_high_percentile
                = Return "low"%string) by (vm_compute; reflexivity).
  assert (H95 : classify_volatility np.percentile (of_Z 95) Sample.history
                  default_low_percentile default_high_percentile
                = Return "high"%string) by (vm_compute; reflexivity).
  rewrite H15, H95 in H. apply H. vm_compute. reflexivity.
Defined.

(** ** The classifier and the recorder together *)

(** X21. [regime_changed] tells whether a label changed. When a trade is
    entered under one result of [classify_regime] and then closed under
    another, the row of the trade is closed with [regime_changed = 0] if the
    two results are the same dictionary and [1] if they differ; and they are
    the same exactly when the volatility labels agree and the trend labels
    agree. *)
Theorem regime_changed_tells_labels
    (percentile percentile' : list float -> float -> result float)
    (bb_width bb_width' : float)
    (bb_width_history bb_width_history' : list float)
    (adx adx' : option float) (entry_regime exit_regime : gmap string string)
    (now : string) (trade_id : pyval) (pair' strategy entry_time : string)
    (entry_price : float) (indicators : gmap string float) (db : database)
    (lastrowid : Z) (db' : database)
    (exit_time : string) (exit_price : float) (exit_reason : string)
    (indicators' : gmap string float)
    (entry_price' duration_minutes : float) :
  classify_regime percentile bb_width bb_width_history adx
  = Return entry_regime ->
  classify_regime percentile' bb_width' bb_width_history' adx'
  = Return exit_regime ->
  TradeLogger.log_entry now trade_id pair' strategy entry_time entry_price
    indicators entry_regime db = Return (lastrowid, db') ->
  exists r,
    last (trade_log_rows
            (snd (TradeLogger.log_exit trade_id exit_time exit_price
                    exit_reason indicators' exit_regime entry_price'
                    duration_minutes db'))) = Some r
    /\ trade_log.id r = lastrowid
    /\ is_closed r = true
    /\ trade_log.entry_regime r = entry_regime !! "combined"%string
    /\ trade_log.exit_regime r = exit_regime !! "combined"%string
    /\ trade_log.regime_changed r
       = Some (if bool_decide (entry_regime = exit_regime) then 0 else 1)
    /\ (entry_regime = exit_regime <->
        entry_regime !! "volatility"%string = exit_regime !! "volatility"%string
        /\ entry_regime !! "trend"%string = exit_regime !! "trend"%string).
Proof.
  intros Hentry_regime Hexit_regime Hentry.
  apply log_entry_inv in Hentry
    as (new & Hrows & _ & _ & _ & Hnext & Hid & _ & _ & Hopen & Hcols).
  unfold entry_columns in Hcols.
  injection Hcols as Htid _ _ _ _ _ _ _ _ _ _ _ Hreg.
  destruct (next_id_above (trade_log.id <$> trade_log_rows db)
              (trade_log_seq db)) as [_ Habove].
  rewrite <- Hnext in Habove.
  (* the SELECT of [log_exit] finds the row just inserted *)
  assert (Hsel : TradeLogger.select_latest (str trade_id) (trade_log_rows db')
                 = Some new).
  { destruct (TradeLogger.select_latest (str trade_id) (trade_log_rows db'))
      as [row|] eqn:Hsel.
    - apply select_latest_some in Hsel as (Hin & _ & Hmax).
      rewrite Hrows in Hin, Hmax.
      apply elem_of_app in Hin as [Hin|Hin].
      + assert (Hlt : trade_log.id row < lastrowid).
        { apply Habove, list_elem_of_fmap. by exists row. }
        assert (Hle : trade_log.id new <= trade_log.id row).
        { apply Hmax; [|exact Htid]. apply elem_of_app. right. by left. }
        lia.
      + apply list_elem_of_singleton in Hin. by rewrite Hin.
    - rewrite select_latest_none in Hsel. exfalso.
      apply (Hsel new); [|exact Htid].
      rewrite Hrows. apply elem_of_app. right. by left. }
  rewrite (log_exit_found _ _ _ _ _ _ _ _ _ _ Hsel).
  cbn [snd trade_log_rows]. rewrite Hrows, fmap_app. cbn [fmap list_fmap].
  rewrite last_snoc.
  unfold TradeLogger.update_matches.
  rewrite (bool_decide_eq_true_2 _ Htid), Hopen. cbn [andb].
  eexists. split; [reflexivity|].
  cbn [TradeLogger.set_exit trade_log.id trade_log.entry_regime
       trade_log.exit_regime trade_log.regime_changed].
  split; [exact Hid|]. split; [reflexivity|].
  split; [exact Hreg|]. split; [reflexivity|].
  assert (Hiff : entry_regime = exit_regime <->
                 trade_log.entry_regime new = exit_regime !! "combined"%string).
  { rewrite Hreg. split; [by intros ->|]. intros Hsame.
    by eapply (classify_regime_inj percentile' percentile). }
  split.
  - unfold regime_changed_against. f_equal.
    destruct (decide (entry_regime = exit_regime)) as [Heq|Hne].
    + rewrite (bool_decide_eq_true_2 _ Heq).
      rewrite bool_decide_eq_false_2; [reflexivity|].
      intros Hdiff. by apply Hdiff, Hiff.
    + rewrite (bool_decide_eq_false_2 _ Hne).
      rewrite bool_decide_eq_true_2; [reflexivity|].
      intros Hsame. by apply Hne, Hiff.
  - split; [by intros ->|]. intros [Hv Ht].
    apply classify_regime_shape in Hentry_regime as (vol & _ & _ & ->).
    apply classify_regime_shape in Hexit_regime as (vol' & _ & _ & ->).
    rewrite !lookup_insert_eq in Hv.
    rewrite !lookup_insert_ne in Ht by done.
    rewrite !lookup_insert_eq in Ht.
    injection Hv as ->. injection Ht as ->. reflexivity.
Qed.

Lemma regime_changed_tells_labels_witness :
  exists entry_regime exit_regime r,
    classify_regime np.percentile (of_Z 15) Sample.history (Some (of_Z 10))
    = Return entry_regime
    /\ classify_regime np.percentile (of_Z 95) Sample.history (Some (of_Z 35))
       = Return exit_regime
    /\ last (trade_log_rows
               (run [LogEntry "2026-02-23 12:00:00" (PyStr "1") "BTC/USDT"
                       "momentum_rsi_bb" "2026-02-23T12:00:00" (of_Z 100)
                       Sample.indicators entry_regime;
                     LogExit (PyStr "1") "2026-02-23T13:00:00" (of_Z 103)
                       "roi" Sample.indicators exit_regime (of_Z 100)
                       (of_Z 60)]
                  empty_database)) = Some r
    /\ trade_log.regime_changed r
       = Some (if bool_decide (entry_regime = exit_regime) then 0 else 1).
Proof.
  assert (Hentry : exists regime,
            classify_regime np.percentile (of_Z 15) Sample.history
              (Some (of_Z 10)) = Return regime)
    by (eexists; vm_compute; reflexivity).
  assert (Hexit : exists regime,
            classify_regime np.percentile (of_Z 95) Sample.history
              (Some (of_Z 35)) = Return regime)
    by (eexists; vm_compute; reflexivity).
  destruct Hentry as [entry_regime Hentry], Hexit as [exit_regime Hexit].
  assert (Hlog : exists db',
            TradeLogger.log_entry "2026-02-23 12:00:00" (PyStr "1")
              "BTC/USDT" "momentum_rsi_bb" "2026-02-23T12:00:00" (of_Z 100)
              Sample.indicators entry_regime empty_database
            = Return (1, db')) by (eexists; reflexivity).
  destruct Hlog as [db' Hlog].
  destruct (regime_changed_tells_labels _ _ _ _ _ _ _ _ _ _ _ _ _ _ _ _ _ _
              _ _ "2026-02-23T13:00:00" (of_Z 103) "roi" Sample.indicators
              (of_Z 100) (of_Z 60) Hentry Hexit Hlog)
    as (r & Hlast & _ & _ & _ & _ & Hchanged & _).
  exists entry_regime, exit_regime, r.
  split; [exact Hentry|]. split; [exact Hexit|]. split; [|exact Hchanged].
  unfold run. cbn [fold_left step]. rewrite Hlog. exact Hlast.
Defined.

(** ** Signals *)

Section SeriesLookup.

Lemma length_shift (s : list float) : length (pd.shift s) = length s.
Proof.
  destruct (decide (s = [])) as [->|Hne]; [reflexivity|].
  destruct (exists_last Hne) as (front & y & ->).
  unfold pd.shift. destruct (front ++ [y]) eqn:Hs.
  - by destruct front.
  - rewrite <- Hs, removelast_last, length_app. simpl. lia.
Qed.

Lemma lookup_shift_0 (s : list float) (v : float) :
  pd.shift s !! 0%nat = Some v -> v = nan.
Proof. destruct s; simpl; [done|]. by intros [= <-]. Qed.

Lemma lookup_removelast (s : list float) (j : nat) :
  removelast s !! j = if decide (S j < length s)%nat then s !! j else None.
Proof.
  destruct (decide (s = [])) as [->|Hne]; [by destruct (decide _)|].
  destruct (exists_last Hne) as (front & y & ->).
  rewrite removelast_last, length_app. cbn [length].
  destruct (decide (S j < length front + 1)%nat) as [Hlt|Hge].
  - rewrite lookup_app_l by lia. reflexivity.
  - apply lookup_ge_None. lia.
Qed.

Lemma lookup_shift_S (s : list float) (j : nat) (v : float) :
  pd.shift s !! S j = Some v <-> s !! j = Some v /\ is_Some (s !! S j).
Proof.
  destruct s as [|x s]; [simpl; split; [done|by intros [? _]]|].
  unfold pd.shift. change ((nan :: removelast (x :: s)) !! S j)
    with (removelast (x :: s) !! j).
  rewrite lookup_removelast, lookup_lt_is_Some.
  destruct (decide (S j < length (x :: s))%nat); [tauto|].
  split; [done|tauto].
Qed.

Lemma lookup_pad_true (a : list bool) (n i : nat) :
  (a ++ replicate n false) !! i = Some true <-> a !! i = Some true.
Proof.
  destruct (decide (i < length a)%nat) as [Hlt|Hge].
  - by rewrite lookup_app_l.
  - rewrite lookup_app_r by lia. rewrite (lookup_ge_None_2 a i) by lia.
    split; [|done]. intros H. apply lookup_replicate in H as [H _]. done.
Qed.

(** [a & b] is true where both operands are, whatever their lengths. *)
Lemma lookup_and_true (a b : list bool) (i : nat) :
  pd.and_ a b !! i = Some true <-> a !! i = Some true /\ b !! i = Some true.
Proof.
  unfold pd.and_. rewrite lookup_zip_with.
  rewrite <- (lookup_pad_true a (length b - length a) i).
  rewrite <- (lookup_pad_true b (length a - length b) i).
  destruct ((a ++ _) !! i) as [[]|], ((b ++ _) !! i) as [[]|]; simpl;
    split; try done; try (by intros [? ?]).
Qed.

Lemma length_and (a b : list bool) :
  length (pd.and_ a b) = (length a `max` length b)%nat.
Proof.
  unfold pd.and_. rewrite length_zip_with, !length_app, !length_replicate. lia.
Qed.

Lemma lookup_gt_scalar (s : list float) (x : float) (i : nat) :
  pd.gt_scalar s x !! i = Some true <->
  exists v, s !! i = Some v /\ gtb v x = true.
Proof.
  unfold pd.gt_scalar. rewrite list_lookup_fmap.
  destruct (s !! i) as [v|]; simpl; split.
  - intros [= H]. by exists v.
  - intros (v' & [= <-] & H). by rewrite H.
  - done.
  - by intros (? & ? & _).
Qed.

Lemma lookup_le_scalar (s : list float) (x : float) (i : nat) :
  pd.le_scalar s x !! i = Some true <->
  exists v, s !! i = Some v /\ leb v x = true.
Proof.
  unfold pd.le_scalar. rewrite list_lookup_fmap.
  destruct (s !! i) as [v|]; simpl; split.
  - intros [= H]. by exists v.
  - intros (v' & [= <-] & H). by rewrite H.
  - done.
  - by intros (? & ? & _).
Qed.

Lemma compare_inv (op : float -> float -> bool) (a b : list float) :
  (length a <> length b /\ pd.compare op a b = Raise ValueError)
  \/ (length a = length b /\ pd.compare op a b = Return (zip_with op a b)).
Proof.
  unfold pd.compare. destruct (decide (length a = length b)) as [H|H].
  - right. by rewrite (bool_decide_eq_true_2 _ H).
  - left. by rewrite (bool_decide_eq_false_2 _ H).
Qed.

Lemma lookup_zip_true (op : float -> float -> bool) (a b : list float)
    (i : nat) :
  zip_with op a b !! i = Some true <->
  exists x y, a !! i = Some x /\ b !! i = Some y /\ op x y = true.
Proof.
  rewrite lookup_zip_with.
  destruct (a !! i) as [x|], (b !! i) as [y|]; simpl; split;
    try done; try (by intros (? & ? & ? & ? & _)).
  - intros [= H]. by exists x, y.
  - intros (x' & y' & [= <-] & [= <-] & H). by rewrite H.
Qed.

Lemma gtb_nan_r (x : float) : gtb x nan = false.
Proof. by destruct x as [[]|[]| |[] ? ?]. Qed.

Lemma ltb_nan_r (x : float) : ltb x nan = false.
Proof. by destruct x as [[]|[]| |[] ? ?]. Qed.

Lemma leb_nan_l (x : float) : leb nan x = false.
Proof. by destruct x as [[]|[]| |[] ? ?]. Qed.

(** The crossing of a scalar threshold, candle by candle. *)
Lemma lookup_crossed_scalar (series : list float) (x : float) (i : nat) :
  pd.and_ (pd.gt_scalar series x) (pd.le_scalar (pd.shift series) x) !! i
  = Some true <->
  exists j prev cur,
    i = S j /\ series !! j = Some prev /\ series !! S j = Some cur
    /\ leb prev x = true /\ gtb cur x = true.
Proof.
  rewrite lookup_and_true, lookup_gt_scalar, lookup_le_scalar. split.
  - intros [(cur & Hcur & Hgt) (prev & Hprev & Hle)].
    destruct i as [|j].
    + apply lookup_shift_0 in Hprev as ->. by rewrite leb_nan_l in Hle.
    + apply lookup_shift_S in Hprev as [Hprev _].
      by exists j, prev, cur.
  - intros (j & prev & cur & -> & Hprev & Hcur & Hle & Hgt). split.
    + by exists cur.
    + exists prev. split; [|exact Hle]. apply lookup_shift_S. by split.
Qed.

End SeriesLookup.

(** X22. [crossed_above] with a number as threshold. The call returns a
    Series as long as its input. It is true at a candle exactly when the
    value there is above the threshold and the value one candle earlier is
    at or below it; so it is not true at the first candle, nor at two
    candles in a row. *)
Theorem crossed_above_scalar (series : list float) (x : float) :
  exists out,
    crossed_above series (Scalar x) = Return out
    /\ length out = length series
    /\ (forall i,
          out !! i = Some true <->
          exists j prev cur,
            i = S j /\ series !! j = Some prev /\ series !! S j = Some cur
            /\ leb prev x = true /\ gtb cur x = true)
    /\ out !! 0%nat <> Some true
    /\ (forall i, out !! i = Some true -> out !! S i <> Some true).
Proof.
  eexists. split; [reflexivity|].
  split.
  { rewrite length_and. unfold pd.gt_scalar, pd.le_scalar.
    rewrite !length_fmap, length_shift. lia. }
  split; [apply lookup_crossed_scalar|]. split.
  - intros H. apply lookup_crossed_scalar in H as (j & ? & ? & ? & _). done.
  - intros i Hi Hsi.
    apply lookup_crossed_scalar in Hi as (j & p & c & -> & _ & Hc & _ & Hgt).
    apply lookup_crossed_scalar in Hsi
      as (j' & p' & c' & [= <-] & Hp' & _ & Hle & _).
    rewrite Hc in Hp'. injection Hp' as <-.
    unfold gtb in Hgt. by rewrite (leb_ltb_flip _ _ Hle) in Hgt.
Qed.

(** X23. [crossed_above] with a Series as threshold. The call raises
    [ValueError] exactly when the two Series differ in length. Otherwise it
    returns a Series of that length, true at a candle exactly when the value
    there is above the threshold there and the value one candle earlier is
    at or below the threshold one candle earlier. *)
Theorem crossed_above_series (series other : list float) :
  (length series <> length other ->
   crossed_above series (Series other) = Raise ValueError)
  /\ (length series = length other ->
      exists out,
        crossed_above series (Series other) = Return out
        /\ length out = length series
        /\ forall i,
             out !! i = Some true <->
             exists j prev cur other_prev other_cur,
               i = S j
               /\ series !! j = Some prev /\ series !! S j = Some cur
               /\ other !! j = Some other_prev
               /\ other !! S j = Some other_cur
               /\ leb prev other_prev = true /\ gtb cur other_cur = true).
Proof.
  unfold crossed_above. split.
  - intros Hne. by destruct (compare_inv gtb series other) as [[_ ->]|[? _]].
  - intros Heq.
    destruct (compare_inv gtb series other) as [[? _]|[_ ->]]; [done|].
    destruct (compare_inv leb (pd.shift series) (pd.shift other))
      as [[Hne _]|[_ ->]]; [by rewrite !length_shift in Hne|].
    cbn [bind]. eexists. split; [reflexivity|]. split.
    { rewrite length_and, !length_zip_with, !length_shift. lia. }
    intros i. rewrite lookup_and_true, !lookup_zip_true. split.
    + intros [(cur & ocur & Hc & Hoc & Hgt) (prev & oprev & Hp & Hop & Hle)].
      destruct i as [|j].
      * apply lookup_shift_0 in Hp as ->. by rewrite leb_nan_l in Hle.
      * apply lookup_shift_S in Hp as [Hp _].
        apply lookup_shift_S in Hop as [Hop _].
        by exists j, prev, cur, oprev, ocur.
    + intros (j & prev & cur & oprev & ocur & -> & Hp & Hc & Hop & Hoc
              & Hle & Hgt).
      split; [by exists cur, ocur|]. exists prev, oprev.
      split; [apply lookup_shift_S; by split|].
      split; [apply lookup_shift_S; by split|]. exact Hle.
Qed.

Lemma crossed_above_series_witness :
  crossed_above SampleSignals.rsi_entry (Series [of_Z 30])
  = Raise ValueError
  /\ exists out,
       crossed_above SampleSignals.rsi_entry
         (Series (replicate 4 (of_Z 30))) = Return out
       /\ length out = 4%nat.
Proof.
  split.
  - apply (proj1 (crossed_above_series SampleSignals.rsi_entry [of_Z 30])).
    vm_compute. discriminate.
  - destruct (proj2 (crossed_above_series SampleSignals.rsi_entry
                       (replicate 4 (of_Z 30))) eq_refl)
      as (out & Hout & Hlen & _).
    exists out. split; [exact Hout|exact Hlen].
Defined.

Section LongSignals.

Context (rsi tema bb_middle volume : list float) (rsi_threshold : Z).

(** The entry signal is the conjunction of its four conditions, or the
    error of the comparison of [tema] with [bb_middle]. *)
Lemma check_entry_long_inv :
  (length tema <> length bb_middle
   /\ check_entry_long rsi tema bb_middle volume rsi_threshold
      = Raise ValueError)
  \/ (length tema = length bb_middle
      /\ check_entry_long rsi tema bb_middle volume rsi_threshold
         = Return
             (pd.and_
                (pd.and_
                   (pd.and_
                      (pd.and_ (pd.gt_scalar rsi (of_Z rsi_threshold))
                         (pd.le_scalar (pd.shift rsi) (of_Z rsi_threshold)))
                      (zip_with leb tema bb_middle))
                   (zip_with gtb tema (pd.shift tema)))
                (pd.gt_scalar volume zero))).
Proof.
  unfold check_entry_long, crossed_above. cbn [bind].
  destruct (compare_inv leb tema bb_middle) as [[Hne ->]|[Heq ->]];
    [by left|right].
  split; [exact Heq|]. cbn [bind].
  destruct (compare_inv gtb tema (pd.shift tema)) as [[Hne _]|[_ ->]];
    [by rewrite length_shift in Hne|].
  reflexivity.
Qed.

Lemma check_exit_long_inv :
  (length tema <> length bb_middle
   /\ check_exit_long rsi tema bb_middle volume rsi_threshold
      = Raise ValueError)
  \/ (length tema = length bb_middle
      /\ check_exit_long rsi tema bb_middle volume rsi_threshold
         = Return
             (pd.and_
                (pd.and_
                   (pd.and_
                      (pd.and_ (pd.gt_scalar rsi (of_Z rsi_threshold))
                         (pd.le_scalar (pd.shift rsi) (of_Z rsi_threshold)))
                      (zip_with gtb tema bb_middle))
                   (zip_with ltb tema (pd.shift tema)))
                (pd.gt_scalar volume zero))).
Proof.
  unfold check_exit_long, crossed_above. cbn [bind].
  destruct (compare_inv gtb tema bb_middle) as [[Hne ->]|[Heq ->]];
    [by left|right].
  split; [exact Heq|]. cbn [bind].
  destruct (compare_inv ltb tema (pd.shift tema)) as [[Hne _]|[_ ->]];
    [by rewrite length_shift in Hne|].
  reflexivity.
Qed.

(** A signal made of a crossing of [rsi], a comparison of [tema] with
    [bb_middle], a comparison of [tema] with its previous value and a
    positive [volume], candle by candle. *)
Lemma lookup_long_signal (band move : float -> float -> bool) (i : nat) :
  (forall x, move x nan = false) ->
  pd.and_
    (pd.and_
       (pd.and_
          (pd.and_ (pd.gt_scalar rsi (of_Z rsi_threshold))
             (pd.le_scalar (pd.shift rsi) (of_Z rsi_threshold)))
          (zip_with band tema bb_middle))
       (zip_with move tema (pd.shift tema)))
    (pd.gt_scalar volume zero) !! i = Some true <->
  exists j rsi_prev rsi_cur tema_prev tema_cur bb_cur volume_cur,
    i = S j
    /\ rsi !! j = Some rsi_prev /\ rsi !! S j = Some rsi_cur
    /\ tema !! j = Some tema_prev /\ tema !! S j = Some tema_cur
    /\ bb_middle !! S j = Some bb_cur /\ volume !! S j = Some volume_cur
    /\ leb rsi_prev (of_Z rsi_threshold) = true
    /\ gtb rsi_cur (of_Z rsi_threshold) = true
    /\ band tema_cur bb_cur = true
    /\ move tema_cur tema_prev = true
    /\ gtb volume_cur zero = true.
Proof.
  intros Hnan.
  do 3 rewrite lookup_and_true.
  rewrite lookup_crossed_scalar, !lookup_zip_true, lookup_gt_scalar.
  split.
  - intros ((((j & rp & rc & -> & Hrp & Hrc & Hle & Hgt)
              & (tc & bc & Htc & Hbc & Hband))
             & (tc' & tp & Htc' & Htp & Hmove))
            & (vc & Hvc & Hvol)).
    rewrite Htc in Htc'. injection Htc' as <-.
    apply lookup_shift_S in Htp as [Htp _].
    by exists j, rp, rc, tp, tc, bc, vc.
  - intros (j & rp & rc & tp & tc & bc & vc & -> & Hrp & Hrc & Htp & Htc
            & Hbc & Hvc & Hle & Hgt & Hband & Hmove & Hvol).
    split; [split; [split|]|].
    + by exists j, rp, rc.
    + by exists tc, bc.
    + exists tc, tp. split; [exact Htc|]. split; [|exact Hmove].
      apply lookup_shift_S. by split.
    + by exists vc.
Qed.

End LongSignals.

(** X24. Where the entry signal fires. For a threshold that a float holds
    exactly, [check_entry_long] raises [ValueError] exactly when [tema] and
    [bb_middle] differ in length.
    Otherwise it returns a Series as long as the longest of its inputs, true
    at a candle exactly when, on that candle, RSI is above the threshold
    having been at or below it one candle earlier, TEMA is at or below the
    middle band and above its previous value, and the volume is above
    zero. *)
Theorem check_entry_long_fires (rsi tema bb_middle volume : list float)
    (rsi_threshold : Z) :
  Z.abs rsi_threshold <= 2 ^ 53 ->
  (length tema <> length bb_middle ->
   check_entry_long rsi tema bb_middle volume rsi_threshold
   = Raise ValueError)
  /\ (length tema = length bb_middle ->
      exists out,
        check_entry_long rsi tema bb_middle volume rsi_threshold = Return out
        /\ length out
           = ((length rsi `max` length tema) `max` length volume)%nat
        /\ forall i,
             out !! i = Some true <->
             exists j rsi_prev rsi_cur tema_prev tema_cur bb_cur volume_cur,
               i = S j
               /\ rsi !! j = Some rsi_prev /\ rsi !! S j = Some rsi_cur
               /\ tema !! j = Some tema_prev /\ tema !! S j = Some tema_cur
               /\ bb_middle !! S j = Some bb_cur
               /\ volume !! S j = Some volume_cur
               /\ leb rsi_prev (of_Z rsi_threshold) = true
               /\ gtb rsi_cur (of_Z rsi_threshold) = true
               /\ leb tema_cur bb_cur = true
               /\ gtb tema_cur tema_prev = true
               /\ gtb volume_cur zero = true).
Proof.
  intros _.
  destruct (check_entry_long_inv rsi tema bb_middle volume rsi_threshold)
    as [[Hne ->]|[Heq ->]]; (split; [done|]); [done|].
  intros _. eexists. split; [reflexivity|]. split.
  - rewrite !length_and, !length_zip_with, length_shift.
    unfold pd.gt_scalar, pd.le_scalar. rewrite !length_fmap, length_shift.
    lia.
  - intros i. apply lookup_long_signal, gtb_nan_r.
Qed.

Lemma check_entry_long_fires_witness :
  check_entry_long SampleSignals.rsi_entry SampleSignals.tema_rising
    (SampleSignals.series [100; 100; 100]) SampleSignals.volume 30
  = Raise ValueError
  /\ exists out,
       check_entry_long SampleSignals.rsi_entry SampleSignals.tema_rising
         SampleSignals.bb_middle SampleSignals.volume 30 = Return out
       /\ out !! 2%nat = Some true.
Proof.
  split.
  - apply (proj1 (check_entry_long_fires _ _ _ _ 30 ltac:(simpl; lia))).
    vm_compute. discriminate.
  - destruct (proj2 (check_entry_long_fires SampleSignals.rsi_entry
                       SampleSignals.tema_rising SampleSignals.bb_middle
                       SampleSignals.volume 30 ltac:(simpl; lia)) eq_refl)
      as (out & Hout & _ & Hfires).
    exists out. split; [exact Hout|]. apply Hfires.
    exists 1%nat, (of_Z 28), (of_Z 32), (of_Z 92), (of_Z 94), (of_Z 100),
      (of_Z 1000).
    repeat split; vm_compute; reflexivity.
Defined.

(** X25. Where the exit signal fires. For a threshold that a float holds
    exactly, [check_exit_long] raises [ValueError] exactly when [tema] and
    [bb_middle] differ in length.
    Otherwise it returns a Series as long as the longest of its inputs, true
    at a candle exactly when, on that candle, RSI is above the threshold
    having been at or below it one candle earlier, TEMA is above the middle
    band and below its previous value, and the volume is above zero. *)
Theorem check_exit_long_fires (rsi tema bb_middle volume : list float)
    (rsi_threshold : Z) :
  Z.abs rsi_threshold <= 2 ^ 53 ->
  (length tema <> length bb_middle ->
   check_exit_long rsi tema bb_middle volume rsi_threshold
   = Raise ValueError)
  /\ (length tema = length bb_middle ->
      exists out,
        check_exit_long rsi tema bb_middle volume rsi_threshold = Return out
        /\ length out
           = ((length rsi `max` length tema) `max` length volume)%nat
        /\ forall i,
             out !! i = Some true <->
             exists j rsi_prev rsi_cur tema_prev tema_cur bb_cur volume_cur,
               i = S j
               /\ rsi !! j = Some rsi_prev /\ rsi !! S j = Some rsi_cur
               /\ tema !! j = Some tema_prev /\ tema !! S j = Some tema_cur
               /\ bb_middle !! S j = Some bb_cur
               /\ volume !! S j = Some volume_cur
               /\ leb rsi_prev (of_Z rsi_threshold) = true
               /\ gtb rsi_cur (of_Z rsi_threshold) = true
               /\ gtb tema_cur bb_cur = true
               /\ ltb tema_cur tema_prev = true
               /\ gtb volume_cur zero = true).
Proof.
  intros _.
  destruct (check_exit_long_inv rsi tema bb_middle volume rsi_threshold)
    as [[Hne ->]|[Heq ->]]; (split; [done|]); [done|].
  intros _. eexists. split; [reflexivity|]. split.
  - rewrite !length_and, !length_zip_with, length_shift.
    unfold pd.gt_scalar, pd.le_scalar. rewrite !length_fmap, length_shift.
    lia.
  - intros i. apply lookup_long_signal, ltb_nan_r.
Qed.

Lemma check_exit_long_fires_witness :
  check_exit_long SampleSignals.rsi_exit SampleSignals.tema_falling
    (SampleSignals.series [100; 100; 100]) SampleSignals.volume 70
  = Raise ValueError
  /\ exists out,
       check_exit_long SampleSignals.rsi_exit SampleSignals.tema_falling
         SampleSignals.bb_middle SampleSignals.volume 70 = Return out
       /\ out !! 2%nat = Some true.
Proof.
  split.
  - apply (proj1 (check_exit_long_fires _ _ _ _ 70 ltac:(simpl; lia))).
    vm_compute. discriminate.
  - destruct (proj2 (check_exit_long_fires SampleSignals.rsi_exit
                       SampleSignals.tema_falling SampleSignals.bb_middle
                       SampleSignals.volume 70 ltac:(simpl; lia)) eq_refl)
      as (out & Hout & _ & Hfires).
    exists out. split; [exact Hout|]. apply Hfires.
    exists 1%nat, (of_Z 68), (of_Z 72), (of_Z 106), (of_Z 104), (of_Z 100),
      (of_Z 1000).
    repeat split; vm_compute; reflexivity.
Defined.

(** X26. Entry and exit exclude each other, and neither repeats. For the
    same [tema] and [bb_middle], whatever the RSI, the volume and the two
    thresholds (that a float holds exactly), no candle has both the entry
    and the exit signal. Neither
    signal fires on the first candle, nor on two candles in a row. *)
Theorem entry_and_exit_exclusive
    (rsi rsi' tema bb_middle volume volume' : list float)
    (entry_threshold exit_threshold : Z) (entry exit : list bool) :
  Z.abs entry_threshold <= 2 ^ 53 -> Z.abs exit_threshold <= 2 ^ 53 ->
  check_entry_long rsi tema bb_middle volume entry_threshold = Return entry ->
  check_exit_long rsi' tema bb_middle volume' exit_threshold = Return exit ->
  (forall i, ~ (entry !! i = Some true /\ exit !! i = Some true))
  /\ entry !! 0%nat <> Some true /\ exit !! 0%nat <> Some true
  /\ (forall i, entry !! i = Some true -> entry !! S i <> Some true)
  /\ (forall i, exit !! i = Some true -> exit !! S i <> Some true).
Proof.
  intros _ _ Hentry Hexit.
  destruct (check_entry_long_inv rsi tema bb_middle volume entry_threshold)
    as [[_ He]|[_ He]]; rewrite He in Hentry; [discriminate|].
  destruct (check_exit_long_inv rsi' tema bb_middle volume' exit_threshold)
    as [[_ Hx]|[_ Hx]]; rewrite Hx in Hexit; [discriminate|].
  injection Hentry as <-. injection Hexit as <-. clear He Hx.
  pose proof (fun i => lookup_long_signal rsi tema bb_middle volume
                         entry_threshold leb gtb i gtb_nan_r) as He.
  pose proof (fun i => lookup_long_signal rsi' tema bb_middle volume'
                         exit_threshold gtb ltb i ltb_nan_r) as Hx.
  assert (Hrow : forall (series : list float) (x : float) j (c p' : float),
            series !! S j = Some c -> series !! S j = Some p' ->
            gtb c x = true -> leb p' x = true -> False).
  { intros series x j c p' Hc Hp' Hgt Hle.
    rewrite Hc in Hp'. injection Hp' as <-.
    unfold gtb in Hgt. by rewrite (leb_ltb_flip _ _ Hle) in Hgt. }
  split; [|split; [|split; [|split]]].
  - intros i [Hi Hi'].
    apply He in Hi as (j & _ & _ & _ & tc & bc & _ & -> & _ & _ & _ & Htc
                       & Hbc & _ & _ & _ & Hle & _).
    apply Hx in Hi' as (j' & _ & _ & _ & tc' & bc' & _ & [= <-] & _ & _ & _
                        & Htc' & Hbc' & _ & _ & _ & Hgt & _).
    rewrite Htc in Htc'. injection Htc' as <-.
    rewrite Hbc in Hbc'. injection Hbc' as <-.
    unfold gtb in Hgt. by rewrite (leb_ltb_flip _ _ Hle) in Hgt.
  - intros H. by apply He in H as (j & ? & ? & ? & ? & ? & ? & ? & _).
  - intros H. by apply Hx in H as (j & ? & ? & ? & ? & ? & ? & ? & _).
  - intros i Hi Hsi.
    apply He in Hi as (j & _ & rc & _ & _ & _ & _ & -> & _ & Hrc & _ & _
                       & _ & _ & _ & Hgt & _).
    apply He in Hsi as (j' & rp' & _ & _ & _ & _ & _ & [= <-] & Hrp' & _ & _
                        & _ & _ & _ & Hle & _).
    exact (Hrow rsi _ j rc rp' Hrc Hrp' Hgt Hle).
  - intros i Hi Hsi.
    apply Hx in Hi as (j & _ & rc & _ & _ & _ & _ & -> & _ & Hrc & _ & _
                       & _ & _ & _ & Hgt & _).
    apply Hx in Hsi as (j' & rp' & _ & _ & _ & _ & _ & [= <-] & Hrp' & _ & _
                        & _ & _ & _ & Hle & _).
    exact (Hrow rsi' _ j rc rp' Hrc Hrp' Hgt Hle).
Qed.

Lemma entry_and_exit_exclusive_witness :
  exists entry exit,
    check_entry_long SampleSignals.rsi_entry SampleSignals.tema_rising
      SampleSignals.bb_middle SampleSignals.volume 30 = Return entry
    /\ check_exit_long SampleSignals.rsi_exit SampleSignals.tema_rising
         SampleSignals.bb_middle SampleSignals.volume 70 = Return exit
    /\ ~ (entry !! 2%nat = Some true /\ exit !! 2%nat = Some true).
Proof.
  do 2 eexists.
  assert (He : check_entry_long SampleSignals.rsi_entry
                 SampleSignals.tema_rising SampleSignals.bb_middle
                 SampleSignals.volume 30 = Return _)
    by (vm_compute; reflexivity).
  assert (Hx : check_exit_long SampleSignals.rsi_exit
                 SampleSignals.tema_rising SampleSignals.bb_middle
                 SampleSignals.volume 70 = Return _)
    by (vm_compute; reflexivity).
  split; [exact He|]. split; [exact Hx|].
  exact (proj1 (entry_and_exit_exclusive _ _ _ _ _ _ 30 70 _ _
                  ltac:(simpl; lia) ltac:(simpl; lia) He Hx) 2%nat).
Defined.

(** ** The strategy registry *)

(** X27. [get_strategy] returns a configuration exactly for the names
    [list_strategies] lists, and they are listed once each. For every other
    name it raises [KeyError] with a message that quotes the name and lists
    the names available; the configuration of a listed name enters below
    the RSI level at which it exits. *)
Theorem get_strategy_registered (name : string) :
  NoDup strategy_registry.list_strategies
  /\ (name ∈ strategy_registry.list_strategies ->
      exists config,
        strategy_registry.get_strategy name = strategy_registry.Found config
        /\ (name, config) ∈ strategy_registry.STRATEGIES
        /\ strategy_registry.entry_rsi_threshold config
           < strategy_registry.exit_rsi_threshold config)
  /\ (name ∉ strategy_registry.list_strategies ->
      strategy_registry.get_strategy name
      = strategy_registry.KeyError
          ("Strategy '" +:+ name +:+ "' not found. Available: "
           +:+ String.concat ", " strategy_registry.list_strategies)).
Proof.
  assert (Hlist : strategy_registry.list_strategies
                  = ["momentum_rsi_bb"%string]) by reflexivity.
  rewrite !Hlist. unfold strategy_registry.get_strategy.
  split; [|split].
  - apply NoDup_singleton.
  - intros Hin. apply list_elem_of_singleton in Hin as ->.
    eexists. split; [reflexivity|]. split; [by left|]. reflexivity.
  - intros Hnot.
    assert (Hne : "momentum_rsi_bb"%string <> name).
    { intros <-. apply Hnot. by left. }
    unfold strategy_registry.STRATEGIES at 1.
    cbn [strategy_registry.getitem].
    by rewrite (bool_decide_eq_false_2 _ Hne).
Qed.

Lemma get_strategy_registered_witness :
  (exists config,
      strategy_registry.get_strategy "momentum_rsi_bb"
      = strategy_registry.Found config)
  /\ strategy_registry.get_strategy "nope"
     = strategy_registry.KeyError
         "Strategy 'nope' not found. Available: momentum_rsi_bb".
Proof.
  split.
  - destruct (proj1 (proj2 (get_strategy_registered "momentum_rsi_bb")))
      as (config & Hget & _); [by left|]. by exists config.
  - rewrite (proj2 (proj2 (get_strategy_registered "nope"))); [reflexivity|].
    intros Hin. apply list_elem_of_singleton in Hin. discriminate Hin.
Defined.
